(** * poddonbot: booking dialogue and quiz engine of [bot.py]

    A shallow embedding of the slot-filling extractors, the booking
    dialogue manager and finalizer, and the quiz state machine with its
    coupon ledger, followed by the properties proved about them.

    Conventions of the model.
    - Python [str] values are lists of Unicode code points ([text]).  The
      character tables ([isdigit], [isalpha], [isspace], [lower_char]) cover
      Basic Latin and the Cyrillic block, the alphabet of the bot's
      vocabulary; other code points are neither digits nor letters here.
    - [re] patterns are syntax trees run by a backtracking matcher with
      Python's search order (leftmost start, greedy quantifiers, alternatives
      left to right).
    - The three CSV tables are the lists of rows last saved; the two
      process-wide dictionaries are finite maps.  The coupon ledger is read
      back the way [pd.read_csv] reads it: its code column, written as six
      digits, comes back as integers ([reread_coupons]).  The rows of the
      bookings table are kept as the handlers wrote them; what re-reading
      does to a text cell there (a phone of digits comes back as a number)
      is left out, and what is proved of earlier rows speaks of their id,
      owner, guest count, status and time stamps.
    - A handler runs from start to end without interleaving; a message sent
      to a chat is appended to the handler's output and never fails.
    - [datetime.now()] is read once per handler activation. *)

From stdpp Require Import gmap.
From Stdlib Require Import ZArith NArith List String Ascii Bool Lia.
Import ListNotations.

Open Scope Z_scope.

(** ** Text *)

Definition char := N.
Definition text := list char.

(** Decoding of the UTF-8 string literals of this file into code points. *)
Fixpoint utf8 (s : string) : text :=
  match s with
  | EmptyString => []
  | String a s1 =>
      let b := N_of_ascii a in
      if (b <? 128)%N then b :: utf8 s1
      else if (b <? 224)%N then
        match s1 with
        | String a1 s2 => ((b - 192) * 64 + (N_of_ascii a1 - 128))%N :: utf8 s2
        | EmptyString => []
        end
      else if (b <? 240)%N then
        match s1 with
        | String a1 (String a2 s3) =>
            ((b - 224) * 4096 + (N_of_ascii a1 - 128) * 64
             + (N_of_ascii a2 - 128))%N :: utf8 s3
        | _ => []
        end
      else
        match s1 with
        | String a1 (String a2 (String a3 s4)) =>
            ((b - 240) * 262144 + (N_of_ascii a1 - 128) * 4096
             + (N_of_ascii a2 - 128) * 64 + (N_of_ascii a3 - 128))%N :: utf8 s4
        | _ => []
        end
  end.

Definition in_range (lo hi c : N) : bool := ((lo <=? c) && (c <=? hi))%N.

Definition isdigit (c : char) : bool := in_range 48 57 c.

Definition isalpha (c : char) : bool :=
  in_range 65 90 c || in_range 97 122 c
  || in_range 1024 1153 c || in_range 1162 1327 c.

(** [\w] of [re]: letters, digits and the underscore. *)
Definition isword (c : char) : bool := isalpha c || isdigit c || (c =? 95)%N.

(** [str.isspace], also [\s] of [re]. *)
Definition isspace (c : char) : bool :=
  in_range 9 13 c || in_range 28 32 c || (c =? 133)%N || (c =? 160)%N
  || (c =? 5760)%N || in_range 8192 8202 c || (c =? 8232)%N || (c =? 8233)%N
  || (c =? 8239)%N || (c =? 8287)%N || (c =? 12288)%N.

Definition lower_char (c : char) : char :=
  if in_range 65 90 c then (c + 32)%N
  else if in_range 1040 1071 c then (c + 32)%N
  else if in_range 1024 1039 c then (c + 80)%N
  else c.

Definition lower (t : text) : text := map lower_char t.

Fixpoint lstrip (t : text) : text :=
  match t with
  | c :: t' => if isspace c then lstrip t' else t
  | [] => []
  end.

Definition strip (t : text) : text := rev (lstrip (rev (lstrip t))).

Fixpoint text_eqb (a b : text) : bool :=
  match a, b with
  | [], [] => true
  | x :: a', y :: b' => (x =? y)%N && text_eqb a' b'
  | _, _ => false
  end.

Fixpoint starts_with (p t : text) : bool :=
  match p, t with
  | [], _ => true
  | x :: p', y :: t' => (x =? y)%N && starts_with p' t'
  | _ :: _, [] => false
  end.

(** [p in t] on strings. *)
Fixpoint contains (p t : text) : bool :=
  starts_with p t ||
  match t with
  | [] => false
  | _ :: t' => contains p t'
  end.

(** [t.replace(ch, " ")] for a one-character [ch]. *)
Definition replace_char (ch : char) (t : text) : text :=
  map (fun c => if (c =? ch)%N then 32%N else c) t.

(** [t.split()]: the maximal runs of non-space characters. *)
Fixpoint split_ws_aux (cur : text) (t : text) : list text :=
  match t with
  | [] => match cur with [] => [] | _ => [rev cur] end
  | c :: t' =>
      if isspace c
      then match cur with [] => split_ws_aux [] t' | _ => rev cur :: split_ws_aux [] t' end
      else split_ws_aux (c :: cur) t'
  end.

Definition split_ws (t : text) : list text := split_ws_aux [] t.

(** [w.isalpha()]: non-empty and letters only. *)
Definition str_isalpha (w : text) : bool :=
  match w with [] => false | _ => forallb isalpha w end.

(** [" ".join(ws)]. *)
Fixpoint join_sp (ws : list text) : text :=
  match ws with
  | [] => []
  | [w] => w
  | w :: ws' => w ++ 32%N :: join_sp ws'
  end.

(** [int(s)] for a run of decimal digits. *)
Definition int_of (s : text) : Z :=
  fold_left (fun acc c => 10 * acc + (Z.of_N c - 48)) s 0.

Definition digit_char (d : Z) : char := Z.to_N (48 + d).

(** [str(n)] for [n >= 0]. *)
Fixpoint dec_aux (fuel : nat) (n : Z) (acc : text) : text :=
  match fuel with
  | O => acc
  | S f =>
      let acc' := digit_char (n mod 10) :: acc in
      if n <? 10 then acc' else dec_aux f (n / 10) acc'
  end.

Definition str_of_Z (n : Z) : text := dec_aux (S (Z.to_nat n)) n [].

(** [f"{n:0wd}"] for [n >= 0]. *)
Definition zfill (w : nat) (n : Z) : text :=
  let s := str_of_Z n in
  repeat 48%N (w - List.length s)%nat ++ s.

(** ** Regular expressions *)

Inductive cls : Type :=
| CDigit                       (* \d *)
| CWord                        (* \w *)
| CSpace                       (* \s *)
| CSet (l : text)              (* [abc] *)
| CUnion (a b : cls).

Fixpoint cls_test (c : cls) (x : char) : bool :=
  match c with
  | CDigit => isdigit x
  | CWord => isword x
  | CSpace => isspace x
  | CSet l => existsb (N.eqb x) l
  | CUnion a b => cls_test a x || cls_test b x
  end.

Inductive re : Type :=
| Chr (c : cls)                               (* one character of a class *)
| Lit (s : text)                              (* a literal string *)
| Seq (a b : re)
| Alt (a b : re)                              (* a|b *)
| Opt (a : re)                                (* (?:a)? *)
| Rep (c : cls) (lo : nat) (hi : option nat)  (* c{lo,hi}, greedy *)
| WB                                          (* \b *)
| Grp (n : nat) (a : re).                     (* capturing group n *)

Fixpoint Cat (rs : list re) : re :=
  match rs with
  | [] => Lit []
  | [r] => r
  | r :: rs' => Seq r (Cat rs')
  end.

Fixpoint AltOf (rs : list re) : re :=
  match rs with
  | [] => Lit []
  | [r] => r
  | r :: rs' => Alt r (AltOf rs')
  end.

(** The groups that took part in a match, latest binding first. *)
Definition captures := list (nat * text).

Fixpoint group (n : nat) (caps : captures) : option text :=
  match caps with
  | [] => None
  | (i, s) :: caps' => if Nat.eqb i n then Some s else group n caps'
  end.

Definition is_word_opt (c : option char) : bool :=
  match c with Some x => isword x | None => false end.

(** [\b] holds between a word character and a non-word character or an end
    of the string. *)
Definition at_boundary (prev : option char) (s : text) : bool :=
  xorb (is_word_opt prev) (is_word_opt (head s)).

Fixpoint match_lit (l : text) (prev : option char) (s : text)
  : option (option char * text) :=
  match l with
  | [] => Some (prev, s)
  | x :: l' =>
      match s with
      | y :: s' => if (x =? y)%N then match_lit l' (Some y) s' else None
      | [] => None
      end
  end.

Definition or_else {A} (a : option A) (b : option A) : option A :=
  match a with Some _ => a | None => b end.

Definition kont := option char -> text -> captures -> option captures.

Fixpoint rep_greedy (c : cls) (lo : nat) (hi : option nat)
    (prev : option char) (s : text) (caps : captures) (k : kont)
  : option captures :=
  let stop := match lo with O => k prev s caps | S _ => None end in
  match s with
  | x :: s' =>
      if cls_test c x && negb (match hi with Some O => true | _ => false end)
      then or_else (rep_greedy c (Nat.pred lo) (option_map Nat.pred hi)
                      (Some x) s' caps k) stop
      else stop
  | [] => stop
  end.

(** [rmatch r prev s caps k] matches [r] at the front of [s], the character
    before it being [prev], and passes what is left to [k]; the first
    success in Python's backtracking order is the result. *)
Fixpoint rmatch (r : re) (prev : option char) (s : text) (caps : captures)
    (k : kont) : option captures :=
  match r with
  | Chr c =>
      match s with
      | x :: s' => if cls_test c x then k (Some x) s' caps else None
      | [] => None
      end
  | Lit l =>
      match match_lit l prev s with
      | Some (p, s') => k p s' caps
      | None => None
      end
  | Seq a b => rmatch a prev s caps (fun p s' c => rmatch b p s' c k)
  | Alt a b => or_else (rmatch a prev s caps k) (rmatch b prev s caps k)
  | Opt a => or_else (rmatch a prev s caps k) (k prev s caps)
  | Rep c lo hi => rep_greedy c lo hi prev s caps k
  | WB => if at_boundary prev s then k prev s caps else None
  | Grp n a =>
      rmatch a prev s caps
        (fun p s' c =>
           k p s' ((n, take (List.length s - List.length s')%nat s) :: c))
  end.

Definition accept : kont := fun _ _ c => Some c.

Fixpoint search_from (r : re) (prev : option char) (s : text)
  : option captures :=
  or_else (rmatch r prev s [] accept)
    match s with
    | [] => None
    | x :: s' => search_from r (Some x) s'
    end.

(** [re.search(r, t)]: the groups of the leftmost match. *)
Definition re_search (r : re) (t : text) : option captures :=
  search_from r None t.

(** ** Calendar

    The [date] and [datetime] values of Python's [datetime] module: a date is
    its three fields, date arithmetic goes through the proleptic Gregorian
    ordinal (1 for 0001-01-01), a datetime is an ordinal day and the
    microseconds since midnight. *)

Record date : Type := mkdate { year : Z; month : Z; day : Z }.

Definition is_leap (y : Z) : bool :=
  (y mod 4 =? 0) && (negb (y mod 100 =? 0) || (y mod 400 =? 0)).

Definition days_in_month (y m : Z) : Z :=
  if m =? 2 then (if is_leap y then 29 else 28)
  else if (m =? 4) || (m =? 6) || (m =? 9) || (m =? 11) then 30
  else 31.

Definition days_before_year (y : Z) : Z :=
  let y1 := y - 1 in y1 * 365 + y1 / 4 - y1 / 100 + y1 / 400.

Definition DAYS_BEFORE_MONTH : list Z :=
  [0; 0; 31; 59; 90; 120; 151; 181; 212; 243; 273; 304; 334].

Definition days_before_month_leap (leap : bool) (m : Z) : Z :=
  nth (Z.to_nat m) DAYS_BEFORE_MONTH 0 + (if (2 <? m) && leap then 1 else 0).

Definition days_before_month (y m : Z) : Z :=
  days_before_month_leap (is_leap y) m.

Definition toordinal (d : date) : Z :=
  days_before_year (year d) + days_before_month (year d) (month d) + day d.

(** The month and the day of the [r1]-th day (from 0) of a year: the
    estimate [(r1 + 50) >> 5], one month too far at most. *)
Definition month_day (leap : bool) (r1 : Z) : Z * Z :=
  let m := Z.shiftr (r1 + 50) 5 in
  let preceding := days_before_month_leap leap m in
  if r1 <? preceding
  then
    let m' := m - 1 in
    let dim := if (m' =? 2) && leap then 29 else days_in_month 1 m' in
    (m', r1 - (preceding - dim) + 1)
  else (m, r1 - preceding + 1).

Definition fromordinal (n : Z) : date :=
  let n0 := n - 1 in
  let n400 := n0 / 146097 in
  let r400 := n0 mod 146097 in
  let n100 := r400 / 36524 in
  let r100 := r400 mod 36524 in
  let n4 := r100 / 1461 in
  let r4 := r100 mod 1461 in
  let n1 := r4 / 365 in
  let r1 := r4 mod 365 in
  let y := n400 * 400 + 1 + n100 * 100 + n4 * 4 + n1 in
  if (n1 =? 4) || (n100 =? 4) then mkdate (y - 1) 12 31
  else
    let leap := (n1 =? 3) && (negb (n4 =? 24) || (n100 =? 3)) in
    let '(m, d) := month_day leap r1 in
    mkdate y m d.

(** [datetime(y, m, d).date()]; [None] is the [ValueError] of an invalid
    calendar date. *)
Definition make_date (y m d : Z) : option date :=
  if (1 <=? y) && (y <=? 9999) && (1 <=? m) && (m <=? 12)
     && (1 <=? d) && (d <=? days_in_month y m)
  then Some (mkdate y m d) else None.

Definition date_leb (a b : date) : bool :=
  (year a <? year b)
  || ((year a =? year b)
      && ((month a <? month b)
          || ((month a =? month b) && (day a <=? day b)))).

(** [d.weekday()]: Monday is 0. *)
Definition date_weekday (d : date) : Z := (toordinal d + 6) mod 7.

Record datetime : Type := mkdt { dt_ord : Z; dt_us : Z }.

Definition US_PER_SECOND : Z := 1000000.
Definition US_PER_DAY : Z := 86400 * US_PER_SECOND.

Definition dt_date (t : datetime) : date := fromordinal (dt_ord t).
Definition dt_weekday (t : datetime) : Z := (dt_ord t + 6) mod 7.

(** [t + timedelta(days=k)]; [timedelta(hours=24)] is [timedelta(days=1)]. *)
Definition dt_add_days (t : datetime) (k : Z) : datetime :=
  mkdt (dt_ord t + k) (dt_us t).

Definition dt_ltb (a b : datetime) : bool :=
  (dt_ord a <? dt_ord b) || ((dt_ord a =? dt_ord b) && (dt_us a <? dt_us b)).

Definition dt_hour (t : datetime) : Z := dt_us t / (3600 * US_PER_SECOND).
Definition dt_minute (t : datetime) : Z := (dt_us t / (60 * US_PER_SECOND)) mod 60.
Definition dt_second (t : datetime) : Z := (dt_us t / US_PER_SECOND) mod 60.

(** What [isoformat(timespec="seconds")] keeps of a datetime. *)
Definition dt_seconds (t : datetime) : datetime :=
  mkdt (dt_ord t) (dt_us t - dt_us t mod US_PER_SECOND).

(** A cell holding an ISO timestamp: empty, a timestamp written by
    [isoformat(timespec="seconds")], or text that [fromisoformat] refuses. *)
Inductive iso_text : Type :=
| IsoEmpty
| IsoOf (t : datetime)
| IsoJunk.

Definition isoformat_seconds (t : datetime) : iso_text := IsoOf (dt_seconds t).

(** [datetime.fromisoformat]; [None] is its [ValueError]. *)
Definition fromisoformat (s : iso_text) : option datetime :=
  match s with IsoOf t => Some t | _ => None end.

Definition iso_truthy (s : iso_text) : bool :=
  match s with IsoEmpty => false | _ => true end.

(** [d.strftime("%d.%m.%Y")]. *)
Definition strftime_dmY (d : date) : text :=
  zfill 2 (day d) ++ utf8 "." ++ zfill 2 (month d) ++ utf8 "." ++ zfill 4 (year d).

(** [d.isoformat()]. *)
Definition date_isoformat (d : date) : text :=
  zfill 4 (year d) ++ utf8 "-" ++ zfill 2 (month d) ++ utf8 "-" ++ zfill 2 (day d).

(** [format_time_hhmm]: [dt.strftime("%d.%m %H:%M")]. *)
Definition format_time_hhmm (t : datetime) : text :=
  zfill 2 (day (dt_date t)) ++ utf8 "." ++ zfill 2 (month (dt_date t))
  ++ utf8 " " ++ zfill 2 (dt_hour t) ++ utf8 ":" ++ zfill 2 (dt_minute t).

(** [dt.strftime("%H%M%S")]. *)
Definition strftime_HMS (t : datetime) : text :=
  zfill 2 (dt_hour t) ++ zfill 2 (dt_minute t) ++ zfill 2 (dt_second t).

(** ** Lexical extractors *)

Definition PHONE_RE : re :=
  Grp 1 (Cat [Opt (Lit (utf8 "+")); Chr CDigit;
              Rep (CUnion CDigit (CUnion CSpace (CSet (utf8 "-()")))) 6 None;
              Chr CDigit]).

Definition WORDS_TO_NUM : list (text * Z) :=
  [ (utf8 "один", 1); (utf8 "одна", 1); (utf8 "по одному", 1);
    (utf8 "двое", 2); (utf8 "двоих", 2); (utf8 "двух", 2); (utf8 "вдвоем", 2);
    (utf8 "вдвоём", 2); (utf8 "на двоих", 2);
    (utf8 "трое", 3); (utf8 "троих", 3); (utf8 "трех", 3); (utf8 "трёх", 3);
    (utf8 "втроем", 3); (utf8 "втроём", 3); (utf8 "на троих", 3);
    (utf8 "четверо", 4); (utf8 "четверых", 4); (utf8 "четырех", 4);
    (utf8 "четырёх", 4); (utf8 "вчетвером", 4); (utf8 "на четверых", 4);
    (utf8 "пятеро", 5); (utf8 "пятерых", 5); (utf8 "пяти", 5); (utf8 "на пятерых", 5);
    (utf8 "шестеро", 6); (utf8 "шестерых", 6); (utf8 "шести", 6); (utf8 "на шестерых", 6);
    (utf8 "семеро", 7); (utf8 "семерых", 7); (utf8 "семи", 7); (utf8 "на семерых", 7);
    (utf8 "восьмеро", 8); (utf8 "восьмерых", 8); (utf8 "восьми", 8); (utf8 "на восьмерых", 8);
    (utf8 "девятеро", 9); (utf8 "девятерых", 9); (utf8 "девяти", 9); (utf8 "на девятерых", 9);
    (utf8 "десятеро", 10); (utf8 "десятерых", 10); (utf8 "десяти", 10);
    (utf8 "на десятерых", 10) ].

Definition WEEKDAY_FULL : list (text * Z) :=
  [ (utf8 "понедельник", 0); (utf8 "вторник", 1); (utf8 "среда", 2);
    (utf8 "четверг", 3); (utf8 "пятница", 4); (utf8 "суббота", 5);
    (utf8 "воскресенье", 6) ].

(** [d.get(k)] on a dictionary with string keys. *)
Fixpoint dict_get {V} (d : list (text * V)) (k : text) : option V :=
  match d with
  | [] => None
  | (k', v) :: d' => if text_eqb k' k then Some v else dict_get d' k
  end.

Definition normalize_text (t : text) : text := strip (lower t).

(** The loop of [extract_phone] over [enumerate(raw.strip())]. *)
Fixpoint phone_chars (i : nat) (raw : text) : text :=
  match raw with
  | [] => []
  | ch :: raw' =>
      if isdigit ch then ch :: phone_chars (S i) raw'
      else if (ch =? 43)%N && Nat.eqb i 0 then ch :: phone_chars (S i) raw'
      else phone_chars (S i) raw'
  end.

Definition count_digits (s : text) : Z :=
  Z.of_nat (List.length (filter isdigit s)).

Definition group_text (n : nat) (m : captures) : text :=
  match group n m with Some s => s | None => [] end.

Definition extract_phone (txt : text) : option text :=
  let t := normalize_text txt in
  match re_search PHONE_RE t with
  | None => None
  | Some m =>
      let raw := group_text 1 m in
      let phone := phone_chars 0 (strip raw) in
      if 8 <=? count_digits phone then Some phone else None
  end.

Definition nonempty (s : text) : option text :=
  match s with [] => None | _ => Some s end.

Definition extract_name_from_contact_text (txt : text) (phone : option text)
  : option text :=
  match txt with
  | [] => None
  | _ =>
      let t :=
        match phone with
        | Some (_ :: _) =>
            fold_left (fun t ch => replace_char ch t) (utf8 "0123456789")
              (fold_left (fun t ch => replace_char ch t) (utf8 "+-() ") txt)
        | _ => txt
        end in
      nonempty (strip (join_sp (filter str_isalpha (split_ws t))))
  end.

Definition TIME_RE_HHMM : re :=
  Cat [WB; Grp 1 (Rep CDigit 1 (Some 2%nat)); Chr (CSet (utf8 ":."));
       Grp 2 (Rep CDigit 2 (Some 2%nat)); WB].

Definition TIME_RE_HOUR : re :=
  Cat [WB; Alt (Lit (utf8 "в")) (Lit (utf8 "к")); Rep CSpace 0 None;
       Grp 1 (Rep CDigit 1 (Some 2%nat));
       Opt (Cat [Rep CSpace 0 None;
                 Alt (Cat [Lit (utf8 "час");
                           Opt (Alt (Lit (utf8 "а")) (Lit (utf8 "ов")))])
                     (Lit (utf8 "ч"))]);
       WB].

Definition EVENING_RE : re :=
  Grp 1 (Alt (Lit (utf8 "вечер")) (Lit (utf8 "ноч"))).

Definition is_some {A} (o : option A) : bool :=
  match o with Some _ => true | None => false end.

Definition hhmm (hh mm : Z) : text := zfill 2 hh ++ utf8 ":" ++ zfill 2 mm.

Definition extract_time_hour (t : text) : option text :=
  match re_search TIME_RE_HOUR t with
  | Some m =>
      let hh := int_of (group_text 1 m) in
      if (0 <=? hh) && (hh <=? 23) then
        let hh := if (hh <=? 11) && is_some (re_search EVENING_RE t)
                  then hh + 12 else hh in
        Some (hhmm hh 0)
      else None
  | None => None
  end.

Definition extract_time (txt : text) : option text :=
  let t := normalize_text txt in
  match re_search TIME_RE_HHMM t with
  | Some m =>
      let hh := int_of (group_text 1 m) in
      let mm := int_of (group_text 2 m) in
      if (0 <=? hh) && (hh <=? 23) && (0 <=? mm) && (mm <=? 59)
      then Some (hhmm hh mm)
      else extract_time_hour t
  | None => extract_time_hour t
  end.

Definition DATE_RE : re :=
  Cat [WB; Grp 1 (Rep CDigit 1 (Some 2%nat)); Chr (CSet (utf8 "./"));
       Grp 2 (Rep CDigit 1 (Some 2%nat));
       Opt (Cat [Chr (CSet (utf8 "./")); Grp 3 (Rep CDigit 2 (Some 4%nat))]);
       WB].

(** [w[:-1]]. *)
Definition drop_last (w : text) : text := removelast w.

Definition weekday_re (w : text) : re :=
  Cat [WB; Lit (drop_last w); Rep CWord 0 None; WB].

Definition ORDINAL_RE_GO : re :=
  Cat [WB; Grp 1 (Rep CDigit 1 (Some 2%nat));
       Opt (Alt (Rep CSpace 0 None) (Lit (utf8 "-")));
       Alt (Lit (utf8 "го")) (Lit (utf8 "ого")); WB].

Definition ORDINAL_RE_CHISLA : re :=
  Cat [WB; Grp 1 (Rep CDigit 1 (Some 2%nat)); Rep CSpace 0 None;
       Lit (utf8 "числа"); WB].

(** The year the numeric rule resolves: a year below 100 gets 2000 added, a
    missing year is the current one. *)
Definition resolve_year (now : datetime) (y : option text) : Z :=
  match y with
  | Some [] | None => year (dt_date now)
  | Some ys => if int_of ys <? 100 then int_of ys + 2000 else int_of ys
  end.

(** The numeric rule of [extract_date]: [None] when the pattern is absent or
    names an invalid date. *)
Definition date_numeric (now : datetime) (t : text) : option date :=
  match re_search DATE_RE t with
  | Some m =>
      let d := int_of (group_text 1 m) in
      let mth := int_of (group_text 2 m) in
      make_date (resolve_year now (group 3 m)) mth d
  | None => None
  end.

(** The loop over [WEEKDAY_FULL.items()]: the index of the first weekday
    whose pattern is found. *)
Fixpoint first_weekday (ws : list (text * Z)) (t : text) : option Z :=
  match ws with
  | [] => None
  | (w, idx) :: ws' =>
      if is_some (re_search (weekday_re w) t) then Some idx
      else first_weekday ws' t
  end.

(** [(idx - today.weekday()) % 7 or 7]. *)
Definition weekday_shift (idx wd : Z) : Z :=
  let s := (idx - wd) mod 7 in if s =? 0 then 7 else s.

Definition date_ordinal_day (now : datetime) (t : text) : option date :=
  match or_else (re_search ORDINAL_RE_GO t) (re_search ORDINAL_RE_CHISLA t) with
  | Some m =>
      let d := int_of (group_text 1 m) in
      let today := dt_date now in
      let y := year today in
      let mth := month today in
      let retry :=
        if mth =? 12 then make_date (y + 1) 1 d else make_date y (mth + 1) d in
      match make_date y mth d with
      | Some cand => if date_leb cand today then retry else Some cand
      | None => retry
      end
  | None => None
  end.

Definition extract_date (now : datetime) (txt : text) : option date :=
  let t := normalize_text txt in
  match date_numeric now t with
  | Some d => Some d
  | None =>
      if contains (utf8 "сегодня") t then Some (dt_date now)
      else if contains (utf8 "завтра") t then Some (dt_date (dt_add_days now 1))
      else if contains (utf8 "послезавтра") t || contains (utf8 "после завтра") t
      then Some (dt_date (dt_add_days now 2))
      else
        match first_weekday WEEKDAY_FULL t with
        | Some idx =>
            Some (dt_date (dt_add_days now (weekday_shift idx (dt_weekday now))))
        | None => date_ordinal_day now t
        end
  end.

Definition words_alt : re := AltOf (map (fun kv => Lit (fst kv)) WORDS_TO_NUM).

Definition GUESTS_RE_RANGE : re :=
  Cat [WB; Grp 1 (Rep CDigit 1 (Some 2%nat)); Rep CSpace 0 None;
       AltOf [Lit (utf8 "-"); Lit (utf8 "—"); Lit (utf8 "–"); Lit (utf8 "or");
              Lit (utf8 "до")];
       Rep CSpace 0 None; Grp 2 (Rep CDigit 1 (Some 2%nat)); WB].

Definition GUESTS_RE_WORDS : re :=
  Cat [Grp 1 words_alt; Rep CSpace 0 None;
       AltOf [Lit (utf8 "или"); Lit (utf8 "до"); Lit (utf8 "-"); Lit (utf8 "—");
              Lit (utf8 "–")];
       Rep CSpace 0 None; Grp 2 words_alt].

Definition GUESTS_RE_FROM_TO : re :=
  Cat [WB; Lit (utf8 "от"); Rep CSpace 1 None; Grp 1 (Rep CDigit 1 (Some 2%nat));
       Rep CSpace 1 None; Lit (utf8 "до"); Rep CSpace 1 None;
       Grp 2 (Rep CDigit 1 (Some 2%nat)); WB].

Definition GUESTS_RE_UPTO : re :=
  Cat [WB; Lit (utf8 "до"); Rep CSpace 1 None; Grp 1 (Rep CDigit 1 (Some 2%nat)); WB].

Definition upto_word_re (w : text) : re :=
  Cat [WB; Lit (utf8 "до"); Rep CSpace 1 None; Lit w; WB].

Definition word_re (w : text) : re := Cat [WB; Lit w; WB].

Definition GUESTS_RE_SINGLE : re :=
  Cat [Opt (Alt (Cat [WB; Lit (utf8 "на")]) (Cat [WB; Lit (utf8 "для")]));
       Rep CSpace 0 None; Grp 1 (Rep CDigit 1 (Some 2%nat)); WB].

(** The first entry of the vocabulary whose pattern [mk w] is found. *)
Fixpoint first_word (mk : text -> re) (ws : list (text * Z)) (t : text)
  : option Z :=
  match ws with
  | [] => None
  | (w, n) :: ws' =>
      if is_some (re_search (mk w) t) then Some n else first_word mk ws' t
  end.

Definition guests := (option Z * option Z)%type.

Definition guests_single (t : text) : guests :=
  match re_search GUESTS_RE_SINGLE t with
  | Some m =>
      let n := int_of (group_text 1 m) in
      if (1 <=? n) && (n <=? 20) then (Some n, Some n) else (None, None)
  | None => (None, None)
  end.

Definition guests_words_single (t : text) : guests :=
  match first_word upto_word_re WORDS_TO_NUM t with
  | Some n => (None, Some n)
  | None =>
      match first_word word_re WORDS_TO_NUM t with
      | Some n => (Some n, Some n)
      | None => guests_single t
      end
  end.

Definition guests_from_to (t : text) : guests :=
  match re_search GUESTS_RE_FROM_TO t with
  | Some m =>
      let a := int_of (group_text 1 m) in
      let b := int_of (group_text 2 m) in
      (Some (Z.min a b), Some (Z.max a b))
  | None =>
      match re_search GUESTS_RE_UPTO t with
      | Some m => (None, Some (int_of (group_text 1 m)))
      | None => guests_words_single t
      end
  end.

Definition truthy_int (o : option Z) : bool :=
  match o with Some n => negb (n =? 0) | None => false end.

Definition guests_words (t : text) : guests :=
  match re_search GUESTS_RE_WORDS t with
  | Some m =>
      let a := dict_get WORDS_TO_NUM (group_text 1 m) in
      let b := dict_get WORDS_TO_NUM (group_text 2 m) in
      match a, b with
      | Some a', Some b' =>
          if truthy_int a && truthy_int b
          then (Some (Z.min a' b'), Some (Z.max a' b'))
          else guests_from_to t
      | _, _ => guests_from_to t
      end
  | None => guests_from_to t
  end.

Definition extract_guests_range (txt : text) : guests :=
  let t := normalize_text txt in
  match t with
  | [] => (None, None)
  | _ =>
      match re_search GUESTS_RE_RANGE t with
      | Some m =>
          let a := int_of (group_text 1 m) in
          let b := int_of (group_text 2 m) in
          (Some (Z.min a b), Some (Z.max a b))
      | None => guests_words t
      end
  end.

Definition parse_booking_phrase (now : datetime) (txt : text)
  : option date * option text * option Z * option Z :=
  let d := extract_date now txt in
  let t := extract_time txt in
  let '(gmin, gmax) := extract_guests_range txt in
  (d, t, gmin, gmax).

(** ** Intents *)

Inductive intent : Type := Menu | Venue | Quiz | Book.

Definition intent_eqb (a b : intent) : bool :=
  match a, b with
  | Menu, Menu | Venue, Venue | Quiz, Quiz | Book, Book => true
  | _, _ => false
  end.

Definition INTENT_KEYWORDS : list (intent * list text) :=
  [ (Menu, [utf8 "меню"; utf8 "посмотреть меню"; utf8 "карта";
            utf8 "барная карта"; utf8 "лист"]);
    (Venue, [utf8 "адрес"; utf8 "где вы"; utf8 "как добраться"; utf8 "работаете";
             utf8 "часы"; utf8 "до скольки"; utf8 "во сколько"; utf8 "контакты";
             utf8 "телефон"]);
    (Quiz, [utf8 "викторина"; utf8 "квиз"; utf8 "приз"; utf8 "розыгрыш"]);
    (Book, [utf8 "бронь"; utf8 "заброни"; utf8 "резерв"; utf8 "столик";
            utf8 "стол"; utf8 "посадка"]) ].

Fixpoint first_intent (skip_book : bool) (ks : list (intent * list text))
    (t : text) : option intent :=
  match ks with
  | [] => None
  | (i, keys) :: ks' =>
      if skip_book && intent_eqb i Book then first_intent skip_book ks' t
      else if existsb (fun k => contains k t) keys then Some i
      else first_intent skip_book ks' t
  end.

Definition detect_intent (txt : text) (in_booking_flow : bool) : option intent :=
  let t := normalize_text txt in
  if in_booking_flow then
    match first_intent true INTENT_KEYWORDS t with
    | Some i => Some i
    | None => Some Book
    end
  else first_intent false INTENT_KEYWORDS t.

(** ** Transport values *)

(** [uid] is the [id] field of the platform's user. *)
Record User : Type := mkUser {
  uid : Z;
  username : option text;
  full_name : text
}.

(** An inbound message, or the message a callback button hangs on. *)
Record Message : Type := mkMessage {
  from_user : User;
  chat_id : Z;
  message_text : text
}.

(** A button callback of the [quiz:] namespace.  [call_data] is the payload
    [quiz:{qid}:{opt}] after [split(":")] and [int(qid_str)]; [None] stands
    for a payload on which one of the two raises. *)
Record CallbackQuery : Type := mkCall {
  call_from_user : User;
  call_message : Message;
  call_data : option (Z * text)
}.

(** ** Durable tables and process-wide state *)

(** A row of [quiz_users.csv], also the [st] dictionary of the quiz code. *)
Record QuizUserState : Type := mkQuizUser {
  user_id : Z;
  streak : Z;
  locked_until_iso : iso_text;
  awarded : Z;
  last_played_at : iso_text;
  current_qid : Z
}.

(** A row of [coupons_generated.csv]. *)
Record Coupon : Type := mkCoupon {
  code : text;
  coupon_user_id : Z;
  coupon_username : text;
  coupon_full_name : text;
  issued_at : iso_text
}.

Inductive status : Type := StatusNew | StatusConfirmed | StatusCanceled.

(** A row of [bookings.csv]. *)
Record Booking : Type := mkBooking {
  booking_id : Z;
  tg_user_id : Z;
  booking_name : text;
  booking_phone : text;
  booking_guests : Z;
  guests_range : text;
  booking_date : text;
  booking_time : text;
  comment : text;
  booking_status : status;
  venue_id : Z;
  created_at : iso_text;
  updated_at : iso_text
}.

(** The booking draft [st] of a user: a dictionary over six fixed keys, a
    key being absent when its field is [None]. *)
Record Draft : Type := mkDraft {
  draft_date : option date;
  draft_time : option text;
  guests_min : option Z;
  guests_max : option Z;
  draft_phone : option text;
  draft_name : option text
}.

Definition empty_draft : Draft := mkDraft None None None None None None.

(** [bool(st)] of a draft dictionary. *)
Definition draft_truthy (d : Draft) : bool :=
  is_some (draft_date d) || is_some (draft_time d) || is_some (guests_min d)
  || is_some (guests_max d) || is_some (draft_phone d) || is_some (draft_name d).

(** A cell of a row of the question bank: the column is missing, the cell
    is empty ([NaN]), or it holds a value, taken as its [str]. *)
Inductive cell : Type := Absent | NaN | Val (s : text).

(** A row of [quiz_template.csv].  [row_qid] is [make_qid(row)] and
    [row_text] is [get_question_text(row)]; [row_active] says that the
    [active] column exists and holds 1. *)
Record QuizRow : Type := mkQuizRow {
  row_qid : Z;
  row_text : text;
  row_a : cell; row_b : cell; row_c : cell; row_d : cell;
  row_option1 : cell; row_option2 : cell; row_option3 : cell; row_option4 : cell;
  row_correct : cell;
  row_active : bool
}.

Record World : Type := mkWorld {
  quiz_users : list QuizUserState;
  coupons : list Coupon;
  bookings : list Booking;
  QUIZ_STATE : gmap Z text;
  BOOK_STATE : gmap Z Draft;
  (** the values the [random] module will hand out, and how many were used *)
  tape : nat -> Z;
  cursor : nat
}.

Definition with_quiz_users (w : World) (q : list QuizUserState) : World :=
  mkWorld q (coupons w) (bookings w) (QUIZ_STATE w) (BOOK_STATE w) (tape w) (cursor w).

Definition with_coupons (w : World) (c : list Coupon) : World :=
  mkWorld (quiz_users w) c (bookings w) (QUIZ_STATE w) (BOOK_STATE w) (tape w) (cursor w).

Definition with_bookings (w : World) (b : list Booking) : World :=
  mkWorld (quiz_users w) (coupons w) b (QUIZ_STATE w) (BOOK_STATE w) (tape w) (cursor w).

Definition with_QUIZ_STATE (w : World) (m : gmap Z text) : World :=
  mkWorld (quiz_users w) (coupons w) (bookings w) m (BOOK_STATE w) (tape w) (cursor w).

Definition with_BOOK_STATE (w : World) (m : gmap Z Draft) : World :=
  mkWorld (quiz_users w) (coupons w) (bookings w) (QUIZ_STATE w) m (tape w) (cursor w).

(** One value from the [random] module. *)
Definition draw (w : World) : Z * World :=
  (tape w (cursor w),
   mkWorld (quiz_users w) (coupons w) (bookings w) (QUIZ_STATE w) (BOOK_STATE w)
     (tape w) (S (cursor w))).

(** ** What a handler sends *)

Inductive output : Type :=
| SayAlreadyWon                      (* "Вы уже выиграли приз ... Повторная игра недоступна." *)
| SayLocked (until : text)           (* "Сегодня без игры ... Попробуйте снова после {until}." *)
| SayNoQuestions                     (* "Вопросы викторины пока не добавлены." *)
| SayNoOptions                       (* "У этого вопроса нет вариантов ответа. Попробуем другой." *)
| SayQuestion (q : text) (buttons : list (text * (Z * text)))
                                     (* the question; a button is its caption and quiz:{qid}:{letter} *)
| SayClosed                          (* "Этот вопрос уже закрыт. Давай новый!" *)
| SayPrize (code : text)             (* "Три подряд! ... Код купона: {code} ..." *)
| SayPrizeAgain                      (* "Три подряд! ... Купон уже получали ранее ..." *)
| SayCorrect (left : Z)              (* "Верно! Осталось правильных подряд: {left}" *)
| SayMissed (until : text)           (* "Чуть-чуть мимо ... Попробуйте снова после {until}." *)
| SayWentWrong                       (* "Что-то пошло не так. Попробуем ещё раз." *)
| AdminCoupon (chat : Z) (code : text) (user_line : text)
                                     (* notify_admin_coupon *)
| Ack                                (* call.answer() *)
| SayMenuPicker                      (* show_menu_branch_picker *)
| SayVenuePicker                     (* show_venue_branch_picker *)
| SayUnderstood (known : list text) (missing : list text)
                                     (* "Понял: {known}. Допиши недостающее: {missing}. ..." *)
| SayRepeat                          (* "Давай ещё раз: когда, во сколько, ..." *)
| SayRecorded (d : text) (t : text) (show_guests : text) (name : text) (phone : text)
                                     (* "Записал: {d} в {t}, {show_guests} Имя: ..., телефон: ..." *)
| AdminBooking (chat : Z) (b : Booking) (confirm : text) (cancel : text)
                                     (* "Новая бронь" with the two buttons' callback data *)
| SayUnknown.                        (* COPY["unknown"] *)

(** How a handler ends: it returns, or an exception leaves it. *)
Inductive ending : Type := Returned | Raised.

Definition result : Type := ending * World * list output.

(** [int(s)] of an environment value: optional sign, then digits; [None] is
    the [ValueError]. *)
Definition parse_int (s : text) : option Z :=
  match strip s with
  | [] => None
  | c :: ds =>
      if ((c =? 45)%N || (c =? 43)%N) then
        match ds with
        | [] => None
        | _ => if forallb isdigit ds
               then Some (if (c =? 45)%N then - int_of ds else int_of ds)
               else None
        end
      else if forallb isdigit (c :: ds) then Some (int_of (c :: ds)) else None
  end.

(** ** The bot *)

Section Bot.

(** The question bank loaded at start-up, the operator chat of the
    environment, and the number of nested activations of
    [start_quiz_for_user] the interpreter allows before [RecursionError]. *)
Variable QUIZ : list QuizRow.
Variable ADMIN_CHAT_ID : text.
Variable RECURSION_LIMIT : nat.

(** The chat the operator notifications go to: [ADMIN_CHAT_ID] must be
    non-blank and [int(ADMIN_CHAT_ID)] must succeed. *)
Definition admin_chat : option Z :=
  match strip ADMIN_CHAT_ID with
  | [] => None
  | _ => parse_int ADMIN_CHAT_ID
  end.

(** *** Quiz core *)

Definition default_quiz_state (u : Z) : QuizUserState :=
  mkQuizUser u 0 IsoEmpty 0 IsoEmpty 0.

Definition get_user_quiz_state (u : Z) (w : World) : QuizUserState :=
  match find (fun r => user_id r =? u) (quiz_users w) with
  | Some r => r
  | None => default_quiz_state u
  end.

Definition set_user_quiz_state (st : QuizUserState) (w : World) : World :=
  let hit := fun r => user_id r =? user_id st in
  with_quiz_users w
    (if existsb hit (quiz_users w)
     then map (fun r => if hit r then st else r) (quiz_users w)
     else quiz_users w ++ [st]).

Definition set_streak (st : QuizUserState) (v : Z) : QuizUserState :=
  mkQuizUser (user_id st) v (locked_until_iso st) (awarded st)
    (last_played_at st) (current_qid st).

Definition set_locked_until_iso (st : QuizUserState) (v : iso_text) : QuizUserState :=
  mkQuizUser (user_id st) (streak st) v (awarded st)
    (last_played_at st) (current_qid st).

Definition set_awarded (st : QuizUserState) (v : Z) : QuizUserState :=
  mkQuizUser (user_id st) (streak st) (locked_until_iso st) v
    (last_played_at st) (current_qid st).

Definition set_last_played_at (st : QuizUserState) (v : iso_text) : QuizUserState :=
  mkQuizUser (user_id st) (streak st) (locked_until_iso st) (awarded st)
    v (current_qid st).

Definition set_current_qid (st : QuizUserState) (v : Z) : QuizUserState :=
  mkQuizUser (user_id st) (streak st) (locked_until_iso st) (awarded st)
    (last_played_at st) v.

(** [pick_quiz_question]: the active rows if there are any, else all rows;
    one of them at random. *)
Definition quiz_pool : list QuizRow :=
  match filter row_active QUIZ with
  | [] => QUIZ
  | act => act
  end.

Definition pick_quiz_question (w : World) : option QuizRow * World :=
  match quiz_pool with
  | [] => (None, w)
  | r0 :: _ =>
      let '(x, w') := draw w in
      (Some (nth (Z.to_nat (x mod Z.of_nat (List.length quiz_pool))) quiz_pool r0), w')
  end.

(** [key in row and pd.notna(row[key]) and str(row[key]).strip()]. *)
Definition cell_text (c : cell) : option text :=
  match c with
  | Val s => nonempty (strip s)
  | _ => None
  end.

Definition labelled (label : string) (c : cell) : list (text * text) :=
  match cell_text c with
  | Some v => [(utf8 label, v)]
  | None => []
  end.

(** The [options_list] of [start_quiz_for_user]: the [a..d] columns, or
    else [option1..option4] labelled A to D. *)
Definition options_list (r : QuizRow) : list (text * text) :=
  match labelled "A" (row_a r) ++ labelled "B" (row_b r)
        ++ labelled "C" (row_c r) ++ labelled "D" (row_d r) with
  | [] => labelled "A" (row_option1 r) ++ labelled "B" (row_option2 r)
          ++ labelled "C" (row_option3 r) ++ labelled "D" (row_option4 r)
  | l => l
  end.

(** [str(row.get("correct", "a")).strip()]. *)
Definition correct_raw (r : QuizRow) : text :=
  match row_correct r with
  | Absent => utf8 "a"
  | NaN => utf8 "nan"
  | Val s => strip s
  end.

Definition is_letter_abcd (s : text) : bool :=
  existsb (text_eqb s) [utf8 "a"; utf8 "b"; utf8 "c"; utf8 "d"].

Fixpoint label_of_value (opts : list (text * text)) (cr : text) : option text :=
  match opts with
  | [] => None
  | (label, val) :: opts' =>
      if text_eqb (lower val) cr then Some (lower label)
      else label_of_value opts' cr
  end.

(** The correct letter registered for a row whose options are [opts]. *)
Definition correct_letter (r : QuizRow) (opts : list (text * text)) : text :=
  let cr := lower (correct_raw r) in
  if is_letter_abcd cr then cr
  else
    match label_of_value opts cr with
    | Some l => l
    | None =>
        match opts with
        | (label, _) :: _ => lower label
        | [] => []
        end
    end.

Definition buttons_of (qid : Z) (opts : list (text * text))
  : list (text * (Z * text)) :=
  map (fun lv => (fst lv ++ utf8 ": " ++ snd lv, (qid, lower (fst lv)))) opts.

(** The lock check at the head of [start_quiz_for_user]: a lock still in
    the future stops the attempt; an expired or unreadable one is cleared
    and saved. *)
Definition check_lock (now : datetime) (st : QuizUserState) (w : World)
  : datetime + QuizUserState * World :=
  if iso_truthy (locked_until_iso st) then
    match fromisoformat (locked_until_iso st) with
    | Some until =>
        if dt_ltb now until then inl until
        else
          let st' := set_locked_until_iso st IsoEmpty in
          inr (st', set_user_quiz_state st' w)
    | None =>
        let st' := set_locked_until_iso st IsoEmpty in
        inr (st', set_user_quiz_state st' w)
    end
  else inr (st, w).

Fixpoint start_quiz_for_user (depth : nat) (now : datetime) (w : World)
    (message : Message) : result :=
  let u := uid (from_user message) in
  let st := get_user_quiz_state u w in
  if awarded st =? 1 then (Returned, w, [SayAlreadyWon])
  else
    match check_lock now st w with
    | inl until => (Returned, w, [SayLocked (format_time_hhmm until)])
    | inr (st, w) =>
        match pick_quiz_question w with
        | (None, w) => (Returned, w, [SayNoQuestions])
        | (Some row, w) =>
            let qid := row_qid row in
            match options_list row with
            | [] =>
                match depth with
                | O => (Raised, w, [SayNoOptions])
                | S depth' =>
                    let '(e, w', out) := start_quiz_for_user depth' now w message in
                    (e, w', SayNoOptions :: out)
                end
            | opts =>
                let w := with_QUIZ_STATE w (<[qid := correct_letter row opts]> (QUIZ_STATE w)) in
                let st := set_last_played_at (set_current_qid st qid)
                            (isoformat_seconds now) in
                let w := set_user_quiz_state st w in
                (Returned, w, [SayQuestion (row_text row) (buttons_of qid opts)])
            end
        end
    end.

(** *** Coupons *)

(** The loop of [generate_unique_coupon_code]: up to [n] draws of
    [f"{random.randint(0, 999999):06d}"], the first one not in [existing]
    wins. *)
Fixpoint draw_code (n : nat) (existing : list text) (w : World)
  : option text * World :=
  match n with
  | O => (None, w)
  | S n' =>
      let '(x, w') := draw w in
      let c := zfill 6 (x mod 1000000) in
      if existsb (text_eqb c) existing then draw_code n' existing w'
      else (Some c, w')
  end.

(** [range(10000)]. *)
Definition CODE_ATTEMPTS : nat := Z.to_nat 10000.

(** A cell that [pd.read_csv] reads as an integer: a run of digits, short
    enough for 64 bits. *)
Definition is_digits (c : text) : bool :=
  match c with
  | [] => false
  | _ => forallb isdigit c && (List.length c <=? 18)%nat
  end.

Definition with_code (r : Coupon) (c : text) : Coupon :=
  mkCoupon c (coupon_user_id r) (coupon_username r) (coupon_full_name r)
    (issued_at r).

(** [load_coupons_gen]: the ledger as [pd.read_csv] returns it, the codes
    as [astype(str)] shows them.  A code column in which every cell is a
    run of digits is read as integers, so a code comes back without its
    leading zeros; a column with any other cell is text and comes back as
    it is.  The other columns are taken as saved. *)
Definition reread_coupons (rows : list Coupon) : list Coupon :=
  if forallb (fun r => is_digits (code r)) rows
  then map (fun r => with_code r (str_of_Z (int_of (code r)))) rows
  else rows.

(** [existing]: [set(df["code"].astype(str))] of the ledger read back. *)
Definition existing_codes (w : World) : list text :=
  map code (reread_coupons (coupons w)).

Definition generate_unique_coupon_code (now : datetime) (w : World)
  : text * World :=
  match draw_code CODE_ATTEMPTS (existing_codes w) w with
  | (Some c, w') => (c, w')
  | (None, w') => (strftime_HMS now, w')
  end.

Definition or_empty (o : option text) : text :=
  match o with Some s => s | None => [] end.

(** [issue_coupon_to_user]: the ledger is read back, the new row is put
    after it, and the whole frame is saved. *)
Definition issue_coupon_to_user (now : datetime) (u : User) (w : World)
  : text * World :=
  let '(c, w') := generate_unique_coupon_code now w in
  (c, with_coupons w'
        (reread_coupons (coupons w')
         ++ [mkCoupon c (uid u) (or_empty (username u)) (full_name u)
               (isoformat_seconds now)])).

Definition user_line (u : User) : text :=
  match username u with
  | Some [] | None => full_name u ++ utf8 " (id=" ++ str_of_Z (uid u) ++ utf8 ")"
  | Some n => utf8 "@" ++ n
  end.

Definition notify_admin_coupon (c : text) (u : User) : list output :=
  match admin_chat with
  | Some chat => [AdminCoupon chat c (user_line u)]
  | None => []
  end.

(** *** The answer handler *)

(** [QUIZ_STATE.get(qid)]. *)
Definition QUIZ_STATE_get (w : World) (qid : Z) : option text :=
  QUIZ_STATE w !! qid.

(** How the [try] block of [cb_quiz_answer] is left: by a [return] inside
    it, by running to its end, or by an exception. *)
Inductive try_end : Type := ReturnedInside | FellThrough | Threw.

(** The body of the [try] of [cb_quiz_answer] after the payload is read. *)
Definition answer_body (now : datetime) (w : World) (call : CallbackQuery)
    (qid : Z) (opt : text) : try_end * World * list output :=
  let u := uid (call_from_user call) in
  let st := get_user_quiz_state u w in
  if awarded st =? 1 then (ReturnedInside, w, [SayAlreadyWon; Ack])
  else
    match QUIZ_STATE_get w qid with
    | None | Some [] =>
        let '(e, w', out) :=
          start_quiz_for_user RECURSION_LIMIT now w (call_message call) in
        match e with
        | Returned => (ReturnedInside, w', SayClosed :: out ++ [Ack])
        | Raised => (Threw, w', SayClosed :: out)
        end
    | Some correct =>
        if text_eqb opt correct then
          let st := set_current_qid (set_streak st (streak st + 1)) 0 in
          let w := set_user_quiz_state st w in
          if 3 <=? streak st then
            let '(code, st, w) :=
              if awarded st =? 0 then
                let '(c, w') := issue_coupon_to_user now (call_from_user call) w in
                let st' := set_awarded st 1 in
                (Some c, st', set_user_quiz_state st' w')
              else (None, st, w) in
            let said :=
              match code with
              | Some [] | None => [SayPrizeAgain]
              | Some c => SayPrize c :: notify_admin_coupon c (call_from_user call)
              end in
            let st := set_streak st 0 in
            let w := set_user_quiz_state st w in
            let w := with_QUIZ_STATE w (delete qid (QUIZ_STATE w)) in
            (ReturnedInside, w, said ++ [Ack])
          else
            let '(e, w', out) :=
              start_quiz_for_user RECURSION_LIMIT now w (call_message call) in
            match e with
            | Returned =>
                (FellThrough, with_QUIZ_STATE w' (delete qid (QUIZ_STATE w')),
                 SayCorrect (3 - streak st) :: out)
            | Raised => (Threw, w', SayCorrect (3 - streak st) :: out)
            end
        else
          let lock_until := dt_add_days now 1 in
          let st := set_locked_until_iso (set_current_qid (set_streak st 0) 0)
                      (isoformat_seconds lock_until) in
          let w := set_user_quiz_state st w in
          (FellThrough, with_QUIZ_STATE w (delete qid (QUIZ_STATE w)),
           [SayMissed (format_time_hhmm lock_until)])
    end.

(** [cb_quiz_answer]: an exception inside the [try] is answered with the
    retry prompt; unless the handler has returned from inside the [try],
    it ends with the [call.answer()] after it. *)
Definition cb_quiz_answer (now : datetime) (w : World) (call : CallbackQuery)
  : World * list output :=
  match call_data call with
  | None => (w, [SayWentWrong; Ack])
  | Some (qid, opt) =>
      let '(e, w', out) := answer_body now w call qid opt in
      match e with
      | ReturnedInside => (w', out)
      | FellThrough => (w', out ++ [Ack])
      | Threw => (w', out ++ [SayWentWrong; Ack])
      end
  end.

(** *** Booking dialogue *)

Definition next_booking_id (df : list Booking) : Z :=
  match df with
  | [] => 1
  | b :: df' => fold_left Z.max (map booking_id df') (booking_id b) + 1
  end.

Definition truthy_text (o : option text) : bool :=
  match o with Some (_ :: _) => true | _ => false end.

Definition display_name (u : User) : text :=
  match full_name u with [] => utf8 "Гость" | n => n end.

(** [f"{gmin}-{gmax}"] with the given dash if both bounds are truthy and
    differ, else [str(gmax)]. *)
Definition range_text (dash : string) (gmin : option Z) (gmax : Z) : text :=
  match gmin with
  | Some g1 =>
      if negb (g1 =? 0) && negb (gmax =? 0) && negb (g1 =? gmax)
      then str_of_Z g1 ++ utf8 dash ++ str_of_Z gmax
      else str_of_Z gmax
  | None => str_of_Z gmax
  end.

(** [finalize_booking]: the defensive recheck, then the record, the
    confirmation, the operator notification and the removal of the draft. *)
Definition finalize_booking (now : datetime) (w : World) (message : Message)
    (st : Draft) : World * list output :=
  let u := uid (from_user message) in
  let name := match draft_name st with Some n => n | None => display_name (from_user message) end in
  let phone := strip (or_empty (draft_phone st)) in
  let date_o := draft_date st in
  let time_s := match draft_time st with Some t => t | None => utf8 "20:00" end in
  let gmin := guests_min st in
  let gmax := match guests_max st with Some g => Some g | None => gmin end in
  match date_o, time_s, gmax, phone with
  | Some d, _ :: _, Some g, _ :: _ =>
      if g =? 0 then (w, [SayRepeat])
      else
        let df := bookings w in
        let bid := next_booking_id df in
        let row :=
          mkBooking bid u name phone g (range_text "-" gmin g) (date_isoformat d)
            time_s [] StatusNew 1 (isoformat_seconds now) (isoformat_seconds now) in
        let w := with_bookings w (df ++ [row]) in
        let show_guests := range_text "–" gmin g ++ utf8 " чел." in
        let note :=
          match admin_chat with
          | Some chat =>
              [AdminBooking chat row (utf8 "admin:confirm:" ++ str_of_Z bid)
                 (utf8 "admin:cancel:" ++ str_of_Z bid)]
          | None => []
          end in
        (with_BOOK_STATE w (delete u (BOOK_STATE w)),
         SayRecorded (strftime_dmY d) time_s show_guests name phone :: note)
  | _, _, _, _ => (w, [SayRepeat])
  end.

(** The fields the router finds missing in a draft. *)
Definition missing_fields (st : Draft) : list text :=
  (if is_some (draft_date st) then [] else [utf8 "дату"])
  ++ (if is_some (draft_time st) then [] else [utf8 "время"])
  ++ (if is_some (guests_max st) || is_some (guests_min st) then []
      else [utf8 "кол-во гостей (можно диапазон)"])
  ++ (if is_some (draft_phone st) then [] else [utf8 "телефон (и имя)"]).

(** The "known so far" parts of the router's prompt. *)
Definition known_parts (st : Draft) : list text :=
  (match draft_date st with Some d => [strftime_dmY d] | None => [] end)
  ++ (if truthy_text (draft_time st) then [or_empty (draft_time st)] else [])
  ++ (if truthy_int (guests_min st) || truthy_int (guests_max st) then
        let g1 := guests_min st in
        let g2 := match guests_max st with Some g => Some g | None => g1 end in
        [(if truthy_int g1 && truthy_int g2
             && negb (match g1, g2 with Some a, Some b => a =? b | _, _ => true end)
          then str_of_Z (default 0 g1) ++ utf8 "–" ++ str_of_Z (default 0 g2)
          else if truthy_int g2 then str_of_Z (default 0 g2)
          else match g1 with Some a => str_of_Z a | None => utf8 "None" end)
         ++ utf8 " чел."]
      else [])
  ++ (if truthy_text (draft_phone st) then [utf8 "тел. " ++ or_empty (draft_phone st)] else []).

(** The merge of the router: the fields found in this message overwrite the
    draft's, the others stay. *)
Definition merge_draft (st : Draft) (d : option date) (t : option text)
    (gmin gmax : option Z) (phone name : option text) (fallback_name : text)
  : Draft :=
  let nm :=
    match (if truthy_text phone then (if truthy_text name then name else None) else None) with
    | Some n => Some n
    | None => match draft_name st with Some n => Some n | None => Some fallback_name end
    end in
  mkDraft
    (match d with Some _ => d | None => draft_date st end)
    (if truthy_text t then t else draft_time st)
    (match gmin with Some _ => gmin | None => guests_min st end)
    (match gmax with Some _ => gmax | None => guests_max st end)
    (if truthy_text phone then phone else draft_phone st)
    nm.

(** The first stage of [universal_router]: the reply to the classified
    intent. *)
Definition intent_reply (now : datetime) (w : World) (message : Message)
    (i : option intent) : result :=
  match i with
  | Some Menu => (Returned, w, [SayMenuPicker])
  | Some Venue => (Returned, w, [SayVenuePicker])
  | Some Quiz => start_quiz_for_user RECURSION_LIMIT now w message
  | _ => (Returned, w, [])
  end.

(** [bool(st)] of what [BOOK_STATE.get(uid)] returned. *)
Definition in_flow (st : option Draft) : bool :=
  match st with Some d => draft_truthy d | None => false end.

(** [intent == "book" or st or has_clues]. *)
Definition enters_booking (now : datetime) (st : option Draft)
    (i : option intent) (txt : text) : bool :=
  let '(d, t, gmin, gmax) := parse_booking_phrase now txt in
  match i with Some Book => true | _ => false end
  || in_flow st
  || (is_some d || truthy_text t || truthy_int gmin || truthy_int gmax).

(** The draft after the router has merged a message into it. *)
Definition turn_draft (now : datetime) (st : option Draft) (message : Message)
  : Draft :=
  let txt := message_text message in
  let '(d, t, gmin, gmax) := parse_booking_phrase now txt in
  let st0 := if in_flow st then default empty_draft st else empty_draft in
  let phone := extract_phone txt in
  let name := extract_name_from_contact_text txt phone in
  merge_draft st0 d t gmin gmax phone name (display_name (from_user message)).

(** [universal_router].  The result says whether the handler returned or
    an exception of the quiz start left it. *)
Definition universal_router (now : datetime) (w : World) (message : Message)
  : result :=
  let u := uid (from_user message) in
  let txt := message_text message in
  let st := BOOK_STATE w !! u in
  let intent := detect_intent txt (in_flow st) in
  let '(e, w, out) := intent_reply now w message intent in
  match e with
  | Raised => (Raised, w, out)
  | Returned =>
      if enters_booking now st intent txt
      then
        let st1 := turn_draft now st message in
        let w := with_BOOK_STATE w (<[u := st1]> (BOOK_STATE w)) in
        match missing_fields st1 with
        | [] =>
            let '(w', out') := finalize_booking now w message st1 in
            (Returned, w', out ++ out')
        | missing => (Returned, w, out ++ [SayUnderstood (known_parts st1) missing])
        end
      else if negb (is_some intent) && negb (in_flow st)
      then (Returned, w, out ++ [SayUnknown])
      else (Returned, w, out)
  end.

(** [cb_quiz]: the quiz button of the start menu. *)
Definition cb_quiz (now : datetime) (w : World) (call : CallbackQuery) : result :=
  let '(e, w', out) :=
    start_quiz_for_user RECURSION_LIMIT now w (call_message call) in
  match e with
  | Returned => (Returned, w', out ++ [Ack])
  | Raised => (Raised, w', out)
  end.

(** *** Runs of the bot *)

(** The updates that reach the quiz and booking state, each with the clock
    reading of its handler. *)
Inductive event : Type :=
| TextMessage (now : datetime) (m : Message)
| QuizButton (now : datetime) (c : CallbackQuery)
| QuizAnswer (now : datetime) (c : CallbackQuery).

Definition handle (w : World) (e : event) : World * list output :=
  match e with
  | TextMessage now m =>
      let '(_, w', out) := universal_router now w m in (w', out)
  | QuizButton now c =>
      let '(_, w', out) := cb_quiz now w c in (w', out)
  | QuizAnswer now c => cb_quiz_answer now w c
  end.

Fixpoint run (evs : list event) (w : World) : World :=
  match evs with
  | [] => w
  | e :: evs' => run evs' (fst (handle w e))
  end.

(** The codes of successive calls of [issue_coupon_to_user]. *)
Fixpoint issue_all (reqs : list (datetime * User)) (w : World)
  : list text * World :=
  match reqs with
  | [] => ([], w)
  | (now, u) :: reqs' =>
      let '(c, w') := issue_coupon_to_user now u w in
      let '(cs, w'') := issue_all reqs' w' in
      (c :: cs, w'')
  end.

(** The retry loop of [generate_unique_coupon_code] finds an unused code. *)
Definition finds_unused (w : World) : bool :=
  is_some (fst (draw_code CODE_ATTEMPTS (existing_codes w) w)).

(** The recheck of [finalize_booking]:
    [date_o and time_s and gmax and phone]. *)
Definition recheck (st : Draft) : bool :=
  is_some (draft_date st)
  && truthy_text (Some (match draft_time st with Some t => t | None => utf8 "20:00" end))
  && truthy_int (match guests_max st with Some g => Some g | None => guests_min st end)
  && truthy_text (Some (strip (or_empty (draft_phone st)))).

(** *** Operator actions *)

(** [str(n)] of an integer. *)
Definition str_of_int (n : Z) : text :=
  if n <? 0 then 45%N :: str_of_Z (- n) else str_of_Z n.

(** [s.split(":")[-1]]: what follows the last colon. *)
Fixpoint last_segment_aux (cur : text) (s : text) : text :=
  match s with
  | [] => rev cur
  | c :: s' =>
      if (c =? 58)%N then last_segment_aux [] s' else last_segment_aux (c :: cur) s'
  end.

Definition last_segment (s : text) : text := last_segment_aux [] s.

(** The digits of an integer literal: single underscores are allowed
    between digits. *)
Fixpoint digits_us (after_digit : bool) (s : text) : bool :=
  match s with
  | [] => after_digit
  | c :: s' =>
      if isdigit c then digits_us true s'
      else if (c =? 95)%N then after_digit && digits_us false s'
      else false
  end.

(** [int(s)] of a string: surrounding white space, an optional sign, the
    digits; [None] is the [ValueError]. *)
Definition int_text (s : text) : option Z :=
  let body := strip s in
  let '(neg, ds) :=
    match body with
    | c :: ds =>
        if (c =? 45)%N then (true, ds)
        else if (c =? 43)%N then (false, ds)
        else (false, body)
    | [] => (false, [])
    end in
  if digits_us false ds
  then Some (let v := int_of (filter isdigit ds) in if neg then - v else v)
  else None.

(** A button callback of the [admin:confirm:] and [admin:cancel:]
    namespaces: the message the button hangs on and the payload. *)
Record AdminCall : Type := mkAdminCall {
  admin_message : Message;
  admin_data : text
}.

Inductive admin_output : Type :=
| SayNotFound                        (* "Бронь не найдена (возможно уже изменена)." *)
| SayStatus (bid : Z) (s : status)   (* "Статус брони {bid} → {s}" *)
| AlertNoRights                      (* call.answer("Недостаточно прав", show_alert=True) *)
| AdminAck                           (* call.answer() *)
| SayAdminOnly                       (* "Команда доступна только в админ-чате." *)
| SayNoneToday                       (* "Сегодня броней нет." *)
| SayToday (rows : list Booking).    (* one line per row: #id — time — name (guests) — status *)

Definition set_status (b : Booking) (s : status) (at_ : iso_text) : Booking :=
  mkBooking (booking_id b) (tg_user_id b) (booking_name b) (booking_phone b)
    (booking_guests b) (guests_range b) (booking_date b) (booking_time b)
    (comment b) s (venue_id b) (created_at b) at_.

Definition admin_update_status (now : datetime) (bid : Z) (new_status : status)
    (w : World) : World * list admin_output :=
  if existsb (fun b => booking_id b =? bid) (bookings w)
  then (with_bookings w
          (map (fun b => if booking_id b =? bid
                         then set_status b new_status (isoformat_seconds now)
                         else b)
               (bookings w)),
        [SayStatus bid new_status])
  else (w, [SayNotFound]).

(** [not ADMIN_CHAT_ID or str(chat.id) != str(ADMIN_CHAT_ID)], negated. *)
Definition from_admin_chat (chat : Z) : bool :=
  match ADMIN_CHAT_ID with
  | [] => false
  | _ => text_eqb (str_of_int chat) ADMIN_CHAT_ID
  end.

Definition admin_action (new_status : status) (now : datetime) (w : World)
    (call : AdminCall) : ending * World * list admin_output :=
  if from_admin_chat (chat_id (admin_message call)) then
    match int_text (last_segment (admin_data call)) with
    | Some bid =>
        let '(w', out) := admin_update_status now bid new_status w in
        (Returned, w', out ++ [AdminAck])
    | None => (Raised, w, [])
    end
  else (Returned, w, [AlertNoRights]).

Definition cb_admin_confirm := admin_action StatusConfirmed.

Definition cb_admin_cancel := admin_action StatusCanceled.

(** [a <= b] on strings: by code points, a prefix before what extends it. *)
Fixpoint text_leb (a b : text) : bool :=
  match a, b with
  | [], _ => true
  | _ :: _, [] => false
  | x :: a', y :: b' => (x <? y)%N || ((x =? y)%N && text_leb a' b')
  end.

Fixpoint insert_by_time (b : Booking) (l : list Booking) : list Booking :=
  match l with
  | [] => [b]
  | c :: l' =>
      if text_leb (booking_time b) (booking_time c) then b :: l
      else c :: insert_by_time b l'
  end.

(** [df.sort_values("time")]: ascending by the text of the time column;
    rows of the same time are kept here in the order of the table. *)
Fixpoint sort_by_time (l : list Booking) : list Booking :=
  match l with
  | [] => []
  | b :: l' => insert_by_time b (sort_by_time l')
  end.

(** [cmd_bookings_today]: the operator's list of the bookings dated today. *)
Definition cmd_bookings_today (now : datetime) (w : World) (message : Message)
  : list admin_output :=
  if from_admin_chat (chat_id message) then
    match filter (fun b => text_eqb (booking_date b) (date_isoformat (dt_date now)))
            (bookings w) with
    | [] => [SayNoneToday]
    | today_df => [SayToday (sort_by_time today_df)]
    end
  else [SayAdminOnly].


(** ** Properties *)

(** *** The quiz-user table *)

Lemma find_user_id (u : Z) (l : list QuizUserState) (r : QuizUserState) :
  find (fun r => user_id r =? u) l = Some r -> user_id r = u.
Proof.
  intros H. apply find_some in H. destruct H as [_ H]. lia.
Qed.

Lemma get_user_id (u : Z) (w : World) : user_id (get_user_quiz_state u w) = u.
Proof.
  unfold get_user_quiz_state.
  destruct (find _ (quiz_users w)) eqn:E; [eauto using find_user_id | reflexivity].
Qed.

Lemma find_replace_same (st : QuizUserState) (l : list QuizUserState) :
  existsb (fun r => user_id r =? user_id st) l = true ->
  find (fun r => user_id r =? user_id st)
    (map (fun r => if user_id r =? user_id st then st else r) l) = Some st.
Proof.
  induction l as [|r l IH]; simpl; [discriminate|].
  destruct (user_id r =? user_id st) eqn:E; simpl.
  - rewrite Z.eqb_refl. reflexivity.
  - rewrite E. exact IH.
Qed.

Lemma find_replace_other (st : QuizUserState) (u : Z) (l : list QuizUserState) :
  u <> user_id st ->
  find (fun r => user_id r =? u)
    (map (fun r => if user_id r =? user_id st then st else r) l)
  = find (fun r => user_id r =? u) l.
Proof.
  intros Hne. induction l as [|r l IH]; simpl; [reflexivity|].
  destruct (user_id r =? user_id st) eqn:E.
  - apply Z.eqb_eq in E.
    assert ((user_id st =? u) = false) as -> by lia.
    assert ((user_id r =? u) = false) as -> by lia. exact IH.
  - destruct (user_id r =? u); [reflexivity | exact IH].
Qed.

Lemma find_none_app (u : Z) (l : list QuizUserState) (st : QuizUserState) :
  find (fun r => user_id r =? u) (l ++ [st])
  = match find (fun r => user_id r =? u) l with
    | Some r => Some r
    | None => if user_id st =? u then Some st else None
    end.
Proof.
  induction l as [|r l IH]; simpl; [reflexivity|].
  destruct (user_id r =? u); [reflexivity | exact IH].
Qed.

Lemma existsb_find_none (u : Z) (l : list QuizUserState) :
  existsb (fun r => user_id r =? u) l = false ->
  find (fun r => user_id r =? u) l = None.
Proof.
  induction l as [|r l IH]; simpl; [reflexivity|].
  destruct (user_id r =? u); simpl; [discriminate | exact IH].
Qed.

Lemma get_set_same (st : QuizUserState) (w : World) :
  get_user_quiz_state (user_id st) (set_user_quiz_state st w) = st.
Proof.
  unfold get_user_quiz_state, set_user_quiz_state; simpl.
  destruct (existsb _ (quiz_users w)) eqn:E.
  - rewrite find_replace_same by exact E. reflexivity.
  - rewrite find_none_app, existsb_find_none by exact E.
    rewrite Z.eqb_refl. reflexivity.
Qed.

Lemma get_set_other (st : QuizUserState) (u : Z) (w : World) :
  u <> user_id st ->
  get_user_quiz_state u (set_user_quiz_state st w) = get_user_quiz_state u w.
Proof.
  intros Hne. unfold get_user_quiz_state, set_user_quiz_state; simpl.
  destruct (existsb _ (quiz_users w)) eqn:E.
  - rewrite find_replace_other by exact Hne. reflexivity.
  - rewrite find_none_app.
    destruct (find _ (quiz_users w)); [reflexivity|].
    assert ((user_id st =? u) = false) as -> by lia. reflexivity.
Qed.

(** What a step of the quiz code may do to the rest of the world: the
    ledger, the bookings and the drafts stay, and no user's streak or award
    flag moves; a lock is kept or cleared. *)
Record quiet (w w' : World) : Prop := mkQuiet {
  quiet_coupons : coupons w' = coupons w;
  quiet_bookings : bookings w' = bookings w;
  quiet_drafts : BOOK_STATE w' = BOOK_STATE w;
  quiet_awarded : forall u,
    awarded (get_user_quiz_state u w') = awarded (get_user_quiz_state u w);
  quiet_streak : forall u,
    streak (get_user_quiz_state u w') = streak (get_user_quiz_state u w);
  quiet_lock : forall u,
    locked_until_iso (get_user_quiz_state u w')
    = locked_until_iso (get_user_quiz_state u w)
    \/ locked_until_iso (get_user_quiz_state u w') = IsoEmpty
}.

Lemma quiet_refl (w : World) : quiet w w.
Proof. constructor; auto. Qed.

Lemma quiet_trans (w1 w2 w3 : World) : quiet w1 w2 -> quiet w2 w3 -> quiet w1 w3.
Proof.
  intros H1 H2. constructor.
  - rewrite (quiet_coupons _ _ H2). apply (quiet_coupons _ _ H1).
  - rewrite (quiet_bookings _ _ H2). apply (quiet_bookings _ _ H1).
  - rewrite (quiet_drafts _ _ H2). apply (quiet_drafts _ _ H1).
  - intros u. rewrite (quiet_awarded _ _ H2). apply (quiet_awarded _ _ H1).
  - intros u. rewrite (quiet_streak _ _ H2). apply (quiet_streak _ _ H1).
  - intros u. destruct (quiet_lock _ _ H2 u) as [H|H]; [|auto].
    rewrite H. apply (quiet_lock _ _ H1).
Qed.

Lemma quiet_set (st : QuizUserState) (w : World) :
  awarded st = awarded (get_user_quiz_state (user_id st) w) ->
  streak st = streak (get_user_quiz_state (user_id st) w) ->
  locked_until_iso st = locked_until_iso (get_user_quiz_state (user_id st) w)
  \/ locked_until_iso st = IsoEmpty ->
  quiet w (set_user_quiz_state st w).
Proof.
  intros Ha Hs Hl. constructor; try reflexivity.
  all: intros u; destruct (Z.eq_dec u (user_id st)) as [->|Hne];
    rewrite ?get_set_same, ?get_set_other by exact Hne; auto.
Qed.

Lemma quiet_with_QUIZ_STATE (w : World) (m : gmap Z text) :
  quiet w (with_QUIZ_STATE w m).
Proof. constructor; auto. Qed.

Lemma quiet_draw (w : World) : quiet w (snd (draw w)).
Proof. constructor; auto. Qed.

Lemma pick_quiet (w : World) : quiet w (snd (pick_quiz_question w)).
Proof.
  unfold pick_quiz_question. destruct quiz_pool; [apply quiet_refl|].
  apply quiet_draw.
Qed.

Lemma check_lock_quiet (now : datetime) (w : World) (u : Z) st' w' :
  check_lock now (get_user_quiz_state u w) w = inr (st', w') ->
  quiet w w' /\ get_user_quiz_state u w' = st' /\ user_id st' = u.
Proof.
  unfold check_lock. intros H.
  pose proof (get_user_id u w) as Hu.
  set (st := get_user_quiz_state u w) in *.
  assert (Hc : quiet w (set_user_quiz_state (set_locked_until_iso st IsoEmpty) w)).
  { apply quiet_set; simpl; rewrite ?Hu; auto. }
  assert (Hg : get_user_quiz_state u
                 (set_user_quiz_state (set_locked_until_iso st IsoEmpty) w)
               = set_locked_until_iso st IsoEmpty).
  { rewrite <- Hu at 1. apply (get_set_same (set_locked_until_iso st IsoEmpty)). }
  destruct (iso_truthy (locked_until_iso st)).
  - destruct (fromisoformat (locked_until_iso st)) as [until|].
    + destruct (dt_ltb now until); [discriminate|].
      injection H as <- <-. auto.
    + injection H as <- <-. auto.
  - injection H as <- <-. split; [apply quiet_refl | auto].
Qed.

Lemma start_quiet (depth : nat) (now : datetime) (w : World) (m : Message) :
  quiet w (snd (fst (start_quiz_for_user depth now w m))).
Proof.
  revert w. induction depth as [|depth IH]; intros w; simpl.
  all: destruct (awarded _ =? 1); [apply quiet_refl|].
  all: destruct (check_lock now _ w) as [until|[st' w1]] eqn:Hl; [apply quiet_refl|].
  all: apply check_lock_quiet in Hl; destruct Hl as (Hq & Hg & Hu).
  all: pose proof (pick_quiet w1) as Hp.
  all: destruct (pick_quiz_question w1) as [[row|] w2] eqn:Hpick; simpl in Hp;
    [|exact (quiet_trans _ _ _ Hq Hp)].
  all: assert (Hg2 : get_user_quiz_state (uid (from_user m)) w2 = st')
    by (destruct Hp as [_ _ _ Ha Hs Hk]; unfold get_user_quiz_state in *;
        unfold pick_quiz_question in Hpick; destruct quiz_pool;
        [ injection Hpick as _ <-; exact Hg
        | injection Hpick as _ <-; exact Hg ]).
  all: destruct (options_list row) as [|o opts] eqn:Ho.
  - exact (quiet_trans _ _ _ Hq Hp).
  - simpl. apply (quiet_trans _ w2); [exact (quiet_trans _ _ _ Hq Hp)|].
    apply (quiet_trans _ (with_QUIZ_STATE w2 (<[row_qid row := correct_letter row (o :: opts)]> (QUIZ_STATE w2))));
      [apply quiet_with_QUIZ_STATE|].
    apply quiet_set; simpl; rewrite Hu; unfold get_user_quiz_state in *; simpl;
      rewrite Hg2; auto.
  - specialize (IH w2).
    destruct (start_quiz_for_user depth now w2 m) as [[e w3] out]; simpl in *.
    exact (quiet_trans _ _ _ (quiet_trans _ _ _ Hq Hp) IH).
  - simpl. apply (quiet_trans _ w2); [exact (quiet_trans _ _ _ Hq Hp)|].
    apply (quiet_trans _ (with_QUIZ_STATE w2 (<[row_qid row := correct_letter row (o :: opts)]> (QUIZ_STATE w2))));
      [apply quiet_with_QUIZ_STATE|].
    apply quiet_set; simpl; rewrite Hu; unfold get_user_quiz_state in *; simpl;
      rewrite Hg2; auto.
Qed.

(** *** Text helpers *)

Lemma text_eqb_eq (a b : text) : text_eqb a b = true <-> a = b.
Proof.
  revert b. induction a as [|x a IH]; intros [|y b]; simpl; split; try easy.
  - intros H. apply andb_true_iff in H. destruct H as [H1 H2].
    apply N.eqb_eq in H1. apply IH in H2. congruence.
  - intros H. injection H as -> ->. rewrite N.eqb_refl. simpl. apply IH. reflexivity.
Qed.

Lemma text_eqb_refl (a : text) : text_eqb a a = true.
Proof. apply text_eqb_eq. reflexivity. Qed.

Lemma text_eqb_neq (a b : text) : a <> b -> text_eqb a b = false.
Proof.
  intros H. destruct (text_eqb a b) eqn:E; [|reflexivity].
  apply text_eqb_eq in E. contradiction.
Qed.

Lemma existsb_text_eqb (c : text) (l : list text) :
  existsb (text_eqb c) l = true <-> In c l.
Proof.
  rewrite existsb_exists. split.
  - intros (x & Hx & E). apply text_eqb_eq in E. subst. exact Hx.
  - intros H. exists c. split; [exact H | apply text_eqb_refl].
Qed.

Lemma zfill_length (w : nat) (n : Z) : (w <= List.length (zfill w n))%nat.
Proof.
  unfold zfill. cbv zeta. rewrite length_app, repeat_length.
  unfold text, char. lia.
Qed.

(** *** The coupon ledger *)

(** Drawing random values moves the cursor of the tape and nothing else. *)
Definition same_but_cursor (w w' : World) : Prop :=
  quiz_users w' = quiz_users w /\ coupons w' = coupons w
  /\ bookings w' = bookings w /\ QUIZ_STATE w' = QUIZ_STATE w
  /\ BOOK_STATE w' = BOOK_STATE w /\ tape w' = tape w.

Lemma draw_code_frame (n : nat) (existing : list text) (w : World) :
  same_but_cursor w (snd (draw_code n existing w))
  /\ (cursor w <= cursor (snd (draw_code n existing w)) <= cursor w + n)%nat.
Proof.
  revert w. induction n as [|n IH]; intros w; simpl.
  - repeat split; lia.
  - destruct (existsb _ existing).
    + destruct (IH (snd (draw w))) as [(H1 & H2 & H3 & H4 & H5 & H6) [H7 H8]].
      unfold draw in *. simpl in *.
      split; [repeat split; assumption | split; lia].
    + simpl. split; [repeat split | split; lia].
Qed.

(** A code returned by the loop was drawn, has six characters or more and
    is not in the ledger. *)
Lemma draw_code_some (n : nat) (existing : list text) (w : World) (c : text) :
  fst (draw_code n existing w) = Some c ->
  ~ In c existing /\ exists x : Z, c = zfill 6 (x mod 1000000).
Proof.
  revert w. induction n as [|n IH]; intros w; simpl; [discriminate|].
  destruct (existsb _ existing) eqn:E.
  - apply IH.
  - simpl. intros H. injection H as <-. split; [|eauto].
    intros Hin. apply existsb_text_eqb in Hin. congruence.
Qed.

(** The loop gives up only when every one of its draws is in the ledger. *)
Lemma draw_code_none (n : nat) (existing : list text) (w : World) :
  fst (draw_code n existing w) = None ->
  forall i, (i < n)%nat ->
    In (zfill 6 (tape w (cursor w + i)%nat mod 1000000)) existing.
Proof.
  revert w. induction n as [|n IH]; intros w; simpl; [lia|].
  destruct (existsb _ existing) eqn:E; [|discriminate].
  intros H [|i] Hi.
  - rewrite Nat.add_0_r. apply existsb_text_eqb. exact E.
  - specialize (IH _ H i ltac:(lia)). simpl in IH.
    replace (cursor w + S i)%nat with (S (cursor w) + i)%nat by lia. exact IH.
Qed.

Lemma reread_coupons_owners (rows : list Coupon) :
  map coupon_user_id (reread_coupons rows) = map coupon_user_id rows.
Proof.
  unfold reread_coupons. destruct (forallb _ rows); [|reflexivity].
  rewrite map_map. reflexivity.
Qed.

Lemma issue_coupon_spec (now : datetime) (u : User) (w : World) :
  let c := fst (issue_coupon_to_user now u w) in
  let w' := snd (issue_coupon_to_user now u w) in
  coupons w' = reread_coupons (coupons w)
                 ++ [mkCoupon c (uid u) (or_empty (username u)) (full_name u)
                       (isoformat_seconds now)]
  /\ quiz_users w' = quiz_users w /\ bookings w' = bookings w
  /\ QUIZ_STATE w' = QUIZ_STATE w /\ BOOK_STATE w' = BOOK_STATE w
  /\ c <> []
  /\ (finds_unused w = true -> ~ In c (existing_codes w))
  /\ (finds_unused w = false -> c = strftime_HMS now).
Proof.
  unfold issue_coupon_to_user, generate_unique_coupon_code, finds_unused.
  pose proof (draw_code_frame CODE_ATTEMPTS (existing_codes w) w) as [F _].
  pose proof (draw_code_some CODE_ATTEMPTS (existing_codes w) w) as S.
  destruct (draw_code CODE_ATTEMPTS (existing_codes w) w) as [[c|] w1];
    simpl in *; destruct F as (F1 & F2 & F3 & F4 & F5 & F6).
  - destruct (S c eq_refl) as [Hn [x ->]].
    rewrite F2. repeat split; auto; try discriminate.
    intros E. pose proof (zfill_length 6 (x mod 1000000)) as L.
    rewrite E in L. simpl in L. lia.
  - rewrite F2. repeat split; auto; try discriminate.
    unfold strftime_HMS. intros E.
    apply (f_equal (@List.length _)) in E. rewrite !length_app in E.
    pose proof (zfill_length 2 (dt_hour now)). simpl in E. lia.
Qed.

(** *** The quiz handlers *)

Definition coupons_of (u : Z) (w : World) : list Coupon :=
  filter (fun c => coupon_user_id c =? u) (coupons w).

(** Worlds that agree on the quiz-user table and on the ledger. *)
Definition same_quiz (w w' : World) : Prop :=
  quiz_users w' = quiz_users w /\ coupons w' = coupons w.

Lemma start_awarded (depth : nat) (now : datetime) (w : World) (m : Message) :
  awarded (get_user_quiz_state (uid (from_user m)) w) = 1 ->
  start_quiz_for_user depth now w m = (Returned, w, [SayAlreadyWon]).
Proof.
  intros H. destruct depth; simpl; rewrite H; reflexivity.
Qed.

Lemma answer_awarded (now : datetime) (w : World) (call : CallbackQuery) qid opt :
  call_data call = Some (qid, opt) ->
  awarded (get_user_quiz_state (uid (call_from_user call)) w) = 1 ->
  cb_quiz_answer now w call = (w, [SayAlreadyWon; Ack]).
Proof.
  intros Hd H. unfold cb_quiz_answer, answer_body. rewrite Hd, H. reflexivity.
Qed.

Lemma finalize_same_quiz (now : datetime) (w : World) (m : Message) (st : Draft) :
  same_quiz w (fst (finalize_booking now w m st)).
Proof.
  unfold finalize_booking.
  destruct (draft_date st); [|split; reflexivity].
  destruct (match draft_time st with Some t => t | None => _ end);
    [split; reflexivity|].
  destruct (match guests_max st with Some g => Some g | None => _ end) as [g|];
    [|split; reflexivity].
  destruct (strip _); [split; reflexivity|].
  destruct (g =? 0); split; reflexivity.
Qed.

(** The router touches the quiz tables only through the quiz start of its
    first stage. *)
Lemma router_after_intent (now : datetime) (w : World) (m : Message) :
  let i := detect_intent (message_text m)
             (in_flow (BOOK_STATE w !! uid (from_user m))) in
  same_quiz (snd (fst (intent_reply now w m i)))
            (snd (fst (universal_router now w m))).
Proof.
  intros i. unfold universal_router. fold i.
  destruct (intent_reply now w m i) as [[e w1] out1]. simpl.
  destruct e; [|split; reflexivity].
  destruct (enters_booking _ _ _ _).
  - destruct (missing_fields _).
    + match goal with |- context [finalize_booking ?a ?b ?c ?d] =>
        pose proof (finalize_same_quiz a b c d) as Hf;
        destruct (finalize_booking a b c d) as [w2 out2] end.
      simpl in *. destruct Hf as [H1 H2]. split; assumption.
    + split; reflexivity.
  - destruct (_ && _); split; reflexivity.
Qed.

Lemma intent_reply_quiet (now : datetime) (w : World) (m : Message) i :
  quiet w (snd (fst (intent_reply now w m i))).
Proof.
  destruct i as [[]|]; simpl; try apply quiet_refl. apply start_quiet.
Qed.

Lemma cb_quiz_quiet (now : datetime) (w : World) (call : CallbackQuery) :
  quiet w (snd (fst (cb_quiz now w call))).
Proof.
  unfold cb_quiz.
  pose proof (start_quiet RECURSION_LIMIT now w (call_message call)) as H.
  destruct (start_quiz_for_user _ now w _) as [[[] w1] out]; exact H.
Qed.

(** The four ways [cb_quiz_answer] treats the answer of a user without an
    award, each by its equation. *)

Definition stale (w : World) (qid : Z) : Prop :=
  QUIZ_STATE_get w qid = None \/ QUIZ_STATE_get w qid = Some [].

Definition live (w : World) (qid : Z) (correct : text) : Prop :=
  QUIZ_STATE_get w qid = Some correct /\ correct <> [].

Lemma answer_stale (now : datetime) (w : World) (call : CallbackQuery) qid opt :
  call_data call = Some (qid, opt) ->
  awarded (get_user_quiz_state (uid (call_from_user call)) w) <> 1 ->
  stale w qid ->
  cb_quiz_answer now w call =
    match start_quiz_for_user RECURSION_LIMIT now w (call_message call) with
    | (Returned, w', out) => (w', SayClosed :: out ++ [Ack])
    | (Raised, w', out) => (w', SayClosed :: out ++ [SayWentWrong; Ack])
    end.
Proof.
  intros Hd Ha Hs. unfold cb_quiz_answer, answer_body. rewrite Hd.
  assert ((awarded (get_user_quiz_state (uid (call_from_user call)) w) =? 1) = false)
    as -> by lia.
  destruct Hs as [-> | ->];
    destruct (start_quiz_for_user _ now w _) as [[[] w1] out]; reflexivity.
Qed.

Definition after_miss (now : datetime) (st : QuizUserState) : QuizUserState :=
  set_locked_until_iso (set_current_qid (set_streak st 0) 0)
    (isoformat_seconds (dt_add_days now 1)).

Lemma answer_incorrect (now : datetime) (w : World) (call : CallbackQuery)
    qid opt correct :
  call_data call = Some (qid, opt) ->
  awarded (get_user_quiz_state (uid (call_from_user call)) w) <> 1 ->
  live w qid correct -> opt <> correct ->
  cb_quiz_answer now w call =
    (with_QUIZ_STATE
       (set_user_quiz_state
          (after_miss now (get_user_quiz_state (uid (call_from_user call)) w)) w)
       (delete qid (QUIZ_STATE w)),
     [SayMissed (format_time_hhmm (dt_add_days now 1)); Ack]).
Proof.
  intros Hd Ha [Hq Hne] Ho. unfold cb_quiz_answer, answer_body. rewrite Hd.
  assert ((awarded (get_user_quiz_state (uid (call_from_user call)) w) =? 1) = false)
    as -> by lia.
  rewrite Hq. destruct correct as [|c0 cs]; [contradiction|].
  rewrite (text_eqb_neq _ _ Ho). reflexivity.
Qed.

Definition after_hit (st : QuizUserState) : QuizUserState :=
  set_current_qid (set_streak st (streak st + 1)) 0.

Lemma answer_correct_chain (now : datetime) (w : World) (call : CallbackQuery)
    qid correct :
  call_data call = Some (qid, correct) ->
  awarded (get_user_quiz_state (uid (call_from_user call)) w) <> 1 ->
  live w qid correct ->
  streak (get_user_quiz_state (uid (call_from_user call)) w) + 1 < 3 ->
  let st := after_hit (get_user_quiz_state (uid (call_from_user call)) w) in
  cb_quiz_answer now w call =
    match start_quiz_for_user RECURSION_LIMIT now (set_user_quiz_state st w)
            (call_message call) with
    | (Returned, w', out) =>
        (with_QUIZ_STATE w' (delete qid (QUIZ_STATE w')),
         SayCorrect (3 - streak st) :: out ++ [Ack])
    | (Raised, w', out) =>
        (w', SayCorrect (3 - streak st) :: out ++ [SayWentWrong; Ack])
    end.
Proof.
  intros Hd Ha [Hq Hne] Hs st. unfold cb_quiz_answer, answer_body. rewrite Hd.
  assert ((awarded (get_user_quiz_state (uid (call_from_user call)) w) =? 1) = false)
    as -> by lia.
  rewrite Hq. destruct correct as [|c0 cs]; [contradiction|].
  rewrite text_eqb_refl. subst st. unfold after_hit.
  cbn [streak awarded set_current_qid set_streak set_awarded].
  assert ((3 <=? streak (get_user_quiz_state (uid (call_from_user call)) w) + 1) = false)
    as -> by lia.
  destruct (start_quiz_for_user _ now _ _) as [[[] w1] out]; reflexivity.
Qed.

Lemma answer_award (now : datetime) (w : World) (call : CallbackQuery)
    qid correct :
  call_data call = Some (qid, correct) ->
  awarded (get_user_quiz_state (uid (call_from_user call)) w) = 0 ->
  live w qid correct ->
  3 <= streak (get_user_quiz_state (uid (call_from_user call)) w) + 1 ->
  let st := after_hit (get_user_quiz_state (uid (call_from_user call)) w) in
  let issued := issue_coupon_to_user now (call_from_user call)
                  (set_user_quiz_state st w) in
  let w1 := set_user_quiz_state (set_streak (set_awarded st 1) 0)
              (set_user_quiz_state (set_awarded st 1) (snd issued)) in
  cb_quiz_answer now w call =
    (with_QUIZ_STATE w1 (delete qid (QUIZ_STATE w1)),
     (SayPrize (fst issued) :: notify_admin_coupon (fst issued) (call_from_user call))
     ++ [Ack]).
Proof.
  intros Hd Ha [Hq Hne] Hs st issued w1. unfold cb_quiz_answer, answer_body.
  rewrite Hd, Ha. simpl (0 =? 1).
  rewrite Hq. destruct correct as [|c0 cs]; [contradiction|].
  rewrite text_eqb_refl.
  pose proof (issue_coupon_spec now (call_from_user call) (set_user_quiz_state st w))
    as (_ & _ & _ & _ & _ & Hc & _).
  fold issued in Hc. subst w1. unfold issued in *. clear issued.
  subst st. unfold after_hit in *.
  cbn [streak awarded set_current_qid set_streak set_awarded] in *.
  assert ((3 <=? streak (get_user_quiz_state (uid (call_from_user call)) w) + 1) = true)
    as -> by lia.
  rewrite Ha. simpl (0 =? 0).
  destruct (issue_coupon_to_user now (call_from_user call) _) as [c w2].
  simpl in *. destruct c; [contradiction|]. reflexivity.
Qed.

Lemma answer_prize_again (now : datetime) (w : World) (call : CallbackQuery)
    qid correct :
  call_data call = Some (qid, correct) ->
  awarded (get_user_quiz_state (uid (call_from_user call)) w) <> 1 ->
  awarded (get_user_quiz_state (uid (call_from_user call)) w) <> 0 ->
  live w qid correct ->
  3 <= streak (get_user_quiz_state (uid (call_from_user call)) w) + 1 ->
  let st := after_hit (get_user_quiz_state (uid (call_from_user call)) w) in
  let w1 := set_user_quiz_state (set_streak st 0) (set_user_quiz_state st w) in
  cb_quiz_answer now w call =
    (with_QUIZ_STATE w1 (delete qid (QUIZ_STATE w1)), [SayPrizeAgain; Ack]).
Proof.
  intros Hd Ha Ha0 [Hq Hne] Hs st w1. unfold cb_quiz_answer, answer_body.
  rewrite Hd.
  assert ((awarded (get_user_quiz_state (uid (call_from_user call)) w) =? 1) = false)
    as -> by lia.
  rewrite Hq. destruct correct as [|c0 cs]; [contradiction|].
  rewrite text_eqb_refl. subst w1 st. unfold after_hit.
  cbn [streak awarded set_current_qid set_streak set_awarded].
  assert ((3 <=? streak (get_user_quiz_state (uid (call_from_user call)) w) + 1) = true)
    as -> by lia.
  assert ((awarded (get_user_quiz_state (uid (call_from_user call)) w) =? 0) = false)
    as -> by lia.
  reflexivity.
Qed.

(** Every case of an answer is one of the above. *)
Lemma answer_cases (w : World) (qid : Z) :
  stale w qid \/ exists correct, live w qid correct.
Proof.
  unfold stale, live. destruct (QUIZ_STATE_get w qid) as [[|c cs]|]; eauto.
Qed.

(** *** The lock after a wrong answer *)

Lemma start_locked (depth : nat) (now : datetime) (w : World) (m : Message)
    (t : datetime) :
  let u := uid (from_user m) in
  awarded (get_user_quiz_state u w) <> 1 ->
  locked_until_iso (get_user_quiz_state u w) = IsoOf t ->
  dt_ltb now t = true ->
  start_quiz_for_user depth now w m = (Returned, w, [SayLocked (format_time_hhmm t)]).
Proof.
  intros u Ha Hl Hlt.
  assert ((awarded (get_user_quiz_state u w) =? 1) = false) as Hb by lia.
  destruct depth; simpl; fold u; rewrite Hb; unfold check_lock;
    rewrite Hl; simpl; rewrite Hlt; reflexivity.
Qed.

(** The attempt of a user whose lock has passed is the attempt of the same
    user with the lock cleared and saved. *)
Lemma start_lock_passed (depth : nat) (now : datetime) (w : World) (m : Message)
    (t : datetime) :
  let u := uid (from_user m) in
  awarded (get_user_quiz_state u w) <> 1 ->
  locked_until_iso (get_user_quiz_state u w) = IsoOf t ->
  dt_ltb now t = false ->
  let w1 := set_user_quiz_state
              (set_locked_until_iso (get_user_quiz_state u w) IsoEmpty) w in
  locked_until_iso (get_user_quiz_state u w1) = IsoEmpty
  /\ awarded (get_user_quiz_state u w1) <> 1
  /\ start_quiz_for_user depth now w m = start_quiz_for_user depth now w1 m.
Proof.
  intros u Ha Hl Hlt w1.
  pose proof (get_user_id u w) as Hu.
  assert (Hg : get_user_quiz_state u w1
               = set_locked_until_iso (get_user_quiz_state u w) IsoEmpty).
  { subst w1. rewrite <- Hu at 1.
    apply (get_set_same (set_locked_until_iso (get_user_quiz_state u w) IsoEmpty)). }
  rewrite Hg. split; [reflexivity | split; [exact Ha|]].
  assert ((awarded (get_user_quiz_state u w) =? 1) = false) as Hb by lia.
  destruct depth; simpl; fold u; rewrite Hg; simpl; rewrite Hb;
    unfold check_lock; rewrite Hl; simpl; rewrite Hlt; reflexivity.
Qed.

(** The attempt of a user without award and without lock draws a row; a
    row with options is registered and sent. *)
Lemma start_unlocked_question (depth : nat) (now : datetime) (w : World)
    (m : Message) (row : QuizRow) (w2 : World) :
  let u := uid (from_user m) in
  awarded (get_user_quiz_state u w) <> 1 ->
  iso_truthy (locked_until_iso (get_user_quiz_state u w)) = false ->
  pick_quiz_question w = (Some row, w2) ->
  options_list row <> [] ->
  let letter := correct_letter row (options_list row) in
  let st := set_last_played_at
              (set_current_qid (get_user_quiz_state u w) (row_qid row))
              (isoformat_seconds now) in
  start_quiz_for_user depth now w m =
    (Returned,
     set_user_quiz_state st
       (with_QUIZ_STATE w2 (<[row_qid row := letter]> (QUIZ_STATE w2))),
     [SayQuestion (row_text row) (buttons_of (row_qid row) (options_list row))]).
Proof.
  intros u Ha Hl Hp Ho letter st.
  assert ((awarded (get_user_quiz_state u w) =? 1) = false) as Hb by lia.
  destruct depth; simpl; fold u; rewrite Hb; unfold check_lock; rewrite Hl, Hp;
    subst letter st; destruct (options_list row); try contradiction; reflexivity.
Qed.

Lemma dt_seconds_close (t : datetime) :
  dt_ord (dt_seconds t) = dt_ord t
  /\ dt_us t - US_PER_SECOND < dt_us (dt_seconds t) <= dt_us t
  /\ dt_us (dt_seconds t) mod US_PER_SECOND = 0.
Proof.
  unfold dt_seconds, US_PER_SECOND. simpl.
  pose proof (Z.mod_pos_bound (dt_us t) 1000000 ltac:(lia)).
  repeat split; try lia.
  rewrite Zminus_mod, Z.mod_mod, Z.sub_diag by lia. reflexivity.
Qed.


(** *** The active-question table *)

(** An answer to a question id that is not registered, by a user without
    an award: the notice, then a new attempt, and nothing else. *)
Lemma stale_answer_restarts (now : datetime) (w : World) (call : CallbackQuery)
    (qid : Z) (opt : text) :
  call_data call = Some (qid, opt) ->
  awarded (get_user_quiz_state (uid (call_from_user call)) w) <> 1 ->
  stale w qid ->
  let s := start_quiz_for_user RECURSION_LIMIT now w (call_message call) in
  fst (cb_quiz_answer now w call) = snd (fst s)
  /\ (exists tail, snd (cb_quiz_answer now w call) = SayClosed :: snd s ++ tail)
  /\ quiet w (fst (cb_quiz_answer now w call)).
Proof.
  intros Hd Ha Hs s. rewrite (answer_stale now w call qid opt Hd Ha Hs).
  pose proof (start_quiet RECURSION_LIMIT now w (call_message call)) as Hq.
  subst s. destruct (start_quiz_for_user _ now w _) as [[[] w1] out];
    simpl in *; eauto.
Qed.












(** *** Coupon codes *)

Definition six_digits (c : text) : Prop :=
  List.length c = 6%nat /\ forallb isdigit c = true.

Lemma digit_char_isdigit (d : Z) : 0 <= d < 10 -> isdigit (digit_char d) = true.
Proof.
  intros H. unfold isdigit, digit_char, in_range.
  apply andb_true_iff. split; apply N.leb_le; lia.
Qed.

Lemma dec_aux_digits (fuel : nat) (n : Z) (acc : text) (k : nat) :
  0 <= n < 10 ^ Z.of_nat (S k) -> (Z.to_nat n < fuel)%nat ->
  forallb isdigit acc = true ->
  forallb isdigit (dec_aux fuel n acc) = true
  /\ (List.length (dec_aux fuel n acc) <= S k + List.length acc)%nat.
Proof.
  revert n acc k. induction fuel as [|f IH]; intros n acc k Hn Hf Ha; [lia|].
  simpl. assert (Hd : isdigit (digit_char (n mod 10)) = true).
  { apply digit_char_isdigit. apply Z.mod_pos_bound. lia. }
  destruct (n <? 10) eqn:E.
  - simpl. rewrite Hd, Ha. split; [reflexivity | lia].
  - apply Z.ltb_ge in E. destruct k as [|k].
    + change (10 ^ Z.of_nat 1) with 10 in Hn. lia.
    + assert (Hq : 0 <= n / 10 < 10 ^ Z.of_nat (S k)).
      { split; [apply Z.div_pos; lia|].
        apply Z.div_lt_upper_bound; [lia|].
        replace (Z.of_nat (S (S k))) with (Z.succ (Z.of_nat (S k))) in Hn by lia.
        rewrite Z.pow_succ_r in Hn by lia. lia. }
      assert (Hlt : n / 10 < n) by (apply Z.div_lt; lia).
      destruct (IH (n / 10) (digit_char (n mod 10) :: acc) k Hq) as [H1 H2].
      * lia.
      * simpl. rewrite Hd, Ha. reflexivity.
      * split; [exact H1 | simpl in H2; lia].
Qed.

Lemma str_of_Z_digits (n : Z) (k : nat) :
  0 <= n < 10 ^ Z.of_nat (S k) ->
  forallb isdigit (str_of_Z n) = true /\ (List.length (str_of_Z n) <= S k)%nat.
Proof.
  intros Hn. unfold str_of_Z.
  destruct (dec_aux_digits (S (Z.to_nat n)) n [] k Hn ltac:(lia) eq_refl) as [H1 H2].
  split; [exact H1|]. cbn [List.length] in H2. lia.
Qed.

Lemma pad_digits (w : nat) (s : text) :
  forallb isdigit s = true -> (List.length s <= w)%nat ->
  List.length (repeat 48%N (w - List.length s)%nat ++ s) = w
  /\ forallb isdigit (repeat 48%N (w - List.length s)%nat ++ s) = true.
Proof.
  intros Hd Hl. unfold text, char in s, Hl |- *. split.
  - rewrite length_app, repeat_length. lia.
  - rewrite forallb_app. apply andb_true_iff. split; [|exact Hd].
    generalize (w - List.length s)%nat. intros k. induction k; simpl; auto.
Qed.

Lemma zfill6_six_digits (x : Z) : six_digits (zfill 6 (x mod 1000000)).
Proof.
  pose proof (Z.mod_pos_bound x 1000000 ltac:(lia)) as Hb.
  assert (Hp : 0 <= x mod 1000000 < 10 ^ Z.of_nat 6)
    by (change (10 ^ Z.of_nat 6) with 1000000; lia).
  destruct (str_of_Z_digits _ 5 Hp) as [H1 H2].
  exact (pad_digits 6 _ H1 H2).
Qed.


(** *** The booking dialogue *)

(** One extraction never yields a lower bound above the upper bound. *)
Lemma extract_guests_range_ordered (txt : text) (lo hi : Z) :
  extract_guests_range txt = (Some lo, Some hi) -> lo <= hi.
Proof.
  unfold extract_guests_range.
  destruct (normalize_text txt) as [|c t]; [discriminate|].
  set (s := c :: t). clearbody s.
  destruct (re_search GUESTS_RE_RANGE s); [intros H; injection H as <- <-; lia|].
  unfold guests_words.
  assert (Hft : guests_from_to s = (Some lo, Some hi) -> lo <= hi).
  { unfold guests_from_to.
    destruct (re_search GUESTS_RE_FROM_TO s); [intros H; injection H as <- <-; lia|].
    destruct (re_search GUESTS_RE_UPTO s); [discriminate|].
    unfold guests_words_single.
    destruct (first_word upto_word_re WORDS_TO_NUM s); [discriminate|].
    destruct (first_word word_re WORDS_TO_NUM s);
      [intros H; injection H as <- <-; lia|].
    unfold guests_single. destruct (re_search GUESTS_RE_SINGLE s); [|discriminate].
    destruct (_ && _); [intros H; injection H as <- <-; lia | discriminate]. }
  destruct (re_search GUESTS_RE_WORDS s) as [m|]; [|exact Hft].
  generalize (dict_get WORDS_TO_NUM (group_text 1 m))
             (dict_get WORDS_TO_NUM (group_text 2 m)).
  intros [a|] [b|]; try exact Hft.
  destruct (truthy_int (Some a) && truthy_int (Some b));
    [intros H; injection H as <- <-; lia | exact Hft].
Qed.

(** The record written by a finalization that passes the recheck. *)
Definition booking_row (now : datetime) (w : World) (message : Message)
    (st : Draft) : Booking :=
  let g := default 0 (match guests_max st with Some g => Some g | None => guests_min st end) in
  mkBooking (next_booking_id (bookings w)) (uid (from_user message))
    (match draft_name st with Some n => n | None => display_name (from_user message) end)
    (strip (or_empty (draft_phone st))) g (range_text "-" (guests_min st) g)
    (date_isoformat (default (mkdate 0 0 0) (draft_date st)))
    (match draft_time st with Some t => t | None => utf8 "20:00" end)
    [] StatusNew 1 (isoformat_seconds now) (isoformat_seconds now).

Lemma finalize_spec (now : datetime) (w : World) (m : Message) (st : Draft) :
  (recheck st = false -> finalize_booking now w m st = (w, [SayRepeat]))
  /\ (recheck st = true ->
      let row := booking_row now w m st in
      let w' := fst (finalize_booking now w m st) in
      BOOK_STATE w' = delete (uid (from_user m)) (BOOK_STATE w)
      /\ bookings w' = bookings w ++ [row]
      /\ (exists shown,
             snd (finalize_booking now w m st)
             = SayRecorded (strftime_dmY (default (mkdate 0 0 0) (draft_date st)))
                 (booking_time row) shown (booking_name row) (booking_phone row)
               :: match admin_chat with
                  | Some chat =>
                      [AdminBooking chat row
                         (utf8 "admin:confirm:" ++ str_of_Z (booking_id row))
                         (utf8 "admin:cancel:" ++ str_of_Z (booking_id row))]
                  | None => []
                  end)).
Proof.
  unfold recheck, finalize_booking, booking_row.
  destruct (draft_date st) as [d|]; simpl; [|split; [reflexivity | discriminate]].
  destruct (match draft_time st with Some t => t | None => _ end) as [|t0 ts];
    simpl; [split; [reflexivity | discriminate]|].
  destruct (match guests_max st with Some g => Some g | None => _ end) as [g|];
    simpl; [|split; [reflexivity | discriminate]].
  destruct (strip (or_empty (draft_phone st))) as [|p0 ps]; simpl.
  { rewrite andb_false_r. split; [reflexivity | discriminate]. }
  destruct (g =? 0); simpl; split; try reflexivity; try discriminate.
  intros _. repeat split. eexists. reflexivity.
Qed.

(** C6 (amended).  When the dialogue manager finds no field missing it
    hands the draft to the Finalizer.  If the Finalizer's recheck passes,
    the reservation is appended with [status = new] and the user's draft is
    removed from the draft table; if the recheck fails, the Finalizer sends
    its retry prompt, writes no reservation, and the draft stays in the
    table as merged. *)
Theorem C6_draft_cleared_on_success_kept_on_abort
    (now : datetime) (w w1 : World) (m : Message) (out1 : list output) :
  let u := uid (from_user m) in
  let st := BOOK_STATE w !! u in
  let i := detect_intent (message_text m) (in_flow st) in
  let st1 := turn_draft now st m in
  intent_reply now w m i = (Returned, w1, out1) ->
  enters_booking now st i (message_text m) = true ->
  missing_fields st1 = [] ->
  let r := universal_router now w m in
  let w' := snd (fst r) in
  fst (fst r) = Returned
  /\ (recheck st1 = true ->
      BOOK_STATE w' !! u = None
      /\ exists row, bookings w' = bookings w1 ++ [row]
                     /\ booking_status row = StatusNew
                     /\ tg_user_id row = u)
  /\ (recheck st1 = false ->
      BOOK_STATE w' !! u = Some st1
      /\ bookings w' = bookings w1
      /\ snd r = out1 ++ [SayRepeat]).
Proof.
  intros u st i st1 Hi He Hm r w'. subst r w'.
  unfold universal_router. fold u st i. rewrite Hi, He. fold st1. rewrite Hm.
  set (w2 := with_BOOK_STATE w1 (<[u := st1]> (BOOK_STATE w1))).
  destruct (finalize_spec now w2 m st1) as [Hf Ht].
  destruct (recheck st1) eqn:Er.
  - specialize (Ht eq_refl). destruct Ht as (H1 & H2 & _).
    destruct (finalize_booking now w2 m st1) as [w3 out3]. simpl in *.
    split; [reflexivity | split; [|discriminate]].
    intros _. split.
    + rewrite H1. apply lookup_delete_eq.
    + eexists. split; [exact H2 | split; reflexivity].
  - rewrite (Hf eq_refl). simpl.
    split; [reflexivity | split; [discriminate|]].
    intros _. split; [apply lookup_insert_eq | split; reflexivity].
Qed.

(** C7.  A draft with a date, a time and a guest count but no phone, and a
    message from which no extractor takes anything: when the handler
    returns, which it does unless the message is classified as a quiz
    request and the quiz start raises, its last reply is the prompt naming
    exactly the one missing category "телефон (и имя)", no reservation is
    written, and the draft stays in the table with its date, time, guest
    bounds and missing phone as they were. *)
Theorem C7_draft_without_phone_asks_for_phone
    (now : datetime) (w : World) (m : Message) (st : Draft) :
  let u := uid (from_user m) in
  let txt := message_text m in
  BOOK_STATE w !! u = Some st ->
  is_some (draft_date st) = true ->
  is_some (draft_time st) = true ->
  is_some (guests_min st) || is_some (guests_max st) = true ->
  draft_phone st = None ->
  parse_booking_phrase now txt = (None, None, None, None) ->
  extract_phone txt = None ->
  let i := detect_intent txt true in
  let st' := mkDraft (draft_date st) (draft_time st) (guests_min st) (guests_max st)
               None (Some (match draft_name st with
                           | Some n => n
                           | None => display_name (from_user m)
                           end)) in
  let r := universal_router now w m in
  (i <> Some Quiz -> fst (fst r) = Returned)
  /\ (fst (fst r) = Returned ->
      exists out1,
        snd r = out1 ++ [SayUnderstood (known_parts st') [utf8 "телефон (и имя)"]]
        /\ bookings (snd (fst r)) = bookings w
        /\ BOOK_STATE (snd (fst r)) !! u = Some st').
Proof.
  intros u txt Hst Hd Ht Hg Hp Hparse Hphone i st' r.
  assert (Hflow : in_flow (Some st) = true).
  { simpl. unfold draft_truthy. rewrite Hd. reflexivity. }
  assert (Hturn : turn_draft now (Some st) m = st').
  { unfold turn_draft. fold txt. rewrite Hparse, Hphone, Hflow. simpl.
    unfold merge_draft. simpl. rewrite Hp. subst st'.
    destruct (draft_time st) as [[|t0 ts]|], (draft_name st); reflexivity. }
  assert (Hmiss : missing_fields st' = [utf8 "телефон (и имя)"]).
  { unfold missing_fields. subst st'. simpl. rewrite Hd, Ht.
    rewrite orb_comm in Hg. rewrite Hg. reflexivity. }
  assert (Hent : enters_booking now (Some st) i txt = true).
  { unfold enters_booking. rewrite Hparse, Hflow.
    destruct i as [[]|]; reflexivity. }
  subst r. unfold universal_router. fold u txt. rewrite Hst, Hflow. fold i.
  pose proof (intent_reply_quiet now w m i) as Hq.
  assert (Hret : i <> Some Quiz -> fst (fst (intent_reply now w m i)) = Returned).
  { destruct i as [[]|]; simpl; intros H; congruence. }
  destruct (intent_reply now w m i) as [[e w1] out1]. simpl in Hq, Hret.
  destruct e.
  - rewrite Hent, Hturn, Hmiss. simpl. split; [reflexivity|].
    intros _. exists out1. split; [reflexivity|].
    split; [apply (quiet_bookings _ _ Hq) | apply lookup_insert_eq].
  - simpl. split; [exact Hret | discriminate].
Qed.

(** *** Calendar *)

Lemma month_day_ok (leap : bool) (r1 : Z) :
  0 <= r1 < 365 ->
  days_before_month_leap leap (fst (month_day leap r1)) + snd (month_day leap r1)
  = r1 + 1
  /\ 1 <= fst (month_day leap r1) <= 12.
Proof.
  intros Hr.
  assert (Hall : forallb (fun k =>
            let r := Z.of_nat k in
            forallb (fun l =>
              (days_before_month_leap l (fst (month_day l r)) + snd (month_day l r)
               =? r + 1)
              && (1 <=? fst (month_day l r)) && (fst (month_day l r) <=? 12))
              [true; false]) (seq 0 365) = true) by (vm_compute; reflexivity).
  rewrite forallb_forall in Hall.
  specialize (Hall (Z.to_nat r1)). rewrite Z2Nat.id in Hall by lia.
  assert (Hin : In (Z.to_nat r1) (seq 0 365)) by (apply in_seq; lia).
  specialize (Hall Hin). cbv zeta in Hall. rewrite forallb_forall in Hall.
  assert (Hl : In leap [true; false]) by (destruct leap; simpl; auto).
  specialize (Hall leap Hl).
  apply andb_true_iff in Hall. destruct Hall as [Hall H3].
  apply andb_true_iff in Hall. destruct Hall as [H1 H2]. lia.
Qed.

Lemma is_leap_of_parts (n400 n100 n4 n1 : Z) :
  0 <= n100 <= 3 -> 0 <= n4 <= 24 -> 0 <= n1 <= 3 ->
  is_leap (n400 * 400 + 1 + n100 * 100 + n4 * 4 + n1)
  = (n1 =? 3) && (negb (n4 =? 24) || (n100 =? 3)).
Proof.
  intros H100 H4 H1. unfold is_leap.
  set (y := n400 * 400 + 1 + n100 * 100 + n4 * 4 + n1).
  assert (E4 : y mod 4 = (n1 + 1) mod 4).
  { subst y. replace (n400 * 400 + 1 + n100 * 100 + n4 * 4 + n1)
      with (n1 + 1 + (n400 * 100 + n100 * 25 + n4) * 4) by lia.
    apply Z.mod_add. lia. }
  assert (E100 : y mod 100 = (n4 * 4 + n1 + 1) mod 100).
  { subst y. replace (n400 * 400 + 1 + n100 * 100 + n4 * 4 + n1)
      with (n4 * 4 + n1 + 1 + (n400 * 4 + n100) * 100) by lia.
    apply Z.mod_add. lia. }
  assert (E400 : y mod 400 = (n100 * 100 + n4 * 4 + n1 + 1) mod 400).
  { subst y. replace (n400 * 400 + 1 + n100 * 100 + n4 * 4 + n1)
      with (n100 * 100 + n4 * 4 + n1 + 1 + n400 * 400) by lia.
    apply Z.mod_add. lia. }
  rewrite E4, E100, E400. clearbody y.
  destruct (Z.eqb_spec n1 3) as [->|N1].
  - change ((3 + 1) mod 4) with 0. simpl (0 =? 0). cbn [andb].
    destruct (Z.eqb_spec n4 24) as [->|N4].
    + change ((24 * 4 + 3 + 1) mod 100) with 0. simpl (negb (0 =? 0)). cbn [negb orb].
      destruct (Z.eqb_spec n100 3) as [->|N100]; [reflexivity|].
      rewrite Z.mod_small by lia.
      apply Z.eqb_neq. lia.
    + rewrite (Z.mod_small (n4 * 4 + 3 + 1)) by lia.
      assert ((n4 * 4 + 3 + 1 =? 0) = false) as -> by lia. reflexivity.
  - rewrite Z.mod_small by lia.
    assert ((n1 + 1 =? 0) = false) as -> by lia. reflexivity.
Qed.

Lemma days_before_year_parts (n400 n100 n4 n1 : Z) :
  0 <= n100 <= 3 -> 0 <= n4 <= 24 -> 0 <= n1 <= 3 ->
  days_before_year (n400 * 400 + 1 + n100 * 100 + n4 * 4 + n1)
  = 146097 * n400 + 36524 * n100 + 1461 * n4 + 365 * n1.
Proof.
  intros H100 H4 H1. unfold days_before_year. cbv zeta.
  set (y1 := n400 * 400 + 1 + n100 * 100 + n4 * 4 + n1 - 1).
  assert (Q4 : y1 / 4 = n400 * 100 + n100 * 25 + n4).
  { symmetry. apply (Z.div_unique _ _ _ n1); [lia | subst y1; lia]. }
  assert (Q100 : y1 / 100 = n400 * 4 + n100).
  { symmetry. apply (Z.div_unique _ _ _ (n4 * 4 + n1)); [lia | subst y1; lia]. }
  assert (Q400 : y1 / 400 = n400).
  { symmetry. apply (Z.div_unique _ _ _ (n100 * 100 + n4 * 4 + n1));
      [lia | subst y1; lia]. }
  rewrite Q4, Q100, Q400. subst y1. lia.
Qed.

(** The ordinal of the date of an ordinal is that ordinal. *)
Lemma toordinal_fromordinal (n : Z) : 1 <= n -> toordinal (fromordinal n) = n.
Proof.
  intros Hn. unfold fromordinal. cbv zeta.
  pose proof (Z.div_mod (n - 1) 146097 ltac:(lia)) as D400.
  pose proof (Z.mod_pos_bound (n - 1) 146097 ltac:(lia)) as B400.
  set (n400 := (n - 1) / 146097) in *. set (r400 := (n - 1) mod 146097) in *.
  pose proof (Z.div_mod r400 36524 ltac:(lia)) as D100.
  pose proof (Z.mod_pos_bound r400 36524 ltac:(lia)) as B100.
  set (n100 := r400 / 36524) in *. set (r100 := r400 mod 36524) in *.
  pose proof (Z.div_mod r100 1461 ltac:(lia)) as D4.
  pose proof (Z.mod_pos_bound r100 1461 ltac:(lia)) as B4.
  set (n4 := r100 / 1461) in *. set (r4 := r100 mod 1461) in *.
  pose proof (Z.div_mod r4 365 ltac:(lia)) as D1.
  pose proof (Z.mod_pos_bound r4 365 ltac:(lia)) as B1.
  set (n1 := r4 / 365) in *. set (r1 := r4 mod 365) in *.
  clearbody n400 r400 n100 r100 n4 r4 n1 r1.
  assert (0 <= n100 <= 4) by lia.
  assert (0 <= n4 <= 24) by lia.
  assert (0 <= n1 <= 4) by lia.
  destruct (Z.eqb_spec n1 4) as [E1|E1]; [|destruct (Z.eqb_spec n100 4) as [E100|E100]];
    cbn [orb].
  - (* the last day of a leap year, found as day 0 of a fifth year *)
    assert (n4 <= 23) by lia.
    replace (n400 * 400 + 1 + n100 * 100 + n4 * 4 + n1 - 1)
      with (n400 * 400 + 1 + n100 * 100 + n4 * 4 + 3) by lia.
    unfold toordinal. cbn [year month day]. unfold days_before_month.
    assert (n100 <= 3) by lia.
    rewrite is_leap_of_parts, days_before_year_parts by lia.
    simpl (3 =? 3). assert ((n4 =? 24) = false) as -> by lia.
    vm_compute (days_before_month_leap _ 12). lia.
  - (* the last day of a 400-year cycle *)
    replace (n400 * 400 + 1 + n100 * 100 + n4 * 4 + n1 - 1)
      with (n400 * 400 + 1 + 3 * 100 + 24 * 4 + 3) by lia.
    unfold toordinal. cbn [year month day]. unfold days_before_month.
    rewrite is_leap_of_parts, days_before_year_parts by lia.
    vm_compute (days_before_month_leap _ 12). lia.
  - set (leap := (n1 =? 3) && (negb (n4 =? 24) || (n100 =? 3))).
    destruct (month_day_ok leap r1 B1) as [Hmd Hm].
    destruct (month_day leap r1) as [m d]. cbn [fst snd] in *.
    unfold toordinal. cbn [year month day]. unfold days_before_month.
    rewrite is_leap_of_parts, days_before_year_parts by lia.
    fold leap. lia.
Qed.

Lemma weekday_shift_range (idx wd : Z) :
  1 <= weekday_shift idx wd <= 7
  /\ (wd + weekday_shift idx wd) mod 7 = idx mod 7
  /\ (idx mod 7 = wd mod 7 -> weekday_shift idx wd = 7).
Proof.
  unfold weekday_shift.
  pose proof (Z.mod_pos_bound (idx - wd) 7 ltac:(lia)) as Hb.
  assert (Hm : (wd + (idx - wd) mod 7) mod 7 = idx mod 7).
  { rewrite Zplus_mod_idemp_r. f_equal. lia. }
  destruct (Z.eqb_spec ((idx - wd) mod 7) 0) as [E|E].
  - rewrite E in Hm. repeat split; try lia.
    rewrite <- Hm. rewrite Z.add_0_r.
    replace (wd + 7) with (wd + 1 * 7) by lia. apply Z.mod_add. lia.
  - repeat split; try lia. intros Heq. exfalso. apply E.
    rewrite Zminus_mod, Heq, Z.sub_diag. reflexivity.
Qed.

(** *** The date extractor: weekday names *)

Lemma first_weekday_in (ws : list (text * Z)) (t : text) (idx : Z) :
  first_weekday ws t = Some idx -> In idx (map snd ws).
Proof.
  induction ws as [|[w i] ws IH]; simpl; [discriminate|].
  destruct (is_some _); [intros H; injection H as <-; auto | auto].
Qed.

Lemma first_weekday_range (t : text) (idx : Z) :
  first_weekday WEEKDAY_FULL t = Some idx -> 0 <= idx <= 6.
Proof.
  intros H. apply first_weekday_in in H.
  unfold WEEKDAY_FULL in H. cbn [map snd] in H.
  repeat (destruct H as [<-|H]; [lia|]). contradiction.
Qed.

(** The weekday rule of [extract_date], when it is the rule that applies. *)
Lemma extract_date_weekday (now : datetime) (txt : text) (idx : Z) :
  let t := normalize_text txt in
  date_numeric now t = None ->
  contains (utf8 "сегодня") t = false ->
  contains (utf8 "завтра") t = false ->
  contains (utf8 "послезавтра") t || contains (utf8 "после завтра") t = false ->
  first_weekday WEEKDAY_FULL t = Some idx ->
  extract_date now txt
  = Some (fromordinal (dt_ord now + weekday_shift idx (dt_weekday now))).
Proof.
  intros t Hn H1 H2 H3 Hw. unfold extract_date. fold t.
  rewrite Hn, H1, H2, H3, Hw. reflexivity.
Qed.

(** C8 (amended).  For every text on which the earlier date rules do not
    apply (no valid numeric date, none of the keywords for today, tomorrow
    and the day after) and in which a weekday name is found, [idx] being
    the first weekday of the table Monday to Sunday whose pattern matches,
    and for every today: the extractor returns the next day strictly after
    today that falls on weekday [idx]; it is never today's date, and it is
    the date seven days ahead when today is that weekday. *)
Theorem C8_weekday_is_next_strictly_future_day
    (now : datetime) (txt : text) (idx : Z) :
  let t := normalize_text txt in
  1 <= dt_ord now ->
  date_numeric now t = None ->
  contains (utf8 "сегодня") t = false ->
  contains (utf8 "завтра") t = false ->
  contains (utf8 "послезавтра") t || contains (utf8 "после завтра") t = false ->
  first_weekday WEEKDAY_FULL t = Some idx ->
  exists d : date,
    extract_date now txt = Some d
    /\ date_weekday d = idx
    /\ dt_ord now < toordinal d <= dt_ord now + 7
    /\ (forall o, dt_ord now < o < toordinal d -> (o + 6) mod 7 <> idx)
    /\ d <> dt_date now
    /\ (dt_weekday now = idx -> toordinal d = dt_ord now + 7).
Proof.
  intros t Ho Hn H1 H2 H3 Hw.
  pose proof (first_weekday_range t idx Hw) as Hi.
  destruct (weekday_shift_range idx (dt_weekday now)) as (Hr & Hm & H7).
  set (s := weekday_shift idx (dt_weekday now)) in *.
  exists (fromordinal (dt_ord now + s)).
  assert (Hord : toordinal (fromordinal (dt_ord now + s)) = dt_ord now + s)
    by (apply toordinal_fromordinal; lia).
  rewrite (Z.mod_small idx 7) in Hm, H7 by lia.
  assert (Hwd : dt_weekday now mod 7 = dt_weekday now)
    by (unfold dt_weekday; apply Z.mod_mod; lia).
  split; [apply extract_date_weekday; assumption|].
  split; [|split; [|split; [|split]]].
  - unfold date_weekday. rewrite Hord.
    replace (dt_ord now + s + 6) with (dt_ord now + 6 + s) by lia.
    rewrite <- Zplus_mod_idemp_l. exact Hm.
  - rewrite Hord. lia.
  - rewrite Hord. intros o Hlt Heq.
    (* a day between today and the result with the same weekday would make
       the shift smaller *)
    set (k := o - dt_ord now). assert (Hk : 1 <= k < s) by (subst k; lia).
    assert (Hks : (dt_weekday now + k) mod 7 = idx).
    { unfold dt_weekday. rewrite Zplus_mod_idemp_l. rewrite <- Heq.
      f_equal. subst k. lia. }
    assert (Hd : (s - k) mod 7 = 0).
    { replace (s - k) with ((dt_weekday now + s) - (dt_weekday now + k)) by lia.
      rewrite Zminus_mod, Hm, Hks, Z.sub_diag. reflexivity. }
    rewrite Z.mod_small in Hd by lia. lia.
  - intros E. apply (f_equal toordinal) in E. rewrite Hord in E.
    unfold dt_date in E. rewrite toordinal_fromordinal in E by lia. lia.
  - intros E. rewrite Hord. rewrite H7; [reflexivity|]. rewrite Hwd. congruence.
Qed.

(** *** The matcher *)

Section MatcherFails.

(** A property of the text left to match that taking characters off the
    front keeps. *)
Variable P : text -> Prop.
Hypothesis P_tail : forall x s, P (x :: s) -> P s.

Lemma match_lit_keeps (l : text) (prev : option char) (s : text) p s' :
  match_lit l prev s = Some (p, s') -> P s -> P s'.
Proof.
  revert prev s. induction l as [|x l IH]; intros prev s; simpl.
  - intros H. injection H as <- <-. auto.
  - destruct s as [|y s]; [discriminate|].
    destruct (x =? y)%N; [|discriminate]. intros H Hs. eauto.
Qed.

Lemma rep_greedy_fails (c : cls) (s : text) :
  forall lo hi prev caps (k : kont),
    P s -> (forall p s' c', P s' -> k p s' c' = None) ->
    rep_greedy c lo hi prev s caps k = None.
Proof.
  induction s as [|x s IH]; intros lo hi prev caps k Hs Hk; simpl.
  - destruct lo; auto.
  - assert (Hstop : match lo with O => k prev (x :: s) caps | S _ => None end = None)
      by (destruct lo; auto).
    destruct (cls_test c x && _); [|exact Hstop].
    rewrite IH by eauto. exact Hstop.
Qed.

(** A pattern cannot match when what follows it fails on every text it
    can leave. *)
Lemma rmatch_fails (r : re) :
  forall prev s caps (k : kont),
    P s -> (forall p s' c', P s' -> k p s' c' = None) ->
    rmatch r prev s caps k = None.
Proof.
  induction r as [c|l|a IHa b IHb|a IHa b IHb|a IHa|c lo hi| |n a IHa];
    intros prev s caps k Hs Hk; simpl.
  - destruct s as [|x s]; [reflexivity|]. destruct (cls_test c x); eauto.
  - destruct (match_lit l prev s) as [[p s']|] eqn:E; [|reflexivity].
    apply Hk. eapply match_lit_keeps; eauto.
  - apply IHa; [exact Hs|]. intros p s' c' Hs'. apply IHb; assumption.
  - rewrite IHa, IHb by assumption. reflexivity.
  - rewrite IHa by assumption. simpl. auto.
  - apply rep_greedy_fails; assumption.
  - destruct (at_boundary prev s); auto.
  - apply IHa; [exact Hs|]. intros p s' c' Hs'. apply Hk. exact Hs'.
Qed.

Lemma seq_fails (a b : re) prev s caps (k : kont) :
  P s -> (forall p s' c', P s' -> rmatch b p s' c' k = None) ->
  rmatch (Seq a b) prev s caps k = None.
Proof.
  intros Hs Hb. cbn [rmatch]. apply rmatch_fails; assumption.
Qed.

Lemma search_fails (r : re) (s : text) :
  forall prev,
    P s -> (forall p s', P s' -> rmatch r p s' [] accept = None) ->
    search_from r prev s = None.
Proof.
  induction s as [|x s IH]; intros prev Hs Hr; simpl.
  - rewrite Hr by exact Hs. reflexivity.
  - rewrite Hr by exact Hs. simpl. apply IH; eauto.
Qed.

End MatcherFails.

(** The greedy repetition takes a whole run of the class when the run is
    within its bounds and cannot be extended, provided the rest of the
    pattern then matches. *)
Definition after_run (prev : option char) (ds : text) : option char :=
  fold_left (fun _ x => Some x) ds prev.

Lemma rep_greedy_takes (c : cls) (ds : text) :
  forall (lo : nat) (hi : option nat) prev rest caps (k : kont) r,
    forallb (cls_test c) ds = true ->
    (lo <= List.length ds)%nat ->
    match hi with Some h => (List.length ds <= h)%nat | None => True end ->
    (hi = Some (List.length ds)
     \/ match rest with [] => True | x :: _ => cls_test c x = false end) ->
    k (after_run prev ds) rest caps = Some r ->
    rep_greedy c lo hi prev (ds ++ rest) caps k = Some r.
Proof.
  induction ds as [|d ds IH]; intros lo hi prev rest caps k r Hc Hlo Hhi Hstop Hk.
  - simpl in *. assert (lo = 0%nat) as -> by lia.
    destruct rest as [|x rest]; [exact Hk|].
    destruct Hstop as [->|Hx]; simpl.
    + rewrite andb_false_r. exact Hk.
    + rewrite Hx. exact Hk.
  - simpl in Hc. apply andb_true_iff in Hc. destruct Hc as [Hd Hc].
    simpl. rewrite Hd.
    assert (Hn : match hi with Some O => true | _ => false end = false).
    { destruct hi as [[|h]|]; simpl in *; auto; lia. }
    rewrite Hn. simpl.
    rewrite (IH (Nat.pred lo) (option_map Nat.pred hi) (Some d) rest caps k r);
      auto.
    + simpl in Hlo. lia.
    + destruct hi as [h|]; simpl in *; auto. lia.
    + destruct Hstop as [->|Hx]; [left; reflexivity | right; exact Hx].
Qed.

Lemma take_run (ds rest : text) :
  take (List.length (ds ++ rest) - List.length rest)%nat (ds ++ rest) = ds.
Proof.
  rewrite length_app.
  replace (List.length ds + List.length rest - List.length rest)%nat
    with (List.length ds) by lia.
  apply take_app_length.
Qed.

(** *** Numeric texts *)

(** The characters of a numeric date: digits, the dot and the slash. *)
Definition numericb (c : char) : bool := isdigit c || (c =? 46)%N || (c =? 47)%N.

Definition numeric (s : text) : Prop := forallb numericb s = true.

Definition NUMERIC_CHARS : text := [46; 47; 48; 49; 50; 51; 52; 53; 54; 55; 56; 57]%N.

Lemma numericb_in (c : char) : numericb c = true -> In c NUMERIC_CHARS.
Proof.
  unfold numericb, isdigit, in_range. intros H.
  assert (46 <= c <= 57)%N as Hr.
  { apply orb_true_iff in H. destruct H as [H|H].
    - apply orb_true_iff in H. destruct H as [H|H].
      + apply andb_true_iff in H. destruct H as [H1 H2].
        apply N.leb_le in H1, H2. lia.
      + apply N.eqb_eq in H. lia.
    - apply N.eqb_eq in H. lia. }
  assert (c = 46 \/ c = 47 \/ c = 48 \/ c = 49 \/ c = 50 \/ c = 51 \/ c = 52
          \/ c = 53 \/ c = 54 \/ c = 55 \/ c = 56 \/ c = 57)%N as Hc by lia.
  unfold NUMERIC_CHARS. simpl. intuition.
Qed.

(** A test that holds on the twelve numeric characters holds on every
    numeric character. *)
Lemma numeric_all (f : char -> bool) (c : char) :
  forallb f NUMERIC_CHARS = true -> numericb c = true -> f c = true.
Proof.
  intros Hf Hc. rewrite forallb_forall in Hf. apply Hf, numericb_in, Hc.
Qed.

Lemma numeric_tail (x : char) (s : text) : numeric (x :: s) -> numeric s.
Proof.
  unfold numeric. simpl. intros H. apply andb_true_iff in H. tauto.
Qed.

Lemma numeric_head (x : char) (s : text) : numeric (x :: s) -> numericb x = true.
Proof.
  unfold numeric. simpl. intros H. apply andb_true_iff in H. tauto.
Qed.

Lemma numeric_app (a b : text) : numeric a -> numeric b -> numeric (a ++ b).
Proof.
  unfold numeric. intros Ha Hb. rewrite forallb_app, Ha, Hb. reflexivity.
Qed.

Lemma digits_numeric (s : text) : forallb isdigit s = true -> numeric s.
Proof.
  unfold numeric. induction s as [|x s IH]; simpl; [reflexivity|].
  intros H. apply andb_true_iff in H. destruct H as [H1 H2].
  rewrite IH by exact H2. unfold numericb. rewrite H1. reflexivity.
Qed.

Lemma numeric_lower (s : text) : numeric s -> lower s = s.
Proof.
  induction s as [|x s IH]; intros H; [reflexivity|].
  unfold lower in *. simpl. rewrite IH by (eapply numeric_tail; eauto). f_equal.
  apply numeric_head in H.
  apply N.eqb_eq.
  apply (numeric_all (fun c => (lower_char c =? c)%N) x); [reflexivity | exact H].
Qed.

Lemma numeric_lstrip (s : text) : numeric s -> lstrip s = s.
Proof.
  destruct s as [|x s]; intros H; [reflexivity|]. simpl.
  apply numeric_head in H.
  pose proof (numeric_all (fun c => negb (isspace c)) x eq_refl H) as Hs.
  apply negb_true_iff in Hs. rewrite Hs. reflexivity.
Qed.

Lemma numeric_rev (s : text) : numeric s -> numeric (rev s).
Proof.
  unfold numeric. intros H. rewrite forallb_forall in *.
  intros x Hx. apply H. apply in_rev. exact Hx.
Qed.

Lemma numeric_normalize (s : text) : numeric s -> normalize_text s = s.
Proof.
  intros H. unfold normalize_text, strip. rewrite numeric_lower by exact H.
  rewrite (numeric_lstrip s H).
  rewrite (numeric_lstrip (rev s)) by (apply numeric_rev; exact H).
  apply rev_involutive.
Qed.

(** A literal that begins with a character that is not numeric is found
    nowhere in a numeric text. *)
Lemma numeric_no_start (x : char) (p s : text) :
  numericb x = false -> numeric s -> starts_with (x :: p) s = false.
Proof.
  intros Hx Hs. destruct s as [|y s]; [reflexivity|]. simpl.
  apply numeric_head in Hs.
  destruct (N.eqb_spec x y) as [->|]; [congruence | reflexivity].
Qed.

Lemma numeric_not_contains (x : char) (p s : text) :
  numericb x = false -> numeric s -> contains (x :: p) s = false.
Proof.
  intros Hx. induction s as [|y s IH]; intros Hs.
  - reflexivity.
  - cbn [contains]. rewrite (numeric_no_start x p (y :: s) Hx Hs).
    simpl. apply IH. eapply numeric_tail; eauto.
Qed.

Lemma numeric_lit_fails (x : char) (l : text) (prev : option char) (s : text) :
  numericb x = false -> numeric s -> match_lit (x :: l) prev s = None.
Proof.
  intros Hx Hs. destruct s as [|y s]; [reflexivity|]. simpl.
  apply numeric_head in Hs.
  destruct (N.eqb_spec x y) as [->|]; [congruence | reflexivity].
Qed.

(** Whether a literal begins with a character that is not numeric. *)
Definition foreign (l : text) : bool :=
  match l with x :: _ => negb (numericb x) | [] => false end.

Lemma foreign_lit_fails (l : text) (s : text) prev :
  foreign l = true -> numeric s -> match_lit l prev s = None.
Proof.
  destruct l as [|x l]; [discriminate|]. simpl foreign. intros Hx Hs.
  apply negb_true_iff in Hx. apply numeric_lit_fails; assumption.
Qed.

Lemma numeric_no_weekday (s : text) : numeric s -> first_weekday WEEKDAY_FULL s = None.
Proof.
  intros Hs.
  assert (Hstems : forallb (fun kv => foreign (drop_last (fst kv))) WEEKDAY_FULL = true)
    by (vm_compute; reflexivity).
  revert Hstems. generalize WEEKDAY_FULL. intros ws.
  induction ws as [|[w idx] ws IH]; simpl; [reflexivity|].
  intros H. apply andb_true_iff in H. destruct H as [Hw Hws].
  assert (E : re_search (weekday_re w) s = None).
  { unfold re_search. apply (search_fails numeric numeric_tail); [exact Hs|].
    intros p s' Hs'. unfold weekday_re. cbn [Cat].
    apply (seq_fails numeric numeric_tail); [exact Hs'|].
    intros p1 s1 c1 Hs1. cbn [rmatch].
    rewrite foreign_lit_fails by assumption. reflexivity. }
  rewrite E. simpl. apply IH. exact Hws.
Qed.

Lemma numeric_no_ordinal (s : text) :
  numeric s ->
  re_search ORDINAL_RE_GO s = None /\ re_search ORDINAL_RE_CHISLA s = None.
Proof.
  intros Hs. split; unfold re_search;
    apply (search_fails numeric numeric_tail); try exact Hs; intros p s' Hs'.
  - unfold ORDINAL_RE_GO. cbn [Cat].
    do 3 (apply (seq_fails numeric numeric_tail); [assumption|]; intros ? ? ? ?).
    cbn [rmatch].
    rewrite !foreign_lit_fails by (try assumption; vm_compute; reflexivity).
    reflexivity.
  - unfold ORDINAL_RE_CHISLA. cbn [Cat].
    do 3 (apply (seq_fails numeric numeric_tail); [assumption|]; intros ? ? ? ?).
    cbn [rmatch].
    rewrite foreign_lit_fails by (try assumption; vm_compute; reflexivity).
    reflexivity.
Qed.

(** On a numeric text only the numeric rule of [extract_date] can apply. *)
Lemma extract_date_numeric_text (now : datetime) (s : text) :
  numeric s -> extract_date now s = date_numeric now s.
Proof.
  intros Hs. unfold extract_date. rewrite (numeric_normalize s Hs).
  destruct (date_numeric now s) as [d|]; [reflexivity|].
  assert (Hc : forall p, foreign p = true -> contains p s = false).
  { intros [|x p] Hp; [discriminate|]. apply numeric_not_contains; [|exact Hs].
    apply negb_true_iff. exact Hp. }
  rewrite !Hc by (vm_compute; reflexivity). cbn [orb].
  rewrite (numeric_no_weekday s Hs).
  unfold date_ordinal_day.
  destruct (numeric_no_ordinal s Hs) as [-> ->]. reflexivity.
Qed.

(** *** The numeric rule of the date extractor *)

Lemma rmatch_seq (a b : re) prev s caps (k : kont) :
  rmatch (Seq a b) prev s caps k
  = rmatch a prev s caps (fun p s' c => rmatch b p s' c k).
Proof. reflexivity. Qed.

Lemma rmatch_wb prev s caps (k : kont) :
  at_boundary prev s = true -> rmatch WB prev s caps k = k prev s caps.
Proof. intros H. cbn [rmatch]. rewrite H. reflexivity. Qed.

Lemma rmatch_chr (c : cls) (x : char) prev s caps (k : kont) :
  cls_test c x = true -> rmatch (Chr c) prev (x :: s) caps k = k (Some x) s caps.
Proof. intros H. cbn [rmatch]. rewrite H. reflexivity. Qed.

Lemma rmatch_grp_run (n : nat) (c : cls) (lo : nat) (hi : option nat)
    prev (ds rest : text) caps (k : kont) r :
  forallb (cls_test c) ds = true ->
  (lo <= List.length ds)%nat ->
  match hi with Some h => (List.length ds <= h)%nat | None => True end ->
  (hi = Some (List.length ds)
   \/ match rest with [] => True | x :: _ => cls_test c x = false end) ->
  k (after_run prev ds) rest ((n, ds) :: caps) = Some r ->
  rmatch (Grp n (Rep c lo hi)) prev (ds ++ rest) caps k = Some r.
Proof.
  intros Hc Hlo Hhi Hstop Hk. cbn [rmatch].
  apply rep_greedy_takes; auto. rewrite take_run. exact Hk.
Qed.

Lemma rmatch_grp_run_end (n : nat) (c : cls) (lo : nat) (hi : option nat)
    prev (ds : text) caps (k : kont) r :
  forallb (cls_test c) ds = true ->
  (lo <= List.length ds)%nat ->
  match hi with Some h => (List.length ds <= h)%nat | None => True end ->
  k (after_run prev ds) [] ((n, ds) :: caps) = Some r ->
  rmatch (Grp n (Rep c lo hi)) prev ds caps k = Some r.
Proof.
  intros Hc Hlo Hhi Hk.
  pose proof (rmatch_grp_run n c lo hi prev ds [] caps k r Hc Hlo Hhi
                (or_intror I) Hk) as H.
  rewrite app_nil_r in H. exact H.
Qed.

Lemma rmatch_opt_take (a : re) prev s caps (k : kont) r :
  rmatch a prev s caps k = Some r -> rmatch (Opt a) prev s caps k = Some r.
Proof. intros H. cbn [rmatch]. rewrite H. reflexivity. Qed.

Lemma digit_is_word (d : char) : isdigit d = true -> isword d = true.
Proof.
  intros H. unfold isword. rewrite H, orb_true_r. reflexivity.
Qed.

Lemma after_run_word (ds : text) (prev : option char) :
  ds <> [] -> forallb isdigit ds = true -> is_word_opt (after_run prev ds) = true.
Proof.
  revert prev. induction ds as [|d ds IH]; intros prev Hne Hd; [contradiction|].
  simpl in Hd. apply andb_true_iff in Hd. destruct Hd as [H1 H2].
  unfold after_run. simpl. fold (after_run (Some d) ds).
  destruct ds as [|d' ds'].
  - simpl. apply digit_is_word. exact H1.
  - apply IH; [discriminate | exact H2].
Qed.

Definition is_sep (c : char) : Prop := c = 46%N \/ c = 47%N.

(** The text of the optional year part. *)
Definition year_part (yr : option (char * text)) : text :=
  match yr with Some (s2, y) => s2 :: y | None => [] end.

(** On the text [D.M] or [D.M.Y] the pattern matches at the start with the
    day, the month and the year as its groups. *)
Lemma date_re_search (D M : text) (s1 : char) (yr : option (char * text)) :
  forallb isdigit D = true -> (1 <= List.length D <= 2)%nat ->
  forallb isdigit M = true -> (1 <= List.length M <= 2)%nat ->
  is_sep s1 ->
  match yr with
  | Some (s2, Y) =>
      is_sep s2 /\ forallb isdigit Y = true /\ (2 <= List.length Y <= 4)%nat
  | None => True
  end ->
  re_search DATE_RE (D ++ s1 :: M ++ year_part yr)
  = Some (match yr with Some (_, Y) => [(3%nat, Y)] | None => [] end
          ++ [(2%nat, M); (1%nat, D)]).
Proof.
  intros HD LD HM LM Hs1 Hyr.
  assert (Hsep : forall c, is_sep c ->
            cls_test (CSet (utf8 "./")) c = true /\ cls_test CDigit c = false).
  { intros c [-> | ->]; split; reflexivity. }
  destruct (Hsep s1 Hs1) as [Hs1a Hs1b].
  destruct D as [|d D']; [simpl in LD; lia|].
  assert (Hd : isdigit d = true)
    by (simpl in HD; apply andb_true_iff in HD; tauto).
  unfold re_search. cbn [app search_from].
  match goal with |- or_else ?m _ = Some ?r =>
    assert (Hm : m = Some r); [|rewrite Hm; reflexivity] end.
  unfold DATE_RE. cbn [Cat].
  rewrite rmatch_seq, rmatch_wb
    by (unfold at_boundary; simpl; rewrite (digit_is_word d Hd); reflexivity).
  rewrite rmatch_seq.
  change (d :: D' ++ s1 :: M ++ year_part yr)
    with ((d :: D') ++ s1 :: M ++ year_part yr).
  apply rmatch_grp_run; auto; [lia | simpl in *; lia |].
  rewrite rmatch_seq, rmatch_chr by exact Hs1a.
  rewrite rmatch_seq.
  assert (HMne : M <> []) by (destruct M; [simpl in LM; lia | discriminate]).
  destruct yr as [[s2 Y]|]; cbn [year_part].
  - destruct Hyr as (Hs2 & HY & LY). destruct (Hsep s2 Hs2) as [Hs2a Hs2b].
    apply rmatch_grp_run; auto; [lia | simpl in *; lia |].
    rewrite rmatch_seq. apply rmatch_opt_take.
    rewrite rmatch_seq, rmatch_chr by exact Hs2a.
    assert (HYne : Y <> []) by (destruct Y; [simpl in LY; lia | discriminate]).
    apply rmatch_grp_run_end; auto; [lia | simpl in *; lia |].
    rewrite rmatch_wb; [reflexivity|].
    unfold at_boundary. rewrite (after_run_word Y _ HYne HY). reflexivity.
  - rewrite app_nil_r.
    apply rmatch_grp_run_end; auto; [lia | simpl in *; lia |].
    rewrite rmatch_seq. cbn [rmatch]. simpl or_else.
    unfold at_boundary. rewrite (after_run_word M _ HMne HM). reflexivity.
Qed.

Lemma int_of_two_digits (Y : text) :
  forallb isdigit Y = true -> List.length Y = 2%nat -> 0 <= int_of Y < 100.
Proof.
  intros HY LY. destruct Y as [|a [|b [|c Y]]]; try discriminate.
  simpl in HY. rewrite andb_true_r in HY. apply andb_true_iff in HY.
  destruct HY as [Ha Hb]. unfold isdigit, in_range in *.
  apply andb_true_iff in Ha, Hb. destruct Ha as [A1 A2], Hb as [B1 B2].
  apply N.leb_le in A1, A2, B1, B2.
  unfold int_of. simpl. lia.
Qed.

(** The calendar, written out on its own: the number a decimal numeral
    stands for, the leap years, the length of each month, and the triples
    that are dates. *)
Fixpoint numeral (s : text) : Z :=
  match s with
  | [] => 0
  | c :: s' => (Z.of_N c - 48) * 10 ^ Z.of_nat (List.length s') + numeral s'
  end.

Definition leap_year (y : Z) : bool :=
  ((y mod 4 =? 0) && negb (y mod 100 =? 0)) || (y mod 400 =? 0).

Definition month_length (y m : Z) : Z :=
  match m with
  | 1 => 31
  | 2 => if leap_year y then 29 else 28
  | 3 => 31
  | 4 => 30
  | 5 => 31
  | 6 => 30
  | 7 => 31
  | 8 => 31
  | 9 => 30
  | 10 => 31
  | 11 => 30
  | 12 => 31
  | _ => 0
  end.

Definition calendar_date (y m d : Z) : bool :=
  (1 <=? y) && (y <=? 9999) && (1 <=? d) && (d <=? month_length y m).

Lemma int_of_from (a : Z) (s : text) :
  fold_left (fun acc c => 10 * acc + (Z.of_N c - 48)) s a
  = a * 10 ^ Z.of_nat (List.length s) + numeral s.
Proof.
  revert a. induction s as [|c s IH]; intros a; simpl fold_left.
  - simpl. lia.
  - rewrite IH. cbn [numeral List.length].
    rewrite Nat2Z.inj_succ, Z.pow_succ_r by lia. ring.
Qed.

(** [int] reads a numeral as the number it stands for. *)
Lemma int_of_numeral (s : text) : int_of s = numeral s.
Proof. unfold int_of. rewrite int_of_from. lia. Qed.

Lemma is_leap_leap_year (y : Z) : is_leap y = leap_year y.
Proof.
  unfold is_leap, leap_year.
  destruct (Z.eqb_spec (y mod 4) 0), (Z.eqb_spec (y mod 100) 0),
    (Z.eqb_spec (y mod 400) 0); try reflexivity; exfalso;
    Z.div_mod_to_equations; lia.
Qed.

(** [datetime(y, m, d)] succeeds exactly on the dates of the calendar. *)
Lemma make_date_calendar (y m d : Z) :
  make_date y m d = if calendar_date y m d then Some (mkdate y m d) else None.
Proof.
  unfold make_date, calendar_date.
  assert (Hm : m < 1 \/ 12 < m \/ m = 1 \/ m = 2 \/ m = 3 \/ m = 4 \/ m = 5 \/ m = 6
               \/ m = 7 \/ m = 8 \/ m = 9 \/ m = 10 \/ m = 11 \/ m = 12) by lia.
  destruct Hm as [Hm|[Hm|Hm]].
  - assert ((1 <=? m) = false) as -> by lia.
    assert (month_length y m = 0) as ->
      by (destruct m as [|p|p]; try reflexivity; lia).
    rewrite !andb_false_r. simpl.
    destruct (1 <=? d) eqn:E1; [|rewrite andb_false_r; reflexivity].
    assert ((d <=? 0) = false) as -> by lia. rewrite andb_false_r. reflexivity.
  - assert ((m <=? 12) = false) as -> by lia.
    assert (month_length y m = 0) as ->.
    { destruct m as [|p|p]; try lia.
      do 4 (destruct p as [p|p|]; try reflexivity; try lia). }
    rewrite !andb_false_r. simpl.
    destruct (1 <=? d) eqn:E1; [|rewrite andb_false_r; reflexivity].
    assert ((d <=? 0) = false) as -> by lia. rewrite andb_false_r. reflexivity.
  - repeat (destruct Hm as [-> | Hm]); [..|subst m];
      unfold days_in_month, month_length; cbn [Z.eqb Pos.eqb orb andb Z.leb Z.compare
                                                 Pos.compare Pos.compare_cont];
      rewrite ?is_leap_leap_year, ?andb_true_r; reflexivity.
Qed.

(** C9.  For every text of the form D.M.YY (day and month of one or two
    digits, a year of two digits, dots or slashes between them) and every
    today: when day D of month M of the year 2000+YY is a date of the
    calendar, the date extractor returns that date, so a date in the year
    2000+YY; when it is not, the extractor returns nothing.  For every
    text of the form D.M.Y with a year of two to four digits (a year below
    100 standing for 2000 plus it), or D.M (the year being then the current
    one), that names no date of the calendar, such as 31.02, the extractor
    returns nothing. *)
Theorem C9_numeric_date_two_digit_year_and_invalid
    (now : datetime) (D M : text) (s1 : char) :
  forallb isdigit D = true -> (1 <= List.length D <= 2)%nat ->
  forallb isdigit M = true -> (1 <= List.length M <= 2)%nat ->
  is_sep s1 ->
  (forall (s2 : char) (YY : text),
      is_sep s2 -> forallb isdigit YY = true -> List.length YY = 2%nat ->
      (calendar_date (2000 + numeral YY) (numeral M) (numeral D) = true ->
       extract_date now (D ++ s1 :: M ++ s2 :: YY)
       = Some (mkdate (2000 + numeral YY) (numeral M) (numeral D)))
      /\ (calendar_date (2000 + numeral YY) (numeral M) (numeral D) = false ->
          extract_date now (D ++ s1 :: M ++ s2 :: YY) = None))
  /\ (forall (s2 : char) (Y : text),
        is_sep s2 -> forallb isdigit Y = true -> (2 <= List.length Y <= 4)%nat ->
        calendar_date (if numeral Y <? 100 then 2000 + numeral Y else numeral Y)
          (numeral M) (numeral D) = false ->
        extract_date now (D ++ s1 :: M ++ s2 :: Y) = None)
  /\ (calendar_date (year (dt_date now)) (numeral M) (numeral D) = false ->
      extract_date now (D ++ s1 :: M) = None).
Proof.
  intros HD LD HM LM Hs1.
  assert (Hnum : forall yr,
            match yr with
            | Some (s2, Y) =>
                is_sep s2 /\ forallb isdigit Y = true /\ (2 <= List.length Y <= 4)%nat
            | None => True
            end ->
            extract_date now (D ++ s1 :: M ++ year_part yr)
            = make_date (resolve_year now (option_map snd yr)) (int_of M) (int_of D)).
  { intros yr Hyr.
    assert (Hsepn : forall c, is_sep c -> numericb c = true)
      by (intros c [-> | ->]; reflexivity).
    rewrite extract_date_numeric_text.
    - unfold date_numeric.
      rewrite (date_re_search D M s1 yr HD LD HM LM Hs1 Hyr).
      destruct yr as [[s2 Y]|]; reflexivity.
    - apply numeric_app; [apply digits_numeric; exact HD|].
      unfold numeric. simpl. rewrite (Hsepn s1 Hs1). simpl.
      apply numeric_app; [apply digits_numeric; exact HM|].
      destruct yr as [[s2 Y]|]; [|reflexivity].
      destruct Hyr as (Hs2 & HY & _). unfold numeric. simpl.
      rewrite (Hsepn s2 Hs2). simpl. apply digits_numeric. exact HY. }
  assert (Hyear : forall s2 Y,
            is_sep s2 -> forallb isdigit Y = true -> (2 <= List.length Y <= 4)%nat ->
            extract_date now (D ++ s1 :: M ++ s2 :: Y)
            = make_date (if numeral Y <? 100 then 2000 + numeral Y else numeral Y)
                (numeral M) (numeral D)).
  { intros s2 Y Hs2 HY LY.
    pose proof (Hnum (Some (s2, Y))) as E. cbn [year_part option_map snd] in E.
    rewrite E by (repeat split; auto; lia).
    rewrite !int_of_numeral.
    destruct Y as [|a Y]; [simpl in LY; lia|]. cbn [resolve_year].
    rewrite int_of_numeral.
    destruct (numeral (a :: Y) <? 100); f_equal; lia. }
  split; [|split].
  - intros s2 YY Hs2 HY LY.
    rewrite (Hyear s2 YY Hs2 HY ltac:(lia)).
    pose proof (int_of_two_digits YY HY LY) as Hb. rewrite int_of_numeral in Hb.
    assert ((numeral YY <? 100) = true) as -> by lia.
    rewrite make_date_calendar.
    split; intros ->; reflexivity.
  - intros s2 Y Hs2 HY LY Hinv.
    rewrite (Hyear s2 Y Hs2 HY LY), make_date_calendar, Hinv. reflexivity.
  - intros Hinv. specialize (Hnum None I). cbn [year_part option_map] in Hnum.
    rewrite app_nil_r in Hnum. rewrite Hnum. cbn [resolve_year].
    rewrite !int_of_numeral, make_date_calendar, Hinv. reflexivity.
Qed.
End Bot.


(** ** Worked runs

    A question bank, an operator chat and concrete updates on which the
    theorems above are applied and the handlers are run. *)

Definition OPERATOR_CHAT : text := utf8 "-100500".

(** No ledger, no rows, no drafts; the random values are 0, 1, 2, ... *)
Definition fresh_world : World :=
  mkWorld [] [] [] ∅ ∅ (fun i => Z.of_nat i) 0.

(** 2026-11-05, a Thursday, 12:00:00.5. *)
Definition noon : datetime := mkdt 739925 (12 * 3600 * US_PER_SECOND + 500000).

Definition alexey : User := mkUser 42 None (utf8 "Alex").

Definition text_from (u : User) (s : string) : Message :=
  mkMessage u (uid u) (utf8 s).

(** A player with two correct answers behind them and question 7 open,
    whose correct option is "b". *)
Definition two_in_a_row : World :=
  mkWorld [mkQuizUser 42 2 IsoEmpty 0 IsoEmpty 7] [] [] {[ 7 := utf8 "b" ]} ∅
    (fun i => Z.of_nat i) 0.

Definition press (u : User) (qid : Z) (opt : string) : CallbackQuery :=
  mkCall u (mkMessage (mkUser 777 None (utf8 "bot")) (uid u) [])
    (Some (qid, utf8 opt)).

(** The quiz button of the start menu pressed by [u]: like every button,
    it hangs on a message that the bot has sent to the chat of [u]. *)
Definition quiz_button (u : User) : CallbackQuery :=
  mkCall u (mkMessage (mkUser 777 None (utf8 "bot")) (uid u) []) None.

Definition sample_row : QuizRow :=
  mkQuizRow 7 (utf8 "2 + 2 = ?") (Val (utf8 "3")) (Val (utf8 "4")) NaN NaN
    Absent Absent Absent Absent (Val (utf8 "b")) true.

Definition bare_row : QuizRow :=
  mkQuizRow 8 (utf8 "?") NaN NaN NaN NaN Absent Absent Absent Absent
    (Val (utf8 "a")) true.

Definition bob : User := mkUser 43 (Some (utf8 "bob")) (utf8 "Bob").

(** A player who is about to give a wrong answer to question 7. *)
Definition wrong_press : CallbackQuery := press alexey 7 "a".


(** C1.  A user who has won presses the quiz button of the start menu.
    The answer that completes the streak of three issues the one coupon and
    sets the award, and a text message of the winner that asks for the quiz
    is refused; but [cb_quiz] starts the attempt with the message the
    button hangs on, whose sender is the bot, so the refusal is tested on
    the bot's state: the winner is sent a question, which is registered as
    active.  Only the answer to it is refused. *)
Theorem C1_winner_is_sent_a_question_by_the_button :
  let won := fst (cb_quiz_answer [sample_row] OPERATOR_CHAT 1000 noon two_in_a_row
                    (press alexey 7 "b")) in
  let later := mkdt 739925 (13 * 3600 * US_PER_SECOND) in
  let r := cb_quiz [sample_row] 1000 later won (quiz_button alexey) in
  awarded (get_user_quiz_state 42 won) = 1
  /\ map coupon_user_id (coupons won) = [42]
  /\ QUIZ_STATE_get won 7 = None
  /\ start_quiz_for_user [sample_row] 1000 later won (text_from alexey "викторина")
     = (Returned, won, [SayAlreadyWon])
  /\ fst (fst r) = Returned
  /\ snd r = [SayQuestion (utf8 "2 + 2 = ?")
                [(utf8 "A: 3", (7, utf8 "a")); (utf8 "B: 4", (7, utf8 "b"))];
              Ack]
  /\ QUIZ_STATE_get (snd (fst r)) 7 = Some (utf8 "b")
  /\ awarded (get_user_quiz_state 42 (snd (fst r))) = 1
  /\ cb_quiz_answer [sample_row] OPERATOR_CHAT 1000 later (snd (fst r))
       (press alexey 7 "b")
     = (snd (fst r), [SayAlreadyWon; Ack]).
Proof. vm_compute. repeat split; reflexivity. Qed.

(** C3.  Two coupons issued from an empty ledger when the random draw is
    12345 both times.  The first issue writes the code "012345".  The
    second reads the ledger back, where the code column has become the
    integer 12345, so the draw "012345" is not among the existing codes
    and is issued again, at the first draw and without the fallback; the
    rewritten ledger holds "12345" and "012345".  A draw without a leading
    zero is rejected the second time, as intended. *)
Theorem C3_code_with_leading_zero_is_issued_twice :
  let stuck := mkWorld [] [] [] ∅ ∅ (fun _ => 12345) 0 in
  let r := issue_all [(noon, alexey); (noon, bob)] stuck in
  let after_first := snd (issue_coupon_to_user noon alexey stuck) in
  fst r = [utf8 "012345"; utf8 "012345"]
  /\ map coupon_user_id (coupons (snd r)) = [42; 43]
  /\ map code (coupons after_first) = [utf8 "012345"]
  /\ existing_codes after_first = [utf8 "12345"]
  /\ finds_unused after_first = true
  /\ cursor (snd r) = 2%nat
  /\ map code (coupons (snd r)) = [utf8 "12345"; utf8 "012345"]
  /\ fst (issue_all [(noon, alexey); (noon, bob)]
            (mkWorld [] [] [] ∅ ∅
               (fun i => if (i <? 2)%nat then 123456 else 654321) 0))
     = [utf8 "123456"; utf8 "654321"].
Proof. vm_compute. repeat split; reflexivity. Qed.

(** C4.  A user gives a wrong answer at 12:00:00.5 and presses the quiz
    button one minute later.  The streak is reset and the lock is stored,
    as 12:00:00 of the next day, the fraction of the second cut off; a text
    message of the user that asks for the quiz is refused with that time.
    But [cb_quiz] starts the attempt with the message the button hangs on,
    whose sender is the bot, so the lock is tested on the bot's state: the
    locked user is sent a question, and the answer to it is counted, since
    [cb_quiz_answer] does not look at the lock. *)
Theorem C4_locked_user_is_sent_a_question_by_the_button :
  let missed := fst (cb_quiz_answer [sample_row] OPERATOR_CHAT 1000 noon two_in_a_row
                       wrong_press) in
  let until := mkdt 739926 (12 * 3600 * US_PER_SECOND) in
  let soon := mkdt 739925 (12 * 3600 * US_PER_SECOND + 60 * US_PER_SECOND) in
  let r := cb_quiz [sample_row] 1000 soon missed (quiz_button alexey) in
  let r2 := cb_quiz_answer [sample_row] OPERATOR_CHAT 1000 soon (snd (fst r))
              (press alexey 7 "b") in
  streak (get_user_quiz_state 42 missed) = 0
  /\ locked_until_iso (get_user_quiz_state 42 missed) = IsoOf until
  /\ until <> dt_add_days noon 1
  /\ dt_ltb soon until = true
  /\ start_quiz_for_user [sample_row] 1000 soon missed (text_from alexey "викторина")
     = (Returned, missed, [SayLocked (utf8 "06.11 12:00")])
  /\ fst (fst r) = Returned
  /\ snd r = [SayQuestion (utf8 "2 + 2 = ?")
                [(utf8 "A: 3", (7, utf8 "a")); (utf8 "B: 4", (7, utf8 "b"))];
              Ack]
  /\ locked_until_iso (get_user_quiz_state 42 (snd (fst r))) = IsoOf until
  /\ (exists rest, snd r2 = SayCorrect 2 :: rest)
  /\ streak (get_user_quiz_state 42 (fst r2)) = 1
  /\ locked_until_iso (get_user_quiz_state 42 (fst r2)) = IsoOf until.
Proof.
  vm_compute. repeat split; try reflexivity.
  - intros E. discriminate E.
  - eexists. reflexivity.
Qed.

(** A message that completes a draft whose guest bound is 0. *)
Definition zero_guests : Message :=
  text_from alexey "завтра в 19:00, гостей до 0, +79991234567".

Lemma C6_witness :
  intent_reply [] 1000 noon fresh_world zero_guests
    (detect_intent (message_text zero_guests) (in_flow (BOOK_STATE fresh_world !! 42)))
  = (Returned, fresh_world, [])
  /\ enters_booking noon (BOOK_STATE fresh_world !! 42)
       (detect_intent (message_text zero_guests)
          (in_flow (BOOK_STATE fresh_world !! 42)))
       (message_text zero_guests) = true
  /\ missing_fields (turn_draft noon (BOOK_STATE fresh_world !! 42) zero_guests) = []
  /\ fst (fst (universal_router [] OPERATOR_CHAT 1000 noon fresh_world zero_guests))
     = Returned.
Proof.
  assert (H1 : intent_reply [] 1000 noon fresh_world zero_guests
                 (detect_intent (message_text zero_guests)
                    (in_flow (BOOK_STATE fresh_world !! 42)))
               = (Returned, fresh_world, [])) by (vm_compute; reflexivity).
  assert (H2 : enters_booking noon (BOOK_STATE fresh_world !! 42)
                 (detect_intent (message_text zero_guests)
                    (in_flow (BOOK_STATE fresh_world !! 42)))
                 (message_text zero_guests) = true) by (vm_compute; reflexivity).
  assert (H3 : missing_fields
                 (turn_draft noon (BOOK_STATE fresh_world !! 42) zero_guests) = [])
    by (vm_compute; reflexivity).
  refine (conj H1 (conj H2 (conj H3 _))).
  exact (proj1 (C6_draft_cleared_on_success_kept_on_abort
                  [] OPERATOR_CHAT 1000 noon fresh_world fresh_world zero_guests []
                  H1 H2 H3)).
Defined.

(** The claim of C6 as stated fails when the Finalizer aborts: the draft
    completed by this message has the guest bound 0, the recheck refuses
    it, nothing is recorded, and the draft is still in the table. *)
Lemma C6_counterexample :
  let r := universal_router [] OPERATOR_CHAT 1000 noon fresh_world zero_guests in
  missing_fields (turn_draft noon (BOOK_STATE fresh_world !! 42) zero_guests) = []
  /\ snd r = [SayRepeat]
  /\ bookings (snd (fst r)) = []
  /\ BOOK_STATE (snd (fst r)) !! 42
     = Some (mkDraft (Some (mkdate 2026 11 6)) (Some (utf8 "19:00")) None (Some 0)
               (Some (utf8 "+79991234567")) (Some (utf8 "завтра в гостей до")))
  /\ BOOK_STATE (snd (fst r)) !! 42 <> None.
Proof.
  vm_compute. repeat split; try reflexivity. intros E. discriminate E.
Qed.

(** A draft that lacks only the phone, and a message that adds nothing. *)
Definition without_phone : World :=
  mkWorld [] [] []
    ∅ {[ 42 := mkDraft (Some (mkdate 2026 11 6)) (Some (utf8 "19:00")) (Some 4)
                  (Some 4) None (Some (utf8 "Alex")) ]}
    (fun i => Z.of_nat i) 0.

Lemma C7_witness :
  let st := mkDraft (Some (mkdate 2026 11 6)) (Some (utf8 "19:00")) (Some 4)
              (Some 4) None (Some (utf8 "Alex")) in
  BOOK_STATE without_phone !! 42 = Some st
  /\ is_some (draft_date st) = true
  /\ is_some (draft_time st) = true
  /\ is_some (guests_min st) || is_some (guests_max st) = true
  /\ draft_phone st = None
  /\ parse_booking_phrase noon (utf8 "ок") = (None, None, None, None)
  /\ extract_phone (utf8 "ок") = None
  /\ fst (fst (universal_router [] OPERATOR_CHAT 1000 noon without_phone
                 (text_from alexey "ок"))) = Returned.
Proof.
  intros st.
  assert (H1 : BOOK_STATE without_phone !! 42 = Some st) by (vm_compute; reflexivity).
  assert (H2 : is_some (draft_date st) = true) by reflexivity.
  assert (H3 : is_some (draft_time st) = true) by reflexivity.
  assert (H4 : is_some (guests_min st) || is_some (guests_max st) = true)
    by reflexivity.
  assert (H5 : draft_phone st = None) by reflexivity.
  assert (H6 : parse_booking_phrase noon (utf8 "ок") = (None, None, None, None))
    by (vm_compute; reflexivity).
  assert (H7 : extract_phone (utf8 "ок") = None) by (vm_compute; reflexivity).
  refine (conj H1 (conj H2 (conj H3 (conj H4 (conj H5 (conj H6 (conj H7 _))))))).
  refine (proj1 (C7_draft_without_phone_asks_for_phone
                   [] OPERATOR_CHAT 1000 noon without_phone (text_from alexey "ок")
                   st H1 H2 H3 H4 H5 H6 H7) _).
  vm_compute. discriminate.
Defined.

Lemma C8_witness :
  1 <= dt_ord noon
  /\ date_numeric noon (normalize_text (utf8 "в пятницу")) = None
  /\ contains (utf8 "сегодня") (normalize_text (utf8 "в пятницу")) = false
  /\ contains (utf8 "завтра") (normalize_text (utf8 "в пятницу")) = false
  /\ contains (utf8 "послезавтра") (normalize_text (utf8 "в пятницу"))
     || contains (utf8 "после завтра") (normalize_text (utf8 "в пятницу")) = false
  /\ first_weekday WEEKDAY_FULL (normalize_text (utf8 "в пятницу")) = Some 4
  /\ exists d, extract_date noon (utf8 "в пятницу") = Some d /\ date_weekday d = 4.
Proof.
  assert (H1 : 1 <= dt_ord noon) by (vm_compute; discriminate).
  assert (H2 : date_numeric noon (normalize_text (utf8 "в пятницу")) = None)
    by (vm_compute; reflexivity).
  assert (H3 : contains (utf8 "сегодня") (normalize_text (utf8 "в пятницу")) = false)
    by (vm_compute; reflexivity).
  assert (H4 : contains (utf8 "завтра") (normalize_text (utf8 "в пятницу")) = false)
    by (vm_compute; reflexivity).
  assert (H5 : contains (utf8 "послезавтра") (normalize_text (utf8 "в пятницу"))
               || contains (utf8 "после завтра") (normalize_text (utf8 "в пятницу"))
               = false) by (vm_compute; reflexivity).
  assert (H6 : first_weekday WEEKDAY_FULL (normalize_text (utf8 "в пятницу")) = Some 4)
    by (vm_compute; reflexivity).
  refine (conj H1 (conj H2 (conj H3 (conj H4 (conj H5 (conj H6 _)))))).
  destruct (C8_weekday_is_next_strictly_future_day noon (utf8 "в пятницу") 4
              H1 H2 H3 H4 H5 H6) as (d & Hd & Hw & _).
  exists d. exact (conj Hd Hw).
Defined.

(** The claim of C8 as stated fails on a text that also names today: on a
    Friday, "сегодня пятница" matches the weekday name of Friday and the
    extractor returns today's date, the keyword rule coming first. *)
Lemma C8_counterexample :
  let friday := mkdt 739926 0 in
  dt_weekday friday = 4
  /\ first_weekday WEEKDAY_FULL (normalize_text (utf8 "сегодня пятница")) = Some 4
  /\ extract_date friday (utf8 "сегодня пятница") = Some (dt_date friday).
Proof. vm_compute. repeat split; reflexivity. Qed.


Lemma C9_witness :
  forallb isdigit (utf8 "5") = true
  /\ (1 <= List.length (utf8 "5") <= 2)%nat
  /\ forallb isdigit (utf8 "3") = true
  /\ (1 <= List.length (utf8 "3") <= 2)%nat
  /\ is_sep 46%N
  /\ is_sep 47%N
  /\ forallb isdigit (utf8 "24") = true
  /\ List.length (utf8 "24") = 2%nat
  /\ calendar_date 2024 3 5 = true
  /\ extract_date noon (utf8 "5.3/24") = Some (mkdate 2024 3 5).
Proof.
  assert (H1 : forallb isdigit (utf8 "5") = true) by reflexivity.
  assert (H2 : (1 <= List.length (utf8 "5") <= 2)%nat) by (vm_compute; lia).
  assert (H3 : forallb isdigit (utf8 "3") = true) by reflexivity.
  assert (H4 : (1 <= List.length (utf8 "3") <= 2)%nat) by (vm_compute; lia).
  assert (H5 : is_sep 46%N) by (left; reflexivity).
  assert (H6 : is_sep 47%N) by (right; reflexivity).
  assert (H7 : forallb isdigit (utf8 "24") = true) by reflexivity.
  assert (H8 : List.length (utf8 "24") = 2%nat) by reflexivity.
  assert (H9 : calendar_date 2024 3 5 = true) by reflexivity.
  refine (conj H1 (conj H2 (conj H3 (conj H4 (conj H5 (conj H6 (conj H7
            (conj H8 (conj H9 _))))))))).
  change (utf8 "5.3/24") with (utf8 "5" ++ 46%N :: utf8 "3" ++ 47%N :: utf8 "24").
  change (mkdate 2024 3 5)
    with (mkdate (2000 + numeral (utf8 "24")) (numeral (utf8 "3")) (numeral (utf8 "5"))).
  exact (proj1 (proj1 (C9_numeric_date_two_digit_year_and_invalid
                         noon (utf8 "5") (utf8 "3") 46%N H1 H2 H3 H4 H5)
                  47%N (utf8 "24") H6 H7 H8) H9).
Defined.




(** C2.  The message of the scenario, from a user with no draft, is
    completed in one turn and recorded with [status = new], the date of
    tomorrow, the time 19:00 and the phone +79991234567, and the operator
    gets the notice with the confirm and cancel actions; but the guest
    range recorded is 19 to 19, the bare-integer rule taking the hour of
    "к 19" before the 4 of "нас 4", and the name recorded is
    "завтра к нас Алексей", every alphabetic word of the message. *)
Theorem C2_scenario_records_hour_as_guests :
  let m := text_from alexey "завтра к 19, нас 4, +79991234567 Алексей" in
  let r := universal_router [] OPERATOR_CHAT 1000 noon fresh_world m in
  let row := mkBooking 1 42 (utf8 "завтра к нас Алексей") (utf8 "+79991234567")
               19 (utf8 "19") (utf8 "2026-11-06") (utf8 "19:00") [] StatusNew 1
               (isoformat_seconds noon) (isoformat_seconds noon) in
  extract_guests_range (message_text m) = (Some 19, Some 19)
  /\ extract_name_from_contact_text (message_text m) (extract_phone (message_text m))
     = Some (utf8 "завтра к нас Алексей")
  /\ extract_date noon (message_text m) = Some (dt_date (dt_add_days noon 1))
  /\ extract_time (message_text m) = Some (utf8 "19:00")
  /\ extract_phone (message_text m) = Some (utf8 "+79991234567")
  /\ fst (fst r) = Returned
  /\ bookings (snd (fst r)) = [row]
  /\ BOOK_STATE (snd (fst r)) !! 42 = None
  /\ snd r = [SayRecorded (utf8 "06.11.2026") (utf8 "19:00") (utf8 "19 чел.")
                (utf8 "завтра к нас Алексей") (utf8 "+79991234567");
              AdminBooking (-100500) row (utf8 "admin:confirm:1")
                (utf8 "admin:cancel:1")].
Proof. vm_compute. repeat split; reflexivity. Qed.

(** C5.  Two messages of one user, "5 человек" and then "до 3": each
    extraction is ordered, and the field-by-field merge leaves the draft
    with [guests_min = 5] above [guests_max = 3]. *)
Theorem C5_merge_leaves_min_above_max :
  let r1 := universal_router [] OPERATOR_CHAT 1000 noon fresh_world
              (text_from alexey "5 человек") in
  let r2 := universal_router [] OPERATOR_CHAT 1000 noon (snd (fst r1))
              (text_from alexey "до 3") in
  extract_guests_range (utf8 "5 человек") = (Some 5, Some 5)
  /\ extract_guests_range (utf8 "до 3") = (None, Some 3)
  /\ BOOK_STATE (snd (fst r2)) !! 42
     = Some (mkDraft None None (Some 5) (Some 3) None (Some (utf8 "Alex")))
  /\ exists st lo hi,
       BOOK_STATE (snd (fst r2)) !! 42 = Some st
       /\ guests_min st = Some lo /\ guests_max st = Some hi /\ hi < lo.
Proof.
  vm_compute. repeat split; try reflexivity.
  eexists _, 5, 3. repeat split; reflexivity.
Qed.

(** * Further properties of the extractors *)

Lemma starts_with_app_contains (a b t : text) :
  starts_with (a ++ b) t = true -> contains b t = true.
Proof.
  revert t. induction a as [|x a IH]; intros t H.
  - destruct t; simpl in *; rewrite H; reflexivity.
  - destruct t as [|y t]; simpl in H; [discriminate|].
    apply andb_true_iff in H as [_ H]. apply IH in H.
    simpl. rewrite H. apply orb_true_r.
Qed.

(** A text that contains a string contains each of its endings. *)
Lemma contains_app (a b t : text) :
  contains (a ++ b) t = true -> contains b t = true.
Proof.
  induction t as [|y t IH]; intros H.
  - simpl in H. rewrite orb_false_r in H. exact (starts_with_app_contains _ _ _ H).
  - simpl in H. apply orb_true_iff in H as [H|H].
    + exact (starts_with_app_contains _ _ _ H).
    + simpl. rewrite (IH H). apply orb_true_r.
Qed.

Lemma day_after_has_tomorrow (t : text) :
  contains (utf8 "послезавтра") t || contains (utf8 "после завтра") t = true ->
  contains (utf8 "завтра") t = true.
Proof.
  intros H. apply orb_true_iff in H as [H|H].
  - apply (contains_app (utf8 "после") (utf8 "завтра")). exact H.
  - apply (contains_app (utf8 "после ") (utf8 "завтра")). exact H.
Qed.

(** X1.  The branch of [extract_date] for the day after tomorrow is never
    reached: a text with "послезавтра" or "после завтра" also contains
    "завтра", which is tested first.  So on every such text without a
    valid numeric date and without "сегодня" the extractor returns
    tomorrow's date. *)
Theorem day_after_tomorrow_reads_as_tomorrow (now : datetime) (txt : text) :
  let t := normalize_text txt in
  date_numeric now t = None ->
  contains (utf8 "сегодня") t = false ->
  contains (utf8 "послезавтра") t || contains (utf8 "после завтра") t = true ->
  extract_date now txt = Some (dt_date (dt_add_days now 1)).
Proof.
  intros t Hn Ht Hd. unfold extract_date. fold t.
  rewrite Hn, Ht, (day_after_has_tomorrow t Hd). reflexivity.
Qed.

(** The day-of-month rule on a text in which one of its two patterns is
    found: the named day of this month when that is a date after today,
    else the named day of the next month when that is a date, else
    nothing. *)
Lemma date_ordinal_day_spec (now : datetime) (t : text) (m : captures) :
  or_else (re_search ORDINAL_RE_GO t) (re_search ORDINAL_RE_CHISLA t) = Some m ->
  let today := dt_date now in
  let n := numeral (group_text 1 m) in
  let next := if month today =? 12 then (year today + 1, 1)
              else (year today, month today + 1) in
  date_ordinal_day now t
  = if calendar_date (year today) (month today) n && (day today <? n)
    then Some (mkdate (year today) (month today) n)
    else if calendar_date (fst next) (snd next) n
         then Some (mkdate (fst next) (snd next) n)
         else None.
Proof.
  intros Hm today n next. unfold date_ordinal_day. rewrite Hm. fold today.
  rewrite int_of_numeral. fold n. rewrite !make_date_calendar.
  assert (Hnext : (if month today =? 12
                   then if calendar_date (year today + 1) 1 n
                        then Some (mkdate (year today + 1) 1 n) else None
                   else if calendar_date (year today) (month today + 1) n
                        then Some (mkdate (year today) (month today + 1) n) else None)
                  = if calendar_date (fst next) (snd next) n
                    then Some (mkdate (fst next) (snd next) n) else None)
    by (subst next; destruct (month today =? 12); reflexivity).
  rewrite Hnext.
  destruct (calendar_date (year today) (month today) n); [|reflexivity].
  unfold date_leb. cbn [year month day andb].
  rewrite !Z.ltb_irrefl, !Z.eqb_refl. cbn [orb andb].
  destruct (Z.leb_spec n (day today)), (Z.ltb_spec (day today) n);
    try reflexivity; lia.
Qed.

(** X2.  When the day-of-month rule of [extract_date] is the one that
    applies (no valid numeric date, no keyword, no weekday name) and the
    text names the day n ("n-го", "n числа"), the extractor returns day n
    of this month when that is a date of the calendar after today; else day
    n of the next month (January of the next year after December) when that
    is a date of the calendar; else nothing.  So a date it returns has the
    day named in the text and is strictly after today. *)
Theorem day_of_month_is_strictly_future
    (now : datetime) (txt : text) (m : captures) :
  let t := normalize_text txt in
  let today := dt_date now in
  date_numeric now t = None ->
  contains (utf8 "сегодня") t = false ->
  contains (utf8 "завтра") t = false ->
  first_weekday WEEKDAY_FULL t = None ->
  or_else (re_search ORDINAL_RE_GO t) (re_search ORDINAL_RE_CHISLA t) = Some m ->
  let n := numeral (group_text 1 m) in
  let next := if month today =? 12 then (year today + 1, 1)
              else (year today, month today + 1) in
  extract_date now txt
  = (if calendar_date (year today) (month today) n && (day today <? n)
     then Some (mkdate (year today) (month today) n)
     else if calendar_date (fst next) (snd next) n
          then Some (mkdate (fst next) (snd next) n)
          else None)
  /\ forall d, extract_date now txt = Some d ->
               day d = n /\ date_leb d today = false.
Proof.
  intros t today Hn H1 H2 Hw Hm n next.
  assert (E : extract_date now txt = date_ordinal_day now t).
  { unfold extract_date. fold t. rewrite Hn, H1, H2, Hw.
    destruct (contains (utf8 "послезавтра") t || contains (utf8 "после завтра") t) eqn:E;
      [|reflexivity].
    apply day_after_has_tomorrow in E. congruence. }
  rewrite E, (date_ordinal_day_spec now t m Hm). fold today n next.
  split; [reflexivity|].
  intros d.
  destruct (calendar_date (year today) (month today) n && (day today <? n)) eqn:E1.
  - intros H. injection H as <-. split; [reflexivity|].
    apply andb_true_iff in E1 as [_ E1]. apply Z.ltb_lt in E1.
    unfold date_leb. cbn [year month day].
    rewrite !Z.ltb_irrefl, !Z.eqb_refl. cbn [orb andb].
    apply Z.leb_gt. exact E1.
  - destruct (calendar_date (fst next) (snd next) n); [|discriminate].
    intros H. injection H as <-. split; [reflexivity|].
    unfold date_leb. cbn [year month day]. subst next.
    destruct (Z.eqb_spec (month today) 12) as [E12|E12]; cbn [fst snd].
    + replace (year today + 1 <? year today) with false by (symmetry; apply Z.ltb_ge; lia).
      replace (year today + 1 =? year today) with false by (symmetry; apply Z.eqb_neq; lia).
      reflexivity.
    + rewrite Z.ltb_irrefl, Z.eqb_refl.
      replace (month today + 1 <? month today) with false by (symmetry; apply Z.ltb_ge; lia).
      replace (month today + 1 =? month today) with false by (symmetry; apply Z.eqb_neq; lia).
      reflexivity.
Qed.

Lemma zfill2_shape (n : Z) :
  0 <= n < 100 ->
  List.length (zfill 2 n) = 2%nat /\ forallb isdigit (zfill 2 n) = true.
Proof.
  intros H. unfold zfill.
  destruct (str_of_Z_digits n 1) as [Hd Hl]; [simpl; lia|].
  apply pad_digits; assumption.
Qed.

Lemma hhmm_shape (hh mm : Z) :
  0 <= hh <= 23 -> 0 <= mm <= 59 ->
  exists a b : text,
    hhmm hh mm = a ++ 58%N :: b
    /\ List.length a = 2%nat /\ List.length b = 2%nat
    /\ forallb isdigit a = true /\ forallb isdigit b = true.
Proof.
  intros Hh Hm. exists (zfill 2 hh), (zfill 2 mm).
  destruct (zfill2_shape hh) as [? ?]; [lia|].
  destruct (zfill2_shape mm) as [? ?]; [lia|].
  unfold hhmm. repeat split; assumption.
Qed.

(** X3.  Whatever the text, a time returned by [extract_time] is a time of
    day written HH:MM: two digits, a colon, two digits, with the hour in
    0..23 and the minute in 0..59. *)
Theorem extract_time_is_time_of_day (txt s : text) :
  extract_time txt = Some s ->
  exists hh mm : Z,
    0 <= hh <= 23 /\ 0 <= mm <= 59
    /\ s = zfill 2 hh ++ utf8 ":" ++ zfill 2 mm
    /\ List.length (zfill 2 hh) = 2%nat /\ forallb isdigit (zfill 2 hh) = true
    /\ List.length (zfill 2 mm) = 2%nat /\ forallb isdigit (zfill 2 mm) = true.
Proof.
  assert (Hok : forall hh mm, 0 <= hh <= 23 -> 0 <= mm <= 59 ->
            exists hh' mm' : Z,
              0 <= hh' <= 23 /\ 0 <= mm' <= 59
              /\ hhmm hh mm = zfill 2 hh' ++ utf8 ":" ++ zfill 2 mm'
              /\ List.length (zfill 2 hh') = 2%nat /\ forallb isdigit (zfill 2 hh') = true
              /\ List.length (zfill 2 mm') = 2%nat /\ forallb isdigit (zfill 2 mm') = true).
  { intros hh mm Hh Hm. exists hh, mm.
    destruct (zfill2_shape hh) as [? ?]; [lia|].
    destruct (zfill2_shape mm) as [? ?]; [lia|].
    repeat split; try assumption; lia. }
  assert (Hhour : forall t, extract_time_hour t = Some s ->
            exists hh mm : Z,
              0 <= hh <= 23 /\ 0 <= mm <= 59
              /\ s = zfill 2 hh ++ utf8 ":" ++ zfill 2 mm
              /\ List.length (zfill 2 hh) = 2%nat /\ forallb isdigit (zfill 2 hh) = true
              /\ List.length (zfill 2 mm) = 2%nat /\ forallb isdigit (zfill 2 mm) = true).
  { intros t. unfold extract_time_hour.
    destruct (re_search TIME_RE_HOUR t) as [m|]; [|discriminate].
    generalize (int_of (group_text 1 m)). intros hh.
    destruct ((0 <=? hh) && (hh <=? 23)) eqn:E; [|discriminate].
    apply andb_true_iff in E as [E1 E2].
    apply Z.leb_le in E1. apply Z.leb_le in E2.
    destruct ((hh <=? 11) && is_some (re_search EVENING_RE t)) eqn:Ev;
      intros H; injection H as <-.
    - apply andb_true_iff in Ev as [Ev _]. apply Z.leb_le in Ev.
      apply Hok; lia.
    - apply Hok; lia. }
  unfold extract_time.
  destruct (re_search TIME_RE_HHMM (normalize_text txt)) as [m|]; [|apply Hhour].
  generalize (int_of (group_text 1 m)) (int_of (group_text 2 m)). intros hh mm.
  destruct ((0 <=? hh) && (hh <=? 23) && (0 <=? mm) && (mm <=? 59)) eqn:E;
    [|apply Hhour].
  intros H; injection H as <-.
  repeat (apply andb_true_iff in E as [E ?]).
  apply Hok; lia.
Qed.

Lemma phone_chars_later (i : nat) (raw : text) :
  forallb isdigit (phone_chars (S i) raw) = true.
Proof.
  revert i. induction raw as [|ch raw IH]; intros i; simpl; [reflexivity|].
  destruct (isdigit ch) eqn:E.
  - simpl. rewrite E. apply IH.
  - rewrite andb_false_r. apply IH.
Qed.

Lemma phone_chars_first (raw : text) :
  exists ds : text,
    forallb isdigit ds = true
    /\ (phone_chars 0 raw = ds \/ phone_chars 0 raw = 43%N :: ds).
Proof.
  destruct raw as [|ch raw]; simpl.
  - exists []. split; [reflexivity | left; reflexivity].
  - destruct (isdigit ch) eqn:E.
    + exists (ch :: phone_chars 1 raw). split; [|left; reflexivity].
      simpl. rewrite E. apply phone_chars_later.
    + destruct (N.eqb_spec ch 43) as [->|]; simpl.
      * exists (phone_chars 1 raw). split; [apply phone_chars_later | right; reflexivity].
      * exists (phone_chars 1 raw). split; [apply phone_chars_later | left; reflexivity].
Qed.

Lemma filter_all (A : Type) (f : A -> bool) (l : list A) :
  forallb f l = true -> filter f l = l.
Proof.
  induction l as [|x l IH]; simpl; [reflexivity|].
  intros H. apply andb_true_iff in H as [Hx Hl]. rewrite Hx, (IH Hl). reflexivity.
Qed.

(** X4.  Whatever the text, a phone returned by [extract_phone] is a run of
    at least eight digits, with at most a plus sign before it: the spaces,
    dashes and brackets of the text are dropped. *)
Theorem extract_phone_is_digits (txt p : text) :
  extract_phone txt = Some p ->
  exists ds : text,
    forallb isdigit ds = true
    /\ (8 <= List.length ds)%nat
    /\ (p = ds \/ p = 43%N :: ds).
Proof.
  unfold extract_phone.
  destruct (re_search PHONE_RE (normalize_text txt)) as [m|]; [|discriminate].
  generalize (strip (group_text 1 m)). intros raw.
  destruct (8 <=? count_digits (phone_chars 0 raw)) eqn:E; [|discriminate].
  intros H; injection H as <-.
  apply Z.leb_le in E. unfold count_digits in E.
  destruct (phone_chars_first raw) as (ds & Hd & [Hp|Hp]); rewrite Hp in *;
    exists ds; (split; [exact Hd|]).
  - rewrite (filter_all _ _ _ Hd) in E. split; [lia | left; reflexivity].
  - simpl in E. rewrite (filter_all _ _ _ Hd) in E. split; [lia | right; reflexivity].
Qed.

Definition name_char (c : char) : bool := isalpha c || (c =? 32)%N.

Lemma forallb_lstrip (f : char -> bool) (t : text) :
  forallb f t = true -> forallb f (lstrip t) = true.
Proof.
  induction t as [|c t IH]; simpl; [reflexivity|].
  intros H. destruct (isspace c); [|exact H].
  apply andb_true_iff in H as [_ H]. exact (IH H).
Qed.

Lemma forallb_rev (f : char -> bool) (t : text) :
  forallb f t = true -> forallb f (rev t) = true.
Proof.
  rewrite !forallb_forall. intros H x Hx. apply H. apply in_rev. exact Hx.
Qed.

Lemma forallb_strip (f : char -> bool) (t : text) :
  forallb f t = true -> forallb f (strip t) = true.
Proof.
  intros H. unfold strip.
  apply forallb_rev, forallb_lstrip, forallb_rev, forallb_lstrip. exact H.
Qed.

Lemma join_sp_name_chars (ws : list text) :
  forallb str_isalpha ws = true -> forallb name_char (join_sp ws) = true.
Proof.
  assert (Hw : forall w, str_isalpha w = true -> forallb name_char w = true).
  { intros w H. destruct w as [|c w]; [discriminate|]. unfold str_isalpha in H.
    rewrite forallb_forall in *. intros x Hx. unfold name_char.
    rewrite (H x Hx). reflexivity. }
  induction ws as [|w ws IH]; [reflexivity|].
  intros H. simpl in H. apply andb_true_iff in H as [H1 H2].
  destruct ws as [|w' ws]; [simpl; apply Hw; exact H1|].
  change (join_sp (w :: w' :: ws)) with (w ++ 32%N :: join_sp (w' :: ws)).
  rewrite forallb_app, (Hw w H1).
  change (forallb name_char (32%N :: join_sp (w' :: ws)))
    with (name_char 32%N && forallb name_char (join_sp (w' :: ws))).
  rewrite (IH H2). reflexivity.
Qed.

Lemma filter_forallb (A : Type) (f : A -> bool) (l : list A) :
  forallb f (filter f l) = true.
Proof.
  induction l as [|x l IH]; simpl; [reflexivity|].
  destruct (f x) eqn:E; simpl; [rewrite E|]; exact IH.
Qed.

(** X5.  A name returned by [extract_name_from_contact_text] is never
    empty and consists of letters and spaces only: no digit or sign of the
    phone, and no punctuation, gets into it. *)
Theorem extract_name_is_letters (txt : text) (phone : option text) (n : text) :
  extract_name_from_contact_text txt phone = Some n ->
  n <> []
  /\ forallb (fun c => isalpha c || (c =? 32)%N) n = true
  /\ forallb (fun c => negb (isdigit c)) n = true.
Proof.
  unfold extract_name_from_contact_text.
  destruct txt as [|c0 txt0]; [discriminate|].
  set (t := match phone with Some (_ :: _) => _ | _ => _ end). clearbody t.
  unfold nonempty.
  destruct (strip (join_sp (filter str_isalpha (split_ws t)))) as [|c s] eqn:E;
    [discriminate|].
  intros H; injection H as <-.
  assert (Hn : forallb name_char (c :: s) = true).
  { rewrite <- E. apply forallb_strip, join_sp_name_chars, filter_forallb. }
  split; [discriminate|]. split; [exact Hn|].
  rewrite forallb_forall in *. intros x Hx. specialize (Hn x Hx).
  unfold name_char in Hn. apply orb_true_iff in Hn as [Hn|Hn].
  - unfold isalpha, isdigit, in_range in *.
    destruct (48 <=? x)%N eqn:E1; [|reflexivity].
    destruct (x <=? 57)%N eqn:E2; [|reflexivity].
    apply N.leb_le in E1. apply N.leb_le in E2.
    repeat (apply orb_true_iff in Hn as [Hn|Hn]);
      apply andb_true_iff in Hn as [Ha Hb];
      apply N.leb_le in Ha; apply N.leb_le in Hb; lia.
  - apply N.eqb_eq in Hn. subst x. reflexivity.
Qed.

(** X6.  Whatever the text, the pair returned by [extract_guests_range] is
    ordered and has no lower bound without an upper bound: when the lower
    bound is present so is the upper one, and the lower is not above it. *)
Theorem extract_guests_range_is_range (txt : text) (lo hi : option Z) :
  extract_guests_range txt = (lo, hi) ->
  forall a : Z, lo = Some a -> exists b : Z, hi = Some b /\ a <= b.
Proof.
  set (P := fun g : guests =>
              forall a : Z, fst g = Some a -> exists b : Z, snd g = Some b /\ a <= b).
  assert (Hnone : forall h, P (None, h)) by (intros h a Ha; discriminate Ha).
  assert (Hsame : forall n, P (Some n, Some n)).
  { intros n a Ha. injection Ha as <-. exists n. split; [reflexivity | lia]. }
  assert (Hmm : forall a b, P (Some (Z.min a b), Some (Z.max a b))).
  { intros a b x Hx. injection Hx as <-. exists (Z.max a b). split; [reflexivity | lia]. }
  enough (H : P (extract_guests_range txt)).
  { intros E a Ha. rewrite E in H. exact (H a Ha). }
  unfold extract_guests_range.
  destruct (normalize_text txt) as [|c t]; [apply Hnone|].
  set (s := c :: t). clearbody s.
  destruct (re_search GUESTS_RE_RANGE s); [apply Hmm|].
  assert (Hft : P (guests_from_to s)).
  { unfold guests_from_to.
    destruct (re_search GUESTS_RE_FROM_TO s); [apply Hmm|].
    destruct (re_search GUESTS_RE_UPTO s); [apply Hnone|].
    unfold guests_words_single.
    destruct (first_word upto_word_re WORDS_TO_NUM s); [apply Hnone|].
    destruct (first_word word_re WORDS_TO_NUM s); [apply Hsame|].
    unfold guests_single. destruct (re_search GUESTS_RE_SINGLE s); [|apply Hnone].
    destruct (_ && _); [apply Hsame | apply Hnone]. }
  unfold guests_words.
  destruct (re_search GUESTS_RE_WORDS s) as [m|]; [|exact Hft].
  generalize (dict_get WORDS_TO_NUM (group_text 1 m))
             (dict_get WORDS_TO_NUM (group_text 2 m)).
  intros [a|] [b|]; try exact Hft.
  destruct (truthy_int (Some a) && truthy_int (Some b)); [apply Hmm | exact Hft].
Qed.

(** X7.  Inside a booking dialogue [detect_intent] always names an intent:
    the menu, venue or quiz intent exactly when the same text names it
    outside a dialogue, and the booking intent on every other text, be it a
    booking keyword or none at all. *)
Theorem detect_intent_in_flow (txt : text) :
  detect_intent txt true
  = match detect_intent txt false with
    | Some Menu => Some Menu
    | Some Venue => Some Venue
    | Some Quiz => Some Quiz
    | Some Book | None => Some Book
    end.
Proof.
  unfold detect_intent. generalize (normalize_text txt). intros t.
  unfold INTENT_KEYWORDS. cbn [first_intent intent_eqb andb].
  repeat match goal with
         | |- context [existsb ?f ?l] =>
             let b := fresh "b" in
             generalize (existsb f l); intros b
         end.
  destruct b, b0, b1, b2; reflexivity.
Qed.

(** * Further properties of the quiz *)

Section QuizFacts.

Variable QUIZ : list QuizRow.

Lemma quiz_pool_spec :
  QUIZ <> [] ->
  quiz_pool QUIZ <> []
  /\ incl (quiz_pool QUIZ) QUIZ
  /\ (existsb row_active QUIZ = true ->
      forall r, In r (quiz_pool QUIZ) -> row_active r = true).
Proof.
  intros Hne. unfold quiz_pool.
  destruct (filter row_active QUIZ) as [|a act] eqn:E.
  - split; [exact Hne|]. split; [apply incl_refl|].
    intros Hex. apply existsb_exists in Hex as (r & Hr & Ha).
    assert (Hin : In r (filter row_active QUIZ)) by (apply filter_In; auto).
    rewrite E in Hin. destruct Hin.
  - split; [discriminate|]. split.
    + intros r Hr. rewrite <- E in Hr. apply filter_In in Hr. tauto.
    + intros _ r Hr. rewrite <- E in Hr. apply filter_In in Hr. tauto.
Qed.

(** X8.  On a bank that is not empty [pick_quiz_question] always returns a
    row of the bank, and an active one whenever the bank has a row marked
    active; rows that are not active are drawn only when none is. *)
Theorem pick_quiz_question_prefers_active (w : World) :
  QUIZ <> [] ->
  exists row : QuizRow,
    fst (pick_quiz_question QUIZ w) = Some row
    /\ In row QUIZ
    /\ (existsb row_active QUIZ = true -> row_active row = true).
Proof.
  intros Hne. destruct (quiz_pool_spec Hne) as (Hp & Hincl & Hact).
  unfold pick_quiz_question.
  destruct (quiz_pool QUIZ) as [|r0 pool] eqn:E; [congruence|].
  unfold draw. cbn [fst].
  set (i := Z.to_nat (tape w (cursor w) mod Z.of_nat (List.length (r0 :: pool)))).
  assert (Hi : (i < List.length (r0 :: pool))%nat).
  { subst i.
    pose proof (Z.mod_pos_bound (tape w (cursor w))
                  (Z.of_nat (List.length (r0 :: pool)))) as Hb.
    simpl List.length in *. lia. }
  exists (nth i (r0 :: pool) r0).
  pose proof (nth_In (r0 :: pool) r0 Hi) as Hin.
  split; [reflexivity|]. split; [apply Hincl; exact Hin|].
  intros Hex. apply Hact; assumption.
Qed.

Definition LETTERS : list text := [utf8 "a"; utf8 "b"; utf8 "c"; utf8 "d"].

Lemma labelled_letters (l : string) (c : cell) :
  In (lower (utf8 l)) LETTERS ->
  Forall (fun lv => In (lower (fst lv)) LETTERS) (labelled l c).
Proof.
  intros H. unfold labelled. destruct (cell_text c); constructor; [exact H | constructor].
Qed.

Lemma options_list_letters (r : QuizRow) :
  Forall (fun lv => In (lower (fst lv)) LETTERS) (options_list r).
Proof.
  assert (Ha : In (lower (utf8 "A")) LETTERS) by (vm_compute; tauto).
  assert (Hb : In (lower (utf8 "B")) LETTERS) by (vm_compute; tauto).
  assert (Hc : In (lower (utf8 "C")) LETTERS) by (vm_compute; tauto).
  assert (Hd : In (lower (utf8 "D")) LETTERS) by (vm_compute; tauto).
  assert (H1 : Forall (fun lv => In (lower (fst lv)) LETTERS)
                 (labelled "A" (row_a r) ++ labelled "B" (row_b r)
                  ++ labelled "C" (row_c r) ++ labelled "D" (row_d r))).
  { repeat (apply Forall_app; split); apply labelled_letters; assumption. }
  assert (H2 : Forall (fun lv => In (lower (fst lv)) LETTERS)
                 (labelled "A" (row_option1 r) ++ labelled "B" (row_option2 r)
                  ++ labelled "C" (row_option3 r) ++ labelled "D" (row_option4 r))).
  { repeat (apply Forall_app; split); apply labelled_letters; assumption. }
  unfold options_list.
  destruct (labelled "A" (row_a r) ++ labelled "B" (row_b r)
            ++ labelled "C" (row_c r) ++ labelled "D" (row_d r));
    [exact H2 | exact H1].
Qed.

Lemma label_of_value_in (opts : list (text * text)) (cr l : text) :
  label_of_value opts cr = Some l -> In l (map (fun lv => lower (fst lv)) opts).
Proof.
  induction opts as [|[label val] opts IH]; simpl; [discriminate|].
  destruct (text_eqb (lower val) cr).
  - intros H; injection H as <-. left; reflexivity.
  - intros H. right. exact (IH H).
Qed.

(** X9.  For a row that has options, the letter [start_quiz_for_user]
    registers as correct is one of a, b, c, d, and every button carries the
    question id and one of these letters.  When the [correct] column does
    not hold a letter, the registered letter is that of one of the buttons:
    of the option whose text the column repeats, else of the first. *)
Theorem registered_letter_is_abcd (row : QuizRow) (qid : Z) :
  options_list row <> [] ->
  let opts := options_list row in
  let letter := correct_letter row opts in
  In letter LETTERS
  /\ Forall (fun b => fst (snd b) = qid /\ In (snd (snd b)) LETTERS)
       (buttons_of qid opts)
  /\ (is_letter_abcd (lower (correct_raw row)) = false ->
      In (qid, letter) (map snd (buttons_of qid opts))).
Proof.
  intros Hne opts letter.
  pose proof (options_list_letters row) as Hl. fold opts in Hl.
  assert (Hne' : opts <> []) by exact Hne.
  subst letter. clearbody opts. set (letter := correct_letter row opts).
  assert (Hbtn : map snd (buttons_of qid opts)
                 = map (fun lv => (qid, lower (fst lv))) opts).
  { unfold buttons_of. rewrite map_map. reflexivity. }
  assert (Hin : is_letter_abcd (lower (correct_raw row)) = false ->
                In letter (map (fun lv => lower (fst lv)) opts)).
  { intros Hn. subst letter. unfold correct_letter. rewrite Hn.
    destruct (label_of_value opts (lower (correct_raw row))) as [l|] eqn:E.
    - exact (label_of_value_in _ _ _ E).
    - destruct opts as [|[label v] opts']; [congruence|]. left; reflexivity. }
  split; [|split].
  - destruct (is_letter_abcd (lower (correct_raw row))) eqn:E.
    + subst letter. unfold correct_letter. rewrite E.
      unfold is_letter_abcd in E. apply existsb_exists in E as (x & Hx & Ex).
      apply text_eqb_eq in Ex. rewrite Ex. exact Hx.
    + specialize (Hin eq_refl). apply in_map_iff in Hin as (lv & <- & Hlv).
      rewrite Forall_forall in Hl. exact (Hl lv Hlv).
  - unfold buttons_of. apply Forall_map. cbn [fst snd].
    eapply Forall_impl; [|exact Hl]. intros lv H. split; [reflexivity | exact H].
  - intros Hn. rewrite Hbtn. specialize (Hin Hn).
    apply in_map_iff in Hin as (lv & <- & Hlv).
    apply in_map_iff. exists lv. split; [reflexivity | exact Hlv].
Qed.

(** The attempt of a user without an award whose lock, if any, has passed,
    on a bank where no row of the pool has options. *)
Lemma start_without_options (depth : nat) (now : datetime) (w : World) (m : Message) :
  let u := uid (from_user m) in
  QUIZ <> [] ->
  Forall (fun r => options_list r = []) (quiz_pool QUIZ) ->
  awarded (get_user_quiz_state u w) <> 1 ->
  (forall t, locked_until_iso (get_user_quiz_state u w) = IsoOf t ->
             dt_ltb now t = false) ->
  let r := start_quiz_for_user QUIZ depth now w m in
  fst (fst r) = Raised
  /\ snd r = repeat SayNoOptions (S depth)
  /\ QUIZ_STATE (snd (fst r)) = QUIZ_STATE w
  /\ cursor (snd (fst r)) = (cursor w + S depth)%nat.
Proof.
  intros u Hne Hall. revert w.
  induction depth as [|depth IH]; intros w Haw Hlock r; subst r.
  all: cbn [start_quiz_for_user]; fold u.
  all: destruct (awarded (get_user_quiz_state u w) =? 1) eqn:Ea;
    [apply Z.eqb_eq in Ea; congruence|].
  all: destruct (check_lock now (get_user_quiz_state u w) w) as [until|[st' w1]] eqn:Ec.
  all: try (exfalso; unfold check_lock in Ec;
            destruct (locked_until_iso (get_user_quiz_state u w)) as [|t|] eqn:El;
            simpl in Ec; try discriminate Ec;
            rewrite (Hlock t eq_refl) in Ec; discriminate Ec).
  all: pose proof (check_lock_quiet now w u st' w1 Ec) as (Hq & Hget & Hid).
  all: assert (Hqs : QUIZ_STATE w1 = QUIZ_STATE w /\ cursor w1 = cursor w
                     /\ iso_truthy (locked_until_iso st') = false).
  all: try (unfold check_lock in Ec;
            destruct (locked_until_iso (get_user_quiz_state u w)) as [|t|] eqn:El;
            simpl in Ec;
            [ injection Ec as <- <-; rewrite El; auto
            | destruct (dt_ltb now t); [discriminate Ec|];
              injection Ec as <- <-; auto
            | injection Ec as <- <-; auto ]).
  all: destruct Hqs as (Hqs & Hcur & Htr).
  all: destruct (quiz_pool_spec Hne) as (Hp & _ & _).
  all: unfold pick_quiz_question.
  all: destruct (quiz_pool QUIZ) as [|r0 pool] eqn:E; [congruence|].
  all: unfold draw.
  all: set (i := Z.to_nat (tape w1 (cursor w1) mod Z.of_nat (List.length (r0 :: pool)))).
  all: assert (Hi : (i < List.length (r0 :: pool))%nat)
    by (subst i;
        pose proof (Z.mod_pos_bound (tape w1 (cursor w1))
                      (Z.of_nat (List.length (r0 :: pool)))) as Hb;
        simpl List.length in *; lia).
  all: pose proof (nth_In (r0 :: pool) r0 Hi) as Hin.
  all: rewrite Forall_forall in Hall; rewrite (Hall _ Hin).
  - cbn [fst snd]. simpl. repeat split; [exact Hqs | lia].
  - set (w2 := mkWorld (quiz_users w1) (coupons w1) (bookings w1) (QUIZ_STATE w1)
                 (BOOK_STATE w1) (tape w1) (S (cursor w1))).
    assert (Hg : get_user_quiz_state u w2 = st') by (rewrite <- Hget; reflexivity).
    assert (Haw2 : awarded (get_user_quiz_state u w2) <> 1).
    { rewrite Hg, <- Hget, (quiet_awarded _ _ Hq). exact Haw. }
    assert (Hlock2 : forall t, locked_until_iso (get_user_quiz_state u w2) = IsoOf t ->
                               dt_ltb now t = false).
    { intros t Ht. rewrite Hg in Ht. rewrite Ht in Htr. discriminate Htr. }
    specialize (IH w2 Haw2 Hlock2). cbv zeta in IH.
    destruct (start_quiz_for_user QUIZ depth now w2 m) as [[e w3] out].
    cbn [fst snd] in *. destruct IH as (-> & -> & Hq3 & Hc3).
    repeat split.
    + rewrite Hq3. exact Hqs.
    + rewrite Hc3. subst w2. simpl. lia.
Qed.

(** X10.  On a bank in which no row of the pool has options,
    [start_quiz_for_user] never sends a question: for a user who has no
    award and no lock still running it sends the notice that the question
    has no options once per nested call, until the interpreter's limit of
    nested calls ends the attempt with an exception; no question id is
    registered. *)
Theorem start_raises_on_bank_without_options
    (depth : nat) (now : datetime) (w : World) (m : Message) :
  let u := uid (from_user m) in
  QUIZ <> [] ->
  Forall (fun r => options_list r = []) (quiz_pool QUIZ) ->
  awarded (get_user_quiz_state u w) <> 1 ->
  (forall t, locked_until_iso (get_user_quiz_state u w) = IsoOf t ->
             dt_ltb now t = false) ->
  let r := start_quiz_for_user QUIZ depth now w m in
  fst (fst r) = Raised
  /\ snd r = repeat SayNoOptions (S depth)
  /\ QUIZ_STATE (snd (fst r)) = QUIZ_STATE w.
Proof.
  intros u Hne Hall Haw Hlock r.
  destruct (start_without_options depth now w m Hne Hall Haw Hlock) as (H1 & H2 & H3 & _).
  auto.
Qed.

(** The state after a question has been registered and sent. *)
Lemma question_registered (now : datetime) (u : Z) (st : QuizUserState) (w : World)
    (row : QuizRow) :
  user_id st = u ->
  iso_truthy (locked_until_iso st) = false ->
  let w3 := set_user_quiz_state
              (set_last_played_at (set_current_qid st (row_qid row))
                 (isoformat_seconds now))
              (with_QUIZ_STATE w
                 (<[row_qid row := correct_letter row (options_list row)]>
                    (QUIZ_STATE w))) in
  iso_truthy (locked_until_iso (get_user_quiz_state u w3)) = false
  /\ QUIZ_STATE_get w3 (row_qid row) = Some (correct_letter row (options_list row))
  /\ current_qid (get_user_quiz_state u w3) = row_qid row.
Proof.
  intros Hid Htr w3. subst w3.
  set (st3 := set_last_played_at (set_current_qid st (row_qid row))
                (isoformat_seconds now)).
  assert (Hu3 : user_id st3 = u) by exact Hid.
  rewrite <- Hu3. rewrite !get_set_same.
  split; [exact Htr|]. split; [|reflexivity].
  unfold QUIZ_STATE_get.
  cbn [QUIZ_STATE set_user_quiz_state with_quiz_users with_QUIZ_STATE].
  apply lookup_insert_eq.
Qed.

(** X25.  The attempt of a user who holds no award and has no lock still
    running (no lock, a lock that has passed, or a lock text that cannot be
    read) is never refused.  It ends in one of three ways: the bank is
    empty and the user is told so; or, after one notice for each drawn row
    without options, a row of the bank that has options is sent as the
    question, with its correct letter registered under its id and the id
    saved as the user's current question; or every nested call drew a row
    without options and the interpreter's limit ends the attempt with an
    exception.  The user's lock is then empty. *)
Theorem eligible_user_gets_a_question
    (depth : nat) (now : datetime) (w : World) (m : Message) :
  let u := uid (from_user m) in
  awarded (get_user_quiz_state u w) <> 1 ->
  (forall t, locked_until_iso (get_user_quiz_state u w) = IsoOf t ->
             dt_ltb now t = false) ->
  let r := start_quiz_for_user QUIZ depth now w m in
  let w' := snd (fst r) in
  iso_truthy (locked_until_iso (get_user_quiz_state u w')) = false
  /\ ((QUIZ = [] /\ fst (fst r) = Returned /\ snd r = [SayNoQuestions])
      \/ (fst (fst r) = Raised /\ snd r = repeat SayNoOptions (S depth))
      \/ exists (k : nat) (row : QuizRow),
           (k <= depth)%nat /\ In row QUIZ /\ options_list row <> []
           /\ fst (fst r) = Returned
           /\ snd r = repeat SayNoOptions k
                      ++ [SayQuestion (row_text row)
                            (buttons_of (row_qid row) (options_list row))]
           /\ QUIZ_STATE_get w' (row_qid row)
              = Some (correct_letter row (options_list row))
           /\ current_qid (get_user_quiz_state u w') = row_qid row).
Proof.
  intros u. revert w.
  induction depth as [|depth IH]; intros w Haw Hlock r w'; subst w' r.
  all: cbn [start_quiz_for_user]; fold u.
  all: destruct (awarded (get_user_quiz_state u w) =? 1) eqn:Ea;
    [apply Z.eqb_eq in Ea; congruence|].
  all: destruct (check_lock now (get_user_quiz_state u w) w) as [until|[st' w1]] eqn:Ec.
  all: try (exfalso; unfold check_lock in Ec;
            destruct (locked_until_iso (get_user_quiz_state u w)) as [|t|] eqn:El;
            simpl in Ec; try discriminate Ec;
            rewrite (Hlock t eq_refl) in Ec; discriminate Ec).
  all: pose proof (check_lock_quiet now w u st' w1 Ec) as (Hq & Hget & Hid).
  all: assert (Htr : iso_truthy (locked_until_iso st') = false).
  all: try (unfold check_lock in Ec;
            destruct (locked_until_iso (get_user_quiz_state u w)) as [|t|] eqn:El;
            simpl in Ec;
            [ injection Ec as <- <-; rewrite El; reflexivity
            | destruct (dt_ltb now t); [discriminate Ec|];
              injection Ec as <- <-; reflexivity
            | injection Ec as <- <-; reflexivity ]).
  all: unfold pick_quiz_question.
  all: destruct (quiz_pool QUIZ) as [|r0 pool] eqn:E.
  all: try (cbn [fst snd]; rewrite Hget; split; [exact Htr|]; left;
            split; [|split; reflexivity];
            destruct QUIZ as [|q0 qs] eqn:EQ; [reflexivity|];
            exfalso; assert (Hne : q0 :: qs <> []) by discriminate;
            rewrite <- EQ in Hne; destruct (quiz_pool_spec Hne) as (Hp & _);
            rewrite EQ in Hp; congruence).
  all: assert (Hne : QUIZ <> []) by (intros ->; discriminate E).
  all: destruct (quiz_pool_spec Hne) as (_ & Hincl & _); rewrite E in Hincl.
  all: unfold draw.
  all: set (i := Z.to_nat (tape w1 (cursor w1) mod Z.of_nat (List.length (r0 :: pool)))).
  all: assert (Hi : (i < List.length (r0 :: pool))%nat)
    by (subst i;
        pose proof (Z.mod_pos_bound (tape w1 (cursor w1))
                      (Z.of_nat (List.length (r0 :: pool)))) as Hb;
        simpl List.length in *; lia).
  all: pose proof (nth_In (r0 :: pool) r0 Hi) as Hin; apply Hincl in Hin.
  all: set (row := nth i (r0 :: pool) r0) in *.
  all: set (w2 := mkWorld (quiz_users w1) (coupons w1) (bookings w1) (QUIZ_STATE w1)
                    (BOOK_STATE w1) (tape w1) (S (cursor w1))).
  all: assert (Hg : get_user_quiz_state u w2 = st') by (rewrite <- Hget; reflexivity).
  all: pose proof (question_registered now u st' w2 row Hid Htr) as Hquestion.
  all: destruct (options_list row) as [|o opts] eqn:Eo.
  all: try (cbv zeta in Hquestion;
            destruct Hquestion as (Q1 & Q2 & Q3);
            cbn [fst snd]; split; [exact Q1|]; right; right;
            exists 0%nat, row; rewrite Eo;
            repeat split; try assumption; try lia; discriminate).
  - cbn [fst snd]. rewrite Hg. split; [exact Htr|]. right; left. split; reflexivity.
  - assert (Haw2 : awarded (get_user_quiz_state u w2) <> 1).
    { rewrite Hg, <- Hget, (quiet_awarded _ _ Hq). exact Haw. }
    assert (Hlock2 : forall t, locked_until_iso (get_user_quiz_state u w2) = IsoOf t ->
                               dt_ltb now t = false).
    { intros t Ht. rewrite Hg in Ht. rewrite Ht in Htr. discriminate Htr. }
    specialize (IH w2 Haw2 Hlock2). cbv zeta in IH.
    destruct (start_quiz_for_user QUIZ depth now w2 m) as [[e w3] out].
    cbn [fst snd] in *. destruct IH as (I1 & I2). split; [exact I1|].
    destruct I2 as [(HQ & _)|[(-> & ->)|(k & row' & Hk & Hr & Ho & -> & -> & Hs & Hc)]].
    + congruence.
    + right; left. split; reflexivity.
    + right; right. exists (S k), row'.
      repeat split; try assumption; lia.
Qed.

End QuizFacts.

(** * What the handlers keep *)

Section QuizRuns.

Variable QUIZ : list QuizRow.
Variable ADMIN_CHAT_ID : text.
Variable RECURSION_LIMIT : nat.

Lemma get_same_table (u : Z) (w w' : World) :
  quiz_users w' = quiz_users w ->
  get_user_quiz_state u w' = get_user_quiz_state u w.
Proof. intros H. unfold get_user_quiz_state. rewrite H. reflexivity. Qed.

Lemma set_keeps_ids (st : QuizUserState) (l : list QuizUserState) :
  map user_id (map (fun r => if user_id r =? user_id st then st else r) l)
  = map user_id l.
Proof.
  induction l as [|r l IH]; simpl; [reflexivity|].
  rewrite IH. destruct (Z.eqb_spec (user_id r) (user_id st)) as [E|E];
    [rewrite E|]; reflexivity.
Qed.

Lemma existsb_user_id (u : Z) (l : list QuizUserState) :
  existsb (fun r => user_id r =? u) l = true <-> In u (map user_id l).
Proof.
  rewrite existsb_exists, in_map_iff. split.
  - intros (r & Hr & E). apply Z.eqb_eq in E. exists r. auto.
  - intros (r & E & Hr). exists r. split; [exact Hr | apply Z.eqb_eq; exact E].
Qed.

(** X11.  [set_user_quiz_state] then [get_user_quiz_state] of the same
    user reads back the streak, the award flag, the current question id and
    the saved timestamps; the state of every other user is what it was; and
    the table gets a new row only for a user who has none, so a table with
    one row per user keeps one row per user. *)
Theorem quiz_state_set_then_get (st : QuizUserState) (w : World) :
  let w' := set_user_quiz_state st w in
  let st' := get_user_quiz_state (user_id st) w' in
  (user_id st' = user_id st /\ streak st' = streak st /\ awarded st' = awarded st
   /\ current_qid st' = current_qid st
   /\ (forall t, locked_until_iso st = IsoOf t -> locked_until_iso st' = IsoOf t)
   /\ (forall t, last_played_at st = IsoOf t -> last_played_at st' = IsoOf t))
  /\ (forall u, u <> user_id st ->
        get_user_quiz_state u w' = get_user_quiz_state u w)
  /\ (In (user_id st) (map user_id (quiz_users w)) ->
      map user_id (quiz_users w') = map user_id (quiz_users w))
  /\ (~ In (user_id st) (map user_id (quiz_users w)) ->
      quiz_users w' = quiz_users w ++ [st])
  /\ (NoDup (map user_id (quiz_users w)) -> NoDup (map user_id (quiz_users w'))).
Proof.
  intros w' st'. subst st' w'. rewrite get_set_same.
  split; [repeat split; auto|].
  split; [intros u Hu; apply get_set_other; exact Hu|].
  unfold set_user_quiz_state. cbn [quiz_users with_quiz_users].
  destruct (existsb (fun r => user_id r =? user_id st) (quiz_users w)) eqn:E.
  - apply existsb_user_id in E. rewrite set_keeps_ids.
    split; [reflexivity|]. split; [tauto | tauto].
  - assert (Hn : ~ In (user_id st) (map user_id (quiz_users w))).
    { intros H. apply existsb_user_id in H. congruence. }
    split; [tauto|]. split; [reflexivity|].
    intros Hnd. rewrite map_app. simpl.
    apply NoDup_app.
    + exact Hnd.
    + constructor; [intros [] | constructor].
    + intros x Hx [<-|[]]. exact (Hn Hx).
Qed.

(** A ledger row as it is read back when the code column is numeric. *)
Definition code_reread (r : Coupon) : Coupon :=
  with_code r (str_of_Z (int_of (code r))).

(** The coupons of [u] in [w'] are those in [w], as they were or read
    back. *)
Definition same_coupons (u : Z) (w w' : World) : Prop :=
  coupons_of u w' = coupons_of u w
  \/ coupons_of u w' = map code_reread (coupons_of u w).

Lemma filter_reread (u : Z) (rows : list Coupon) :
  filter (fun c => coupon_user_id c =? u) (reread_coupons rows)
  = filter (fun c => coupon_user_id c =? u) rows
  \/ filter (fun c => coupon_user_id c =? u) (reread_coupons rows)
     = map code_reread (filter (fun c => coupon_user_id c =? u) rows).
Proof.
  unfold reread_coupons.
  destruct (forallb (fun r => is_digits (code r)) rows); [right | left; reflexivity].
  induction rows as [|r rows IH]; [reflexivity|].
  cbn [map filter with_code coupon_user_id].
  destruct (coupon_user_id r =? u); [cbn [map]; f_equal|]; exact IH.
Qed.

(** What one quiz answer of user [v] may change. *)
Record quiz_step (v : Z) (w w' : World) : Prop := mkQuizStep {
  step_bookings : bookings w' = bookings w;
  step_drafts : BOOK_STATE w' = BOOK_STATE w;
  step_others : forall u, u <> v ->
    awarded (get_user_quiz_state u w') = awarded (get_user_quiz_state u w)
    /\ streak (get_user_quiz_state u w') = streak (get_user_quiz_state u w)
    /\ same_coupons u w w';
  step_streak :
    streak (get_user_quiz_state v w') = streak (get_user_quiz_state v w)
    \/ streak (get_user_quiz_state v w') = 0
    \/ (streak (get_user_quiz_state v w') = streak (get_user_quiz_state v w) + 1
        /\ streak (get_user_quiz_state v w) + 1 < 3);
  step_award :
    (awarded (get_user_quiz_state v w') = awarded (get_user_quiz_state v w)
     /\ coupons w' = coupons w)
    \/ (awarded (get_user_quiz_state v w) = 0
        /\ awarded (get_user_quiz_state v w') = 1
        /\ exists c, coupons w' = reread_coupons (coupons w) ++ [c]
                     /\ coupon_user_id c = v)
}.

Lemma coupons_of_same (u : Z) (w w' : World) :
  coupons w' = coupons w -> coupons_of u w' = coupons_of u w.
Proof. intros H. unfold coupons_of. rewrite H. reflexivity. Qed.

Lemma quiet_step (v : Z) (w w' : World) : quiet w w' -> quiz_step v w w'.
Proof.
  intros [Hc Hb Hd Ha Hs _]. constructor; auto.
  intros u _. repeat split; auto. left. apply coupons_of_same; exact Hc.
Qed.

Lemma step_then_quiet (v : Z) (w w1 w2 : World) :
  quiz_step v w w1 -> quiet w1 w2 -> quiz_step v w w2.
Proof.
  intros [Hb Hd Ho Hs Ha] [Hc' Hb' Hd' Ha' Hs' _]. constructor.
  - congruence.
  - congruence.
  - intros u Hu. destruct (Ho u Hu) as (H1 & H2 & H3).
    rewrite Ha', Hs'. unfold same_coupons in *.
    rewrite (coupons_of_same u w1 w2 Hc'). auto.
  - rewrite Hs'. exact Hs.
  - rewrite Ha', Hc'. exact Ha.
Qed.

Lemma step_set (v : Z) (st : QuizUserState) (w : World) :
  user_id st = v ->
  awarded st = awarded (get_user_quiz_state v w) ->
  (streak st = streak (get_user_quiz_state v w)
   \/ streak st = 0
   \/ (streak st = streak (get_user_quiz_state v w) + 1
       /\ streak (get_user_quiz_state v w) + 1 < 3)) ->
  quiz_step v w (set_user_quiz_state st w).
Proof.
  intros <- Ha Hs. constructor; try reflexivity.
  - intros u Hu. rewrite (get_set_other st u w Hu).
    repeat split. left. reflexivity.
  - rewrite get_set_same. exact Hs.
  - left. rewrite get_set_same. auto.
Qed.

Lemma step_trans_same (v : Z) (w w1 w2 : World) :
  quiz_step v w w1 ->
  bookings w2 = bookings w1 -> BOOK_STATE w2 = BOOK_STATE w1 ->
  coupons w2 = coupons w1 ->
  (forall u, u <> v -> get_user_quiz_state u w2 = get_user_quiz_state u w1) ->
  awarded (get_user_quiz_state v w2) = awarded (get_user_quiz_state v w1) ->
  streak (get_user_quiz_state v w2) = 0 ->
  quiz_step v w w2.
Proof.
  intros [Hb Hd Ho Hs Ha] Hb2 Hd2 Hc2 Ho2 Ha2 Hs2. constructor.
  - congruence.
  - congruence.
  - intros u Hu. rewrite (Ho2 u Hu). unfold same_coupons in *.
    rewrite (coupons_of_same u w1 w2 Hc2). auto.
  - right; left. exact Hs2.
  - rewrite Ha2, Hc2. exact Ha.
Qed.

(** The effect of [cb_quiz_answer] on the tables. *)
Lemma answer_step (now : datetime) (w : World) (call : CallbackQuery) :
  quiz_step (uid (call_from_user call)) w
    (fst (cb_quiz_answer QUIZ ADMIN_CHAT_ID RECURSION_LIMIT now w call)).
Proof.
  set (v := uid (call_from_user call)).
  destruct (call_data call) as [[qid opt]|] eqn:Hd.
  2:{ unfold cb_quiz_answer. rewrite Hd. apply quiet_step, quiet_refl. }
  destruct (Z.eq_dec (awarded (get_user_quiz_state v w)) 1) as [Ha|Ha].
  { rewrite (answer_awarded QUIZ ADMIN_CHAT_ID RECURSION_LIMIT now w call qid opt Hd Ha).
    apply quiet_step, quiet_refl. }
  destruct (answer_cases w qid) as [Hst|[correct Hl]].
  { apply quiet_step.
    exact (proj2 (proj2 (stale_answer_restarts QUIZ ADMIN_CHAT_ID RECURSION_LIMIT
                           now w call qid opt Hd Ha Hst))). }
  pose proof (get_user_id v w) as Hid.
  destruct (text_eqb opt correct) eqn:Eo.
  2:{ assert (Hne : opt <> correct)
        by (intros ->; rewrite text_eqb_refl in Eo; discriminate).
      rewrite (answer_incorrect QUIZ ADMIN_CHAT_ID RECURSION_LIMIT now w call
                 qid opt correct Hd Ha Hl Hne).
      cbn [fst]. fold v.
      eapply step_then_quiet; [|apply quiet_with_QUIZ_STATE].
      apply step_set; [exact Hid | reflexivity | right; left; reflexivity]. }
  apply text_eqb_eq in Eo. subst opt.
  destruct (Z_lt_ge_dec (streak (get_user_quiz_state v w) + 1) 3) as [Hlt|Hge].
  { pose proof (answer_correct_chain QUIZ ADMIN_CHAT_ID RECURSION_LIMIT now w call
                  qid correct Hd Ha Hl Hlt) as E.
    cbv zeta in E. fold v in E. rewrite E. clear E.
    pose proof (start_quiet QUIZ RECURSION_LIMIT now
                  (set_user_quiz_state (after_hit (get_user_quiz_state v w)) w)
                  (call_message call)) as Hq.
    destruct (start_quiz_for_user QUIZ RECURSION_LIMIT now
                (set_user_quiz_state (after_hit (get_user_quiz_state v w)) w)
                (call_message call)) as [[e w1] out].
    cbn [fst snd] in Hq.
    assert (Hs : quiz_step v w w1).
    { eapply step_then_quiet; [|exact Hq].
      apply step_set;
        [exact Hid | reflexivity | right; right; split; [reflexivity | exact Hlt]]. }
    destruct e; cbn [fst]; [|exact Hs].
    eapply step_then_quiet; [exact Hs | apply quiet_with_QUIZ_STATE]. }
  assert (H3 : 3 <= streak (get_user_quiz_state (uid (call_from_user call)) w) + 1)
    by (fold v; lia).
  destruct (Z.eq_dec (awarded (get_user_quiz_state v w)) 0) as [H0|H0].
  - pose proof (answer_award QUIZ ADMIN_CHAT_ID RECURSION_LIMIT now w call
                  qid correct Hd H0 Hl H3) as E.
    cbv zeta in E. fold v in E. rewrite E. clear E. cbn [fst].
    set (st := after_hit (get_user_quiz_state v w)).
    pose proof (issue_coupon_spec now (call_from_user call)
                  (set_user_quiz_state st w)) as Hi.
    cbv zeta in Hi. destruct Hi as (Hc & Hu & Hb & _ & Hbs & _).
    set (w0 := snd (issue_coupon_to_user now (call_from_user call)
                      (set_user_quiz_state st w))) in *.
    assert (Hst : user_id st = v) by exact Hid.
    assert (Hst1 : user_id (set_awarded st 1) = v) by exact Hid.
    assert (Hst2 : user_id (set_streak (set_awarded st 1) 0) = v) by exact Hid.
    constructor.
    + cbn. exact Hb.
    + cbn. exact Hbs.
    + intros u Hne.
      assert (Hg : get_user_quiz_state u
                     (with_QUIZ_STATE
                        (set_user_quiz_state (set_streak (set_awarded st 1) 0)
                           (set_user_quiz_state (set_awarded st 1) w0))
                        (delete qid
                           (QUIZ_STATE
                              (set_user_quiz_state (set_streak (set_awarded st 1) 0)
                                 (set_user_quiz_state (set_awarded st 1) w0)))))
                   = get_user_quiz_state u w).
      { change (get_user_quiz_state u
                  (set_user_quiz_state (set_streak (set_awarded st 1) 0)
                     (set_user_quiz_state (set_awarded st 1) w0))
                = get_user_quiz_state u w).
        rewrite get_set_other by (rewrite Hst2; exact Hne).
        rewrite get_set_other by (rewrite Hst1; exact Hne).
        rewrite (get_same_table u (set_user_quiz_state st w) w0 Hu).
        apply get_set_other. rewrite Hst. exact Hne. }
      rewrite Hg. split; [reflexivity|]. split; [reflexivity|].
      unfold same_coupons, coupons_of.
      cbn [coupons with_QUIZ_STATE set_user_quiz_state with_quiz_users].
      rewrite Hc. cbn [coupons set_user_quiz_state with_quiz_users].
      rewrite filter_app. cbn [filter coupon_user_id]. fold v.
      destruct (Z.eqb_spec v u) as [->|_]; [congruence|]. rewrite app_nil_r.
      apply filter_reread.
    + right; left.
      change (streak (get_user_quiz_state v
                        (set_user_quiz_state (set_streak (set_awarded st 1) 0)
                           (set_user_quiz_state (set_awarded st 1) w0))) = 0).
      rewrite <- Hst2 at 1. rewrite get_set_same. reflexivity.
    + right. split; [exact H0|]. split.
      * change (awarded (get_user_quiz_state v
                           (set_user_quiz_state (set_streak (set_awarded st 1) 0)
                              (set_user_quiz_state (set_awarded st 1) w0))) = 1).
        rewrite <- Hst2 at 1. rewrite get_set_same. reflexivity.
      * eexists. split; [exact Hc | reflexivity].
  - pose proof (answer_prize_again QUIZ ADMIN_CHAT_ID RECURSION_LIMIT now w call
                  qid correct Hd Ha H0 Hl H3) as E.
    cbv zeta in E. fold v in E. rewrite E. clear E. cbn [fst].
    set (st := after_hit (get_user_quiz_state v w)).
    assert (Hst : user_id st = v) by exact Hid.
    assert (Hst2 : user_id (set_streak st 0) = v) by exact Hid.
    eapply step_then_quiet; [|apply quiet_with_QUIZ_STATE].
    apply (step_trans_same v w w (set_user_quiz_state (set_streak st 0)
                                    (set_user_quiz_state st w)));
      try reflexivity.
    + apply quiet_step, quiet_refl.
    + intros u Hne.
      rewrite get_set_other by (rewrite Hst2; exact Hne).
      apply get_set_other. rewrite Hst. exact Hne.
    + rewrite <- Hst2 at 1. rewrite get_set_same. reflexivity.
    + rewrite <- Hst2 at 1. rewrite get_set_same. reflexivity.
Qed.

(** What a message or the quiz button keeps of the quiz tables. *)
Definition quiz_kept (w w' : World) : Prop :=
  coupons w' = coupons w
  /\ forall u,
       awarded (get_user_quiz_state u w') = awarded (get_user_quiz_state u w)
       /\ streak (get_user_quiz_state u w') = streak (get_user_quiz_state u w).

Lemma quiet_kept (w w' : World) : quiet w w' -> quiz_kept w w'.
Proof. intros [Hc _ _ Ha Hs _]. split; [exact Hc | intros u; auto]. Qed.

Lemma router_kept (now : datetime) (w : World) (m : Message) :
  quiz_kept w
    (snd (fst (universal_router QUIZ ADMIN_CHAT_ID RECURSION_LIMIT now w m))).
Proof.
  pose proof (router_after_intent QUIZ ADMIN_CHAT_ID RECURSION_LIMIT now w m) as H.
  cbv zeta in H. destruct H as [Hu Hc].
  destruct (quiet_kept _ _
              (intent_reply_quiet QUIZ RECURSION_LIMIT now w m
                 (detect_intent (message_text m)
                    (in_flow (BOOK_STATE w !! uid (from_user m)))))) as [Hc1 H1].
  split; [congruence|].
  intros u. rewrite (get_same_table u _ _ Hu). apply H1.
Qed.

(** Every user has at most one coupon, and only with the award flag set. *)
Definition ledger_ok (w : World) : Prop :=
  forall u,
    coupons_of u w = []
    \/ (awarded (get_user_quiz_state u w) = 1 /\ exists c, coupons_of u w = [c]).

Definition streaks_ok (w : World) : Prop :=
  forall u, 0 <= streak (get_user_quiz_state u w) <= 2.

Lemma kept_ledger (w w' : World) : quiz_kept w w' -> ledger_ok w -> ledger_ok w'.
Proof.
  intros [Hc H] Hok u. destruct (H u) as [Ha _].
  rewrite Ha, (coupons_of_same u w w' Hc). apply Hok.
Qed.

Lemma kept_streaks (w w' : World) : quiz_kept w w' -> streaks_ok w -> streaks_ok w'.
Proof. intros [_ H] Hok u. destruct (H u) as [_ Hs]. rewrite Hs. apply Hok. Qed.

Lemma step_ledger (v : Z) (w w' : World) :
  quiz_step v w w' -> ledger_ok w -> ledger_ok w'.
Proof.
  intros [_ _ Ho _ Ha] Hok u.
  destruct (Z.eq_dec u v) as [->|Hne].
  - destruct Ha as [[Ha Hc]|(H0 & H1 & c & Hc & Hv)].
    + rewrite Ha, (coupons_of_same v w w' Hc). apply Hok.
    + right. split; [exact H1|]. exists c.
      destruct (Hok v) as [He|[Ha1 _]]; [|lia].
      unfold coupons_of in *. rewrite Hc, filter_app.
      destruct (filter_reread v (coupons w)) as [-> | ->]; rewrite He; simpl;
        rewrite Hv, Z.eqb_refl; reflexivity.
  - destruct (Ho u Hne) as (H1 & _ & [H3|H3]); rewrite H1, H3; [apply Hok|].
    destruct (Hok u) as [He|[Ha1 [c He]]]; rewrite He; simpl; eauto.
Qed.

Lemma step_streaks (v : Z) (w w' : World) :
  quiz_step v w w' -> streaks_ok w -> streaks_ok w'.
Proof.
  intros [_ _ Ho Hs _] Hok u.
  destruct (Z.eq_dec u v) as [->|Hne].
  - specialize (Hok v). lia.
  - destruct (Ho u Hne) as (_ & H2 & _). rewrite H2. apply Hok.
Qed.

Lemma handle_cases (w : World) (e : event) :
  quiz_kept w (fst (handle QUIZ ADMIN_CHAT_ID RECURSION_LIMIT w e))
  \/ exists v, quiz_step v w (fst (handle QUIZ ADMIN_CHAT_ID RECURSION_LIMIT w e)).
Proof.
  destruct e as [now m|now c|now c]; cbn [handle].
  - left. pose proof (router_kept now w m) as H.
    destruct (universal_router QUIZ ADMIN_CHAT_ID RECURSION_LIMIT now w m) as [[e w'] out].
    exact H.
  - left. pose proof (cb_quiz_quiet QUIZ RECURSION_LIMIT now w c) as H.
    destruct (cb_quiz QUIZ RECURSION_LIMIT now w c) as [[e w'] out].
    apply quiet_kept. exact H.
  - right. eexists. apply answer_step.
Qed.

(** X12.  If every user has at most one coupon, and only users with the
    award flag have one, then this is so after any run of messages, quiz
    button presses and quiz answers: starting from an empty ledger no user
    ever holds two coupons. *)
Theorem at_most_one_coupon_per_user (evs : list event) (w : World) :
  ledger_ok w -> ledger_ok (run QUIZ ADMIN_CHAT_ID RECURSION_LIMIT evs w).
Proof.
  revert w. induction evs as [|e evs IH]; intros w Hok; [exact Hok|].
  cbn [run]. apply IH.
  destruct (handle_cases w e) as [H|[v H]].
  - exact (kept_ledger _ _ H Hok).
  - exact (step_ledger _ _ _ H Hok).
Qed.

(** X13.  If the saved streak of every user is 0, 1 or 2, it is so after
    any run of messages, quiz button presses and quiz answers: the third
    correct answer in a row resets the streak it completes. *)
Theorem streak_stays_below_three (evs : list event) (w : World) :
  streaks_ok w -> streaks_ok (run QUIZ ADMIN_CHAT_ID RECURSION_LIMIT evs w).
Proof.
  revert w. induction evs as [|e evs IH]; intros w Hok; [exact Hok|].
  cbn [run]. apply IH.
  destruct (handle_cases w e) as [H|[v H]].
  - exact (kept_streaks _ _ H Hok).
  - exact (step_streaks _ _ _ H Hok).
Qed.

(** X14.  A quiz answer never changes the bookings or any booking draft,
    and of the users other than the one who answered it changes neither
    the streak, nor the award flag, nor the number of coupons the ledger
    holds for them. *)
Theorem quiz_answer_touches_only_the_player
    (now : datetime) (w : World) (call : CallbackQuery) :
  let w' := fst (cb_quiz_answer QUIZ ADMIN_CHAT_ID RECURSION_LIMIT now w call) in
  bookings w' = bookings w
  /\ BOOK_STATE w' = BOOK_STATE w
  /\ forall u, u <> uid (call_from_user call) ->
       awarded (get_user_quiz_state u w') = awarded (get_user_quiz_state u w)
       /\ streak (get_user_quiz_state u w') = streak (get_user_quiz_state u w)
       /\ List.length (coupons_of u w') = List.length (coupons_of u w).
Proof.
  intros w'. destruct (answer_step now w call) as [Hb Hd Ho _ _].
  split; [exact Hb|]. split; [exact Hd|].
  intros u Hu. destruct (Ho u Hu) as (H1 & H2 & H3).
  split; [exact H1|]. split; [exact H2|].
  subst w'. destruct H3 as [-> | ->]; [reflexivity | apply length_map].
Qed.

End QuizRuns.

(** * Further properties of the booking dialogue *)

Section BookingFacts.

Variable QUIZ : list QuizRow.
Variable ADMIN_CHAT_ID : text.
Variable RECURSION_LIMIT : nat.

Lemma fold_max_ge (l : list Z) (a : Z) :
  a <= fold_left Z.max l a /\ Forall (fun x => x <= fold_left Z.max l a) l.
Proof.
  revert a. induction l as [|x l IH]; intros a; simpl.
  - split; [lia | constructor].
  - destruct (IH (Z.max a x)) as [H1 H2]. split; [lia|].
    constructor; [lia | exact H2].
Qed.

Lemma next_booking_id_above (df : list Booking) :
  Forall (fun b => booking_id b < next_booking_id df) df.
Proof.
  destruct df as [|b df]; [constructor|].
  unfold next_booking_id.
  destruct (fold_max_ge (map booking_id df) (booking_id b)) as [H1 H2].
  constructor; [lia|].
  rewrite Forall_forall in *. intros x Hx.
  specialize (H2 (booking_id x) (in_map booking_id df x Hx)). cbv beta in H2. lia.
Qed.

Lemma next_booking_id_unused (df : list Booking) :
  ~ In (next_booking_id df) (map booking_id df).
Proof.
  intros Hin. apply in_map_iff in Hin as (b & Hb & Hin).
  pose proof (next_booking_id_above df) as H.
  rewrite Forall_forall in H. specialize (H b Hin). cbv beta in H. lia.
Qed.

(** X15.  [next_booking_id] is 1 on an empty table and otherwise greater
    than the id of every row of the table, so it is the id of no row. *)
Theorem next_booking_id_is_fresh (df : list Booking) :
  (df = [] -> next_booking_id df = 1)
  /\ Forall (fun b => booking_id b < next_booking_id df) df
  /\ ~ In (next_booking_id df) (map booking_id df).
Proof.
  split; [intros ->; reflexivity|].
  split; [apply next_booking_id_above | apply next_booking_id_unused].
Qed.

(** What [finalize_booking] leaves alone. *)
Lemma finalize_frame (now : datetime) (w : World) (m : Message) (st : Draft) :
  let w' := fst (finalize_booking ADMIN_CHAT_ID now w m st) in
  quiz_users w' = quiz_users w /\ coupons w' = coupons w
  /\ QUIZ_STATE w' = QUIZ_STATE w /\ cursor w' = cursor w /\ tape w' = tape w
  /\ forall u', u' <> uid (from_user m) -> BOOK_STATE w' !! u' = BOOK_STATE w !! u'.
Proof.
  destruct (finalize_spec ADMIN_CHAT_ID now w m st) as [Hf Ht].
  destruct (recheck st) eqn:Er.
  - clear Hf. specialize (Ht eq_refl). cbv zeta in Ht. destruct Ht as (Hb & _ & _).
    cbv zeta. revert Hb. unfold finalize_booking.
    destruct (draft_date st) as [d|]; [|intros; repeat split; reflexivity].
    destruct (match draft_time st with Some t => t | None => _ end) as [|t0 ts];
      [intros; repeat split; reflexivity|].
    destruct (match guests_max st with Some g => Some g | None => _ end) as [g|];
      [|intros; repeat split; reflexivity].
    destruct (strip (or_empty (draft_phone st))) as [|p0 ps];
      [intros; repeat split; reflexivity|].
    destruct (g =? 0); [intros; repeat split; reflexivity|].
    cbn [fst]. intros Hb. repeat split; try reflexivity.
    intros u' Hu. cbn. apply lookup_delete_ne. congruence.
  - rewrite (Hf eq_refl). cbn. repeat split; reflexivity.
Qed.

Lemma recheck_row (now : datetime) (w : World) (m : Message) (st : Draft) :
  recheck st = true ->
  let row := booking_row now w m st in
  booking_status row = StatusNew
  /\ tg_user_id row = uid (from_user m)
  /\ booking_guests row <> 0
  /\ booking_phone row <> []
  /\ booking_id row = next_booking_id (bookings w).
Proof.
  unfold recheck. intros H.
  repeat (apply andb_true_iff in H as [H ?]).
  cbv zeta. unfold booking_row. cbn.
  repeat split.
  - destruct (match guests_max st with Some g => Some g | None => _ end) as [g|];
      [|discriminate].
    simpl in *. intros ->. discriminate.
  - destruct (strip (or_empty (draft_phone st))); [discriminate | discriminate].
Qed.

(** What [universal_router] does to the tables: the effect of the reply to
    the intent, then at most the user's draft and one new row. *)
Lemma router_effect (now : datetime) (w : World) (m : Message) :
  let u := uid (from_user m) in
  let i := detect_intent (message_text m) (in_flow (BOOK_STATE w !! u)) in
  let w1 := snd (fst (intent_reply QUIZ RECURSION_LIMIT now w m i)) in
  let w' := snd (fst (universal_router QUIZ ADMIN_CHAT_ID RECURSION_LIMIT now w m)) in
  quiz_users w' = quiz_users w1 /\ coupons w' = coupons w1
  /\ QUIZ_STATE w' = QUIZ_STATE w1 /\ cursor w' = cursor w1
  /\ (forall u', u' <> u -> BOOK_STATE w' !! u' = BOOK_STATE w !! u')
  /\ (bookings w' = bookings w
      \/ exists row,
           bookings w' = bookings w ++ [row]
           /\ BOOK_STATE w' !! u = None
           /\ booking_status row = StatusNew
           /\ tg_user_id row = u
           /\ booking_guests row <> 0
           /\ booking_phone row <> []
           /\ booking_id row = next_booking_id (bookings w))
  /\ (BOOK_STATE w' !! u = BOOK_STATE w !! u
      \/ BOOK_STATE w' !! u = None
      \/ BOOK_STATE w' !! u = Some (turn_draft now (BOOK_STATE w !! u) m)).
Proof.
  intros u i w1 w'. subst w1 w'. unfold universal_router. fold u i.
  pose proof (intent_reply_quiet QUIZ RECURSION_LIMIT now w m i) as Hq.
  destruct (intent_reply QUIZ RECURSION_LIMIT now w m i) as [[e w1] out1].
  cbn [fst snd] in *.
  pose proof (quiet_bookings _ _ Hq) as Hb.
  pose proof (quiet_drafts _ _ Hq) as Hd.
  destruct e.
  2:{ cbn [fst snd]. repeat split; try reflexivity.
      - intros u' _. rewrite Hd. reflexivity.
      - left. exact Hb.
      - left. rewrite Hd. reflexivity. }
  destruct (enters_booking now (BOOK_STATE w !! u) i (message_text m)).
  2:{ destruct (negb (is_some i) && negb (in_flow (BOOK_STATE w !! u)));
        cbn [fst snd]; repeat split; try reflexivity;
        try (intros u' _; rewrite Hd; reflexivity);
        try (left; exact Hb);
        left; rewrite Hd; reflexivity. }
  set (st1 := turn_draft now (BOOK_STATE w !! u) m).
  set (w2 := with_BOOK_STATE w1 (<[u := st1]> (BOOK_STATE w1))).
  assert (Hl2 : BOOK_STATE w2 !! u = Some st1) by apply lookup_insert_eq.
  assert (Hn2 : forall u', u' <> u -> BOOK_STATE w2 !! u' = BOOK_STATE w !! u').
  { intros u' Hu. cbn. rewrite lookup_insert_ne by congruence. rewrite Hd. reflexivity. }
  destruct (missing_fields st1) as [|x miss].
  2:{ cbn [fst snd]. repeat split; try reflexivity.
      - exact Hn2.
      - left. exact Hb.
      - right; right. exact Hl2. }
  pose proof (finalize_frame now w2 m st1) as Hfr. cbv zeta in Hfr.
  destruct (finalize_spec ADMIN_CHAT_ID now w2 m st1) as [Hf Ht].
  destruct (recheck st1) eqn:Er.
  - specialize (Ht eq_refl). cbv zeta in Ht. destruct Ht as (H1 & H2 & _).
    destruct (recheck_row now w2 m st1 Er) as (R1 & R2 & R3 & R4 & R5).
    destruct (finalize_booking ADMIN_CHAT_ID now w2 m st1) as [w3 out3].
    cbn [fst snd] in *.
    destruct Hfr as (F1 & F2 & F3 & F4 & _ & F6).
    assert (Hnone : BOOK_STATE w3 !! u = None) by (rewrite H1; apply lookup_delete_eq).
    repeat split; try assumption.
    + intros u' Hu. rewrite (F6 u' Hu). exact (Hn2 u' Hu).
    + right. exists (booking_row now w2 m st1).
      change (bookings w2) with (bookings w1) in *. rewrite Hb in *.
      repeat split; assumption.
    + right; left. exact Hnone.
  - rewrite (Hf eq_refl). cbn [fst snd]. repeat split; try reflexivity.
    + exact Hn2.
    + left. exact Hb.
    + right; right. exact Hl2.
Qed.

(** X16.  A message never changes the booking draft of a user other than
    its sender and never the coupon ledger; unless its text is classified
    as a quiz request, it changes neither the quiz table nor the table of
    active questions, and draws no random number. *)
Theorem router_touches_only_the_sender (now : datetime) (w : World) (m : Message) :
  let u := uid (from_user m) in
  let w' := snd (fst (universal_router QUIZ ADMIN_CHAT_ID RECURSION_LIMIT now w m)) in
  (forall u', u' <> u -> BOOK_STATE w' !! u' = BOOK_STATE w !! u')
  /\ coupons w' = coupons w
  /\ (detect_intent (message_text m) (in_flow (BOOK_STATE w !! u)) <> Some Quiz ->
      quiz_users w' = quiz_users w /\ QUIZ_STATE w' = QUIZ_STATE w
      /\ cursor w' = cursor w).
Proof.
  intros u w'. subst w'.
  destruct (router_effect now w m) as (H1 & H2 & H3 & H4 & H5 & _). fold u in H1, H2, H3, H4, H5.
  pose proof (intent_reply_quiet QUIZ RECURSION_LIMIT now w m
                (detect_intent (message_text m) (in_flow (BOOK_STATE w !! u)))) as Hq.
  split; [exact H5|]. split; [rewrite H2; exact (quiet_coupons _ _ Hq)|].
  intros Hi. rewrite H1, H3, H4.
  destruct (detect_intent (message_text m) (in_flow (BOOK_STATE w !! u))) as [[]|];
    try congruence; repeat split; reflexivity.
Qed.

Lemma handle_bookings (w : World) (e : event) :
  let w' := fst (handle QUIZ ADMIN_CHAT_ID RECURSION_LIMIT w e) in
  bookings w' = bookings w
  \/ exists row,
       bookings w' = bookings w ++ [row]
       /\ booking_status row = StatusNew
       /\ booking_guests row <> 0
       /\ booking_phone row <> []
       /\ booking_id row = next_booking_id (bookings w).
Proof.
  destruct e as [now m|now c|now c]; cbn [handle].
  - destruct (router_effect now w m) as (_ & _ & _ & _ & _ & H & _).
    destruct (universal_router QUIZ ADMIN_CHAT_ID RECURSION_LIMIT now w m) as [[e w'] out].
    cbn [fst snd] in *. destruct H as [H|(row & H & _ & R1 & _ & R3 & R4 & R5)];
      [left; exact H | right; exists row; auto].
  - left. pose proof (cb_quiz_quiet QUIZ RECURSION_LIMIT now w c) as H.
    destruct (cb_quiz QUIZ RECURSION_LIMIT now w c) as [[e w'] out].
    exact (quiet_bookings _ _ H).
  - left. exact (step_bookings _ _ _ (answer_step QUIZ ADMIN_CHAT_ID RECURSION_LIMIT now w c)).
Qed.

(** The cells of a row that are read back from the file as they were
    written: the id, the owner, the guest count, the status and the two
    time stamps. *)
Definition kept_cells (b : Booking) : Z * Z * Z * status * iso_text * iso_text :=
  (booking_id b, tg_user_id b, booking_guests b, booking_status b,
   created_at b, updated_at b).

(** The rows a run adds, each with an id above those of all rows before
    it. *)
Lemma run_bookings (evs : list event) (w : World) :
  exists rows,
    bookings (run QUIZ ADMIN_CHAT_ID RECURSION_LIMIT evs w) = bookings w ++ rows
    /\ forall pre row post, rows = pre ++ row :: post ->
         booking_status row = StatusNew
         /\ booking_guests row <> 0
         /\ Forall (fun b => booking_id b < booking_id row) (bookings w ++ pre).
Proof.
  revert w. induction evs as [|e evs IH]; intros w; cbn [run].
  - exists []. split; [symmetry; apply app_nil_r|].
    intros [|x pre] row post H; discriminate H.
  - destruct (IH (fst (handle QUIZ ADMIN_CHAT_ID RECURSION_LIMIT w e)))
      as (rows & Hr & Hall).
    destruct (handle_bookings w e) as [H|(row & H & R1 & R3 & R4 & R5)];
      cbv zeta in H; rewrite H in *.
    + exists rows. auto.
    + pose proof (next_booking_id_above (bookings w)) as Hlt.
      rewrite <- R5 in Hlt.
      exists (row :: rows). split; [rewrite Hr, <- app_assoc; reflexivity|].
      intros [|x pre] row' post E; injection E as E1 E2.
      * subst row'. rewrite app_nil_r. auto.
      * subst x. destruct (Hall pre row' post E2) as (A1 & A2 & A3).
        rewrite <- app_assoc in A3. auto.
Qed.

Lemma ascending_ids_distinct (old rows : list Booking) :
  (forall pre row post, rows = pre ++ row :: post ->
     Forall (fun b => booking_id b < booking_id row) (old ++ pre)) ->
  NoDup (map booking_id old) -> NoDup (map booking_id (old ++ rows)).
Proof.
  revert old. induction rows as [|r rows IH]; intros old Hall Hnd.
  - rewrite app_nil_r. exact Hnd.
  - change (old ++ r :: rows) with (old ++ [r] ++ rows). rewrite app_assoc.
    apply IH.
    + intros pre row post E. rewrite <- app_assoc.
      apply (Hall (r :: pre) row post). rewrite E. reflexivity.
    + pose proof (Hall [] r rows eq_refl) as Hlt. rewrite app_nil_r in Hlt.
      rewrite map_app. apply NoDup_app.
      * exact Hnd.
      * constructor; [intros [] | constructor].
      * intros x Hx [<-|[]]. apply in_map_iff in Hx as (b & Hb & Hin).
        rewrite Forall_forall in Hlt. specialize (Hlt b Hin). lia.
Qed.

(** X17.  Over any run of messages, quiz button presses and quiz answers
    the bookings table only grows at its end: the rows it had stay in
    place with their id, owner, guest count, status and time stamps; every
    row added has the status new and a guest count other than 0, and its id
    is above the ids of all rows before it, the rows added earlier in the
    run included; so a table with pairwise distinct ids keeps them
    distinct. *)
Theorem bookings_only_grow (evs : list event) (w : World) :
  let w' := run QUIZ ADMIN_CHAT_ID RECURSION_LIMIT evs w in
  (exists rows,
      map kept_cells (bookings w') = map kept_cells (bookings w) ++ map kept_cells rows
      /\ forall pre row post, rows = pre ++ row :: post ->
           booking_status row = StatusNew
           /\ booking_guests row <> 0
           /\ Forall (fun b => booking_id b < booking_id row) (bookings w ++ pre))
  /\ (NoDup (map booking_id (bookings w)) -> NoDup (map booking_id (bookings w'))).
Proof.
  cbv zeta. destruct (run_bookings evs w) as (rows & Hr & Hall).
  split.
  - exists rows. split; [rewrite Hr; apply map_app | exact Hall].
  - intros Hnd. rewrite Hr. apply ascending_ids_distinct; [|exact Hnd].
    intros pre row post E. apply (Hall pre row post E).
Qed.

(** The fields of a draft that are present in another. *)
Definition keeps_fields (st st' : Draft) : bool :=
  implb (is_some (draft_date st)) (is_some (draft_date st'))
  && implb (is_some (draft_time st)) (is_some (draft_time st'))
  && implb (is_some (guests_min st)) (is_some (guests_min st'))
  && implb (is_some (guests_max st)) (is_some (guests_max st'))
  && implb (is_some (draft_phone st)) (is_some (draft_phone st'))
  && is_some (draft_name st').

Lemma merge_keeps_fields (st : Draft) d t gmin gmax phone name fallback :
  keeps_fields st (merge_draft st d t gmin gmax phone name fallback) = true.
Proof.
  assert (Ht : forall o : option text, truthy_text o = true -> is_some o = true)
    by (intros [[|]|]; try discriminate; reflexivity).
  unfold keeps_fields, merge_draft.
  cbn [draft_date draft_time guests_min guests_max draft_phone draft_name].
  repeat (apply andb_true_iff; split).
  - destruct d, (draft_date st); reflexivity.
  - destruct (truthy_text t) eqn:E.
    + rewrite (Ht t E). apply implb_true_r.
    + destruct (draft_time st); reflexivity.
  - destruct gmin, (guests_min st); reflexivity.
  - destruct gmax, (guests_max st); reflexivity.
  - destruct (truthy_text phone) eqn:E.
    + rewrite (Ht phone E). apply implb_true_r.
    + destruct (draft_phone st); reflexivity.
  - destruct (if truthy_text phone
              then if truthy_text name then name else None
              else None); [reflexivity|].
    destruct (draft_name st); reflexivity.
Qed.

(** X18.  The dialogue never forgets: after a message of a user who has a
    draft, either the booking has been recorded and the draft removed, or
    the user still has a draft, and it has every field the draft had
    before, and a name. *)
Theorem draft_is_kept_until_recorded
    (now : datetime) (w : World) (m : Message) (st : Draft) :
  let u := uid (from_user m) in
  let w' := snd (fst (universal_router QUIZ ADMIN_CHAT_ID RECURSION_LIMIT now w m)) in
  BOOK_STATE w !! u = Some st ->
  draft_truthy st = true ->
  (BOOK_STATE w' !! u = None
   /\ exists row, bookings w' = bookings w ++ [row] /\ tg_user_id row = u)
  \/ (bookings w' = bookings w
      /\ exists st', BOOK_STATE w' !! u = Some st'
                     /\ (st' = st \/ keeps_fields st st' = true)).
Proof.
  intros u w' Hst Htr. subst w'.
  destruct (router_effect now w m) as (_ & _ & _ & _ & _ & Hb & Hd).
  fold u in Hb, Hd. rewrite Hst in Hd.
  destruct Hb as [Hb|(row & Hb & Hn & _ & Hu & _)].
  - right. split; [exact Hb|].
    destruct Hd as [Hd|[Hd|Hd]].
    + exists st. split; [exact Hd | left; reflexivity].
    + exfalso. revert Hb Hd. unfold universal_router. fold u.
      rewrite Hst.
      pose proof (intent_reply_quiet QUIZ RECURSION_LIMIT now w m
                    (detect_intent (message_text m) (in_flow (Some st)))) as Hq.
      destruct (intent_reply QUIZ RECURSION_LIMIT now w m
                  (detect_intent (message_text m) (in_flow (Some st))))
        as [[e w1] out1]. cbn [fst snd] in Hq.
      pose proof (quiet_drafts _ _ Hq) as Hd1.
      pose proof (quiet_bookings _ _ Hq) as Hb1.
      destruct e; [|cbn; rewrite Hd1, Hst; discriminate].
      assert (He : enters_booking now (Some st)
                     (detect_intent (message_text m) (in_flow (Some st)))
                     (message_text m) = true).
      { unfold enters_booking.
        destruct (parse_booking_phrase now (message_text m)) as [[[d t] g1] g2].
        simpl in_flow. rewrite Htr. rewrite orb_true_r. reflexivity. }
      rewrite He.
      set (st1 := turn_draft now (Some st) m).
      set (w2 := with_BOOK_STATE w1 (<[u := st1]> (BOOK_STATE w1))).
      destruct (missing_fields st1).
      2:{ cbn [fst snd]. intros _. subst w2. cbn. rewrite lookup_insert_eq. discriminate. }
      destruct (finalize_spec ADMIN_CHAT_ID now w2 m st1) as [Hf Ht].
      destruct (recheck st1) eqn:Er.
      * specialize (Ht eq_refl). cbv zeta in Ht. destruct Ht as (_ & H2 & _).
        destruct (finalize_booking ADMIN_CHAT_ID now w2 m st1) as [w3 out3].
        cbn [fst snd] in *. rewrite H2. change (bookings w2) with (bookings w1).
        rewrite Hb1. intros Hx _.
        apply (f_equal (@List.length Booking)) in Hx.
        rewrite length_app in Hx. simpl in Hx. lia.
      * rewrite (Hf eq_refl). cbn [fst snd]. intros _. subst w2. cbn.
        rewrite lookup_insert_eq. discriminate.
    + exists (turn_draft now (Some st) m). split; [exact Hd|]. right.
      unfold turn_draft.
      destruct (parse_booking_phrase now (message_text m)) as [[[d t] g1] g2].
      simpl in_flow. rewrite Htr. cbn [default]. apply merge_keeps_fields.
  - left. split; [exact Hn|]. exists row. auto.
Qed.

End BookingFacts.

(** * Operator actions *)

Definition digit_value (a : Z) (s : text) : Z :=
  fold_left (fun acc c => 10 * acc + (Z.of_N c - 48)) s a.

Lemma digit_value_app (a : Z) (s t : text) :
  digit_value a (s ++ t) = digit_value (digit_value a s) t.
Proof. unfold digit_value. apply fold_left_app. Qed.

Lemma digit_char_value (d : Z) : 0 <= d -> Z.of_N (digit_char d) - 48 = d.
Proof. intros H. unfold digit_char. rewrite Z2N.id by lia. lia. Qed.

(** The digits [str(n)] writes, and what [int] reads from them. *)
Lemma dec_aux_spec (fuel : nat) (n : Z) (acc : text) :
  0 <= n -> (Z.to_nat n < fuel)%nat ->
  exists ds : text,
    dec_aux fuel n acc = ds ++ acc
    /\ ds <> [] /\ forallb isdigit ds = true
    /\ exists p : Z, 0 <= n < p /\ forall a, digit_value a ds = a * p + n.
Proof.
  revert n acc. induction fuel as [|fuel IH]; intros n acc Hn Hf; [lia|].
  cbn [dec_aux].
  assert (Hm : 0 <= n mod 10 < 10) by (apply Z.mod_pos_bound; lia).
  destruct (n <? 10) eqn:E.
  - apply Z.ltb_lt in E. exists [digit_char (n mod 10)].
    split; [reflexivity|]. split; [discriminate|].
    split; [simpl; rewrite digit_char_isdigit by lia; reflexivity|].
    exists 10. split; [lia|]. intros a. unfold digit_value. simpl.
    rewrite digit_char_value by lia. rewrite Z.mod_small by lia. lia.
  - apply Z.ltb_ge in E.
    assert (Hq : 0 <= n / 10 < n) by (split; [apply Z.div_pos; lia | apply Z.div_lt; lia]).
    destruct (IH (n / 10) (digit_char (n mod 10) :: acc)) as (ds & Hd & Hne & Hall & p & Hp & Hv);
      [lia | lia |].
    exists (ds ++ [digit_char (n mod 10)]).
    split; [rewrite Hd, <- app_assoc; reflexivity|].
    split; [destruct ds; discriminate|].
    split; [rewrite forallb_app, Hall; simpl; rewrite digit_char_isdigit by lia; reflexivity|].
    exists (10 * p). split.
    + pose proof (Z.div_mod n 10 ltac:(lia)). lia.
    + intros a. rewrite digit_value_app, Hv. unfold digit_value. simpl.
      rewrite digit_char_value by lia.
      pose proof (Z.div_mod n 10 ltac:(lia)). lia.
Qed.

Lemma str_of_Z_spec (n : Z) :
  0 <= n ->
  str_of_Z n <> [] /\ forallb isdigit (str_of_Z n) = true /\ int_of (str_of_Z n) = n.
Proof.
  intros Hn. unfold str_of_Z.
  destruct (dec_aux_spec (S (Z.to_nat n)) n [] Hn ltac:(lia))
    as (ds & Hd & Hne & Hall & p & _ & Hv).
  rewrite app_nil_r in Hd. rewrite Hd. split; [exact Hne|]. split; [exact Hall|].
  change (int_of ds) with (digit_value 0 ds). rewrite Hv. lia.
Qed.

Lemma digit_not_space (c : char) : isdigit c = true -> isspace c = false.
Proof.
  unfold isdigit, in_range. intros H. apply andb_true_iff in H as [H1 H2].
  apply N.leb_le in H1. apply N.leb_le in H2.
  destruct (isspace c) eqn:E; [|reflexivity]. exfalso.
  unfold isspace, in_range in E.
  repeat (apply orb_true_iff in E as [E|E]);
    try (apply andb_true_iff in E as [E1 E2];
         apply N.leb_le in E1; apply N.leb_le in E2; lia);
    apply N.eqb_eq in E; lia.
Qed.

Lemma lstrip_id (s : text) :
  forallb (fun c => negb (isspace c)) s = true -> lstrip s = s.
Proof.
  destruct s as [|c s]; [reflexivity|]. simpl. intros H.
  apply andb_true_iff in H as [H _]. destruct (isspace c); [discriminate | reflexivity].
Qed.

Lemma strip_id (s : text) :
  forallb (fun c => negb (isspace c)) s = true -> strip s = s.
Proof.
  intros H. unfold strip. rewrite (lstrip_id s H).
  rewrite lstrip_id; [apply rev_involutive|].
  rewrite forallb_forall in *. intros x Hx. apply H. apply in_rev. exact Hx.
Qed.

Lemma digits_no_space (s : text) :
  forallb isdigit s = true -> forallb (fun c => negb (isspace c)) s = true.
Proof.
  rewrite !forallb_forall. intros H x Hx. rewrite (digit_not_space x (H x Hx)). reflexivity.
Qed.

Lemma digits_us_digits (s : text) (b : bool) :
  s <> [] -> forallb isdigit s = true -> digits_us b s = true.
Proof.
  revert b. induction s as [|c s IH]; intros b Hne H; [congruence|].
  simpl in *. apply andb_true_iff in H as [Hc Hs]. rewrite Hc.
  destruct s as [|c' s]; [reflexivity|]. apply IH; [discriminate | exact Hs].
Qed.

Lemma digit_not_sign (c : char) :
  isdigit c = true -> (c =? 45)%N = false /\ (c =? 43)%N = false.
Proof.
  unfold isdigit, in_range. intros H. apply andb_true_iff in H as [H1 H2].
  apply N.leb_le in H1. apply N.leb_le in H2.
  split; apply N.eqb_neq; lia.
Qed.

(** [int(str(n))] is [n]. *)
Lemma int_text_str_of_Z (n : Z) : 0 <= n -> int_text (str_of_Z n) = Some n.
Proof.
  intros Hn. destruct (str_of_Z_spec n Hn) as (Hne & Hall & Hv).
  unfold int_text. rewrite (strip_id _ (digits_no_space _ Hall)).
  destruct (str_of_Z n) as [|c ds] eqn:E; [congruence|].
  pose proof Hall as Hall'. simpl in Hall'. apply andb_true_iff in Hall' as [Hc _].
  destruct (digit_not_sign c Hc) as [-> ->].
  rewrite (digits_us_digits (c :: ds) false ltac:(discriminate) Hall).
  rewrite (filter_all _ _ _ Hall), Hv. reflexivity.
Qed.

Lemma last_segment_aux_digits (ds cur : text) :
  forallb isdigit ds = true -> last_segment_aux cur ds = rev cur ++ ds.
Proof.
  revert cur. induction ds as [|c ds IH]; intros cur H; simpl.
  - symmetry. apply app_nil_r.
  - simpl in H. apply andb_true_iff in H as [Hc Hs].
    assert (Hn : (c =? 58)%N = false).
    { unfold isdigit, in_range in Hc. apply andb_true_iff in Hc as [H1 H2].
      apply N.leb_le in H1. apply N.leb_le in H2. apply N.eqb_neq. lia. }
    rewrite Hn, (IH (c :: cur) Hs). simpl. rewrite <- app_assoc. reflexivity.
Qed.

Lemma last_segment_after_colon (a ds cur : text) :
  forallb isdigit ds = true -> last_segment_aux cur (a ++ 58%N :: ds) = ds.
Proof.
  intros H. revert cur. induction a as [|x a IH]; intros cur; simpl.
  - apply (last_segment_aux_digits ds [] H).
  - destruct (x =? 58)%N; apply IH.
Qed.

(** The payload of an operator button names its booking. *)
Lemma button_payload_id (prefix : text) (bid : Z) :
  0 <= bid ->
  int_text (last_segment (prefix ++ 58%N :: str_of_Z bid)) = Some bid.
Proof.
  intros H. destruct (str_of_Z_spec bid H) as (_ & Hall & _).
  unfold last_segment. rewrite (last_segment_after_colon prefix _ [] Hall).
  apply int_text_str_of_Z. exact H.
Qed.

Lemma str_of_int_spec (n : Z) :
  str_of_int n <> []
  /\ forallb (fun c => negb (isspace c)) (str_of_int n) = true
  /\ parse_int (str_of_int n) = Some n.
Proof.
  unfold str_of_int. destruct (n <? 0) eqn:E.
  - apply Z.ltb_lt in E.
    destruct (str_of_Z_spec (- n) ltac:(lia)) as (Hne & Hall & Hv).
    assert (Hsp : forallb (fun c => negb (isspace c)) (45%N :: str_of_Z (- n)) = true)
      by (simpl; apply digits_no_space; exact Hall).
    split; [discriminate|]. split; [exact Hsp|].
    unfold parse_int. rewrite (strip_id _ Hsp).
    change ((45 =? 45)%N || (45 =? 43)%N) with true. cbv iota.
    destruct (str_of_Z (- n)) as [|c ds] eqn:Es; [congruence|].
    rewrite Hall. change ((45 =? 45)%N) with true. cbv iota.
    rewrite Hv. f_equal. lia.
  - apply Z.ltb_ge in E.
    destruct (str_of_Z_spec n E) as (Hne & Hall & Hv).
    split; [exact Hne|]. split; [apply digits_no_space; exact Hall|].
    unfold parse_int. rewrite (strip_id _ (digits_no_space _ Hall)).
    destruct (str_of_Z n) as [|c ds] eqn:Es; [congruence|].
    pose proof Hall as Hall'. simpl in Hall'. apply andb_true_iff in Hall' as [Hc _].
    destruct (digit_not_sign c Hc) as [-> ->]. cbn [orb].
    rewrite Hall, Hv. reflexivity.
Qed.

Lemma str_of_int_inj (a b : Z) : str_of_int a = str_of_int b -> a = b.
Proof.
  intros H. destruct (str_of_int_spec a) as (_ & _ & Ha).
  destruct (str_of_int_spec b) as (_ & _ & Hb). congruence.
Qed.

Section Operator.

Variable ADMIN_CHAT_ID : text.

Lemma from_admin_chat_iff (chat : Z) :
  from_admin_chat ADMIN_CHAT_ID chat = true <-> ADMIN_CHAT_ID = str_of_int chat.
Proof.
  unfold from_admin_chat. split.
  - destruct ADMIN_CHAT_ID; [discriminate|]. intros H.
    apply text_eqb_eq in H. congruence.
  - intros ->. destruct (str_of_int_spec chat) as (Hne & _ & _).
    destruct (str_of_int chat) eqn:E; [congruence|]. apply text_eqb_refl.
Qed.

(** X19.  The operator actions are accepted from at most one chat, the one
    whose id written in decimal is [ADMIN_CHAT_ID]: pressed in any other
    chat, or with no operator chat configured, the confirm and the cancel
    button only show the alert and change nothing. *)
Theorem operator_actions_need_the_operator_chat
    (now : datetime) (w : World) (call : AdminCall) :
  let chat := chat_id (admin_message call) in
  (ADMIN_CHAT_ID = [] \/ ADMIN_CHAT_ID <> str_of_int chat ->
   cb_admin_confirm ADMIN_CHAT_ID now w call = (Returned, w, [AlertNoRights])
   /\ cb_admin_cancel ADMIN_CHAT_ID now w call = (Returned, w, [AlertNoRights]))
  /\ (forall chat', from_admin_chat ADMIN_CHAT_ID chat = true ->
                    from_admin_chat ADMIN_CHAT_ID chat' = true -> chat' = chat).
Proof.
  intros chat. split.
  - intros H.
    assert (Hf : from_admin_chat ADMIN_CHAT_ID chat = false).
    { destruct (from_admin_chat ADMIN_CHAT_ID chat) eqn:E; [|reflexivity].
      apply from_admin_chat_iff in E. destruct H as [H|H]; [|congruence].
      destruct (str_of_int_spec chat) as (Hne & _). congruence. }
    unfold cb_admin_confirm, cb_admin_cancel, admin_action. fold chat.
    rewrite Hf. split; reflexivity.
  - intros chat' H1 H2. apply from_admin_chat_iff in H1, H2.
    apply str_of_int_inj. congruence.
Qed.

Lemma update_rows (now : datetime) (bid : Z) (s : status) (l : list Booking) :
  map booking_id
    (map (fun b => if booking_id b =? bid then set_status b s (isoformat_seconds now) else b) l)
  = map booking_id l.
Proof.
  induction l as [|b l IH]; simpl; [reflexivity|].
  rewrite IH. destruct (booking_id b =? bid); reflexivity.
Qed.

(** X20.  [admin_update_status] neither adds nor removes a row and changes
    no id.  When a row has the given id, every row with that id gets the
    new status and the time of the change, whatever its status was, and
    keeps its owner, guest count and creation time; the rows with another
    id keep their owner, guest count, status and time stamps; and the
    operator is told the new status.  When no row has the id, nothing is
    written and the operator is told that the booking was not found.  The
    quiz table, the ledger, the active questions and the drafts are never
    touched. *)
Theorem admin_update_status_changes_one_id
    (now : datetime) (bid : Z) (s : status) (w : World) :
  let w' := fst (admin_update_status now bid s w) in
  let out := snd (admin_update_status now bid s w) in
  map booking_id (bookings w') = map booking_id (bookings w)
  /\ (forall k b, nth_error (bookings w) k = Some b ->
        exists b',
          nth_error (bookings w') k = Some b'
          /\ booking_id b' = booking_id b
          /\ tg_user_id b' = tg_user_id b
          /\ booking_guests b' = booking_guests b
          /\ created_at b' = created_at b
          /\ booking_status b'
             = (if booking_id b =? bid then s else booking_status b)
          /\ updated_at b'
             = (if booking_id b =? bid then isoformat_seconds now else updated_at b))
  /\ (In bid (map booking_id (bookings w)) -> out = [SayStatus bid s])
  /\ (~ In bid (map booking_id (bookings w)) -> w' = w /\ out = [SayNotFound])
  /\ quiz_users w' = quiz_users w /\ coupons w' = coupons w
  /\ QUIZ_STATE w' = QUIZ_STATE w /\ BOOK_STATE w' = BOOK_STATE w.
Proof.
  cbv zeta. unfold admin_update_status.
  destruct (existsb (fun b => booking_id b =? bid) (bookings w)) eqn:E.
  - assert (Hin : In bid (map booking_id (bookings w))).
    { apply existsb_exists in E as (b & Hb & Eb). apply Z.eqb_eq in Eb.
      apply in_map_iff. exists b. auto. }
    cbn [fst snd bookings with_bookings quiz_users coupons QUIZ_STATE BOOK_STATE].
    split; [apply update_rows|]. split.
    { intros k b Hk. eexists. rewrite nth_error_map, Hk. split; [reflexivity|].
      destruct (booking_id b =? bid); repeat split; reflexivity. }
    split; [reflexivity|]. split; [tauto|]. repeat split; reflexivity.
  - assert (Hnot : ~ In bid (map booking_id (bookings w))).
    { intros H. apply in_map_iff in H as (b & Hb & Hin).
      assert (existsb (fun b => booking_id b =? bid) (bookings w) = true)
        by (apply existsb_exists; exists b; split; [exact Hin | apply Z.eqb_eq; exact Hb]).
      congruence. }
    cbn [fst snd]. split; [reflexivity|]. split.
    { intros k b Hk. exists b. split; [exact Hk|].
      destruct (Z.eqb_spec (booking_id b) bid) as [Eb|]; [|repeat split; reflexivity].
      exfalso. apply Hnot. apply in_map_iff. exists b. split; [exact Eb|].
      exact (nth_error_In _ _ Hk). }
    split; [tauto|]. split; [auto|]. repeat split; reflexivity.
Qed.

Lemma update_fresh_row (now : datetime) (s : status) (l : list Booking) (row : Booking) :
  Forall (fun b => booking_id b < booking_id row) l ->
  map (fun b => if booking_id b =? booking_id row
                then set_status b s (isoformat_seconds now) else b) (l ++ [row])
  = l ++ [set_status row s (isoformat_seconds now)].
Proof.
  intros H. rewrite map_app. simpl. rewrite Z.eqb_refl. f_equal.
  induction H as [|b l Hb Hl IH]; simpl; [reflexivity|].
  rewrite IH. destruct (Z.eqb_spec (booking_id b) (booking_id row)); [lia | reflexivity].
Qed.

(** X21.  The buttons of the operator notice act on the booking the notice
    is about.  When [ADMIN_CHAT_ID] is the decimal id of the operator chat
    and the ids of the table are not negative, a draft that passes the
    recheck is recorded as a new last row, with a notice to that chat that
    shows this row, and the confirm (cancel) button of the notice, pressed
    in that chat, reports the change for the id of the new row and leaves a
    table in which the last row has the status confirmed (canceled) and the
    time of the press as its time of change, with the id, owner, guest
    count and creation time it was recorded with, and in which the earlier
    rows have their id, owner, guest count, status and time stamps as
    before. *)
Theorem operator_buttons_reach_their_booking
    (now now2 : datetime) (w : World) (m msg : Message) (st : Draft) (chat : Z) :
  ADMIN_CHAT_ID = str_of_int chat ->
  Forall (fun b => 0 <= booking_id b) (bookings w) ->
  recheck st = true ->
  chat_id msg = chat ->
  let w' := fst (finalize_booking ADMIN_CHAT_ID now w m st) in
  let out := snd (finalize_booking ADMIN_CHAT_ID now w m st) in
  exists (row : Booking) (confirm cancel : text),
    map kept_cells (bookings w') = map kept_cells (bookings w) ++ [kept_cells row]
    /\ In (AdminBooking chat row confirm cancel) out
    /\ (let r := cb_admin_confirm ADMIN_CHAT_ID now2 w' (mkAdminCall msg confirm) in
        fst (fst r) = Returned
        /\ snd r = [SayStatus (booking_id row) StatusConfirmed; AdminAck]
        /\ map kept_cells (bookings (snd (fst r)))
           = map kept_cells (bookings w)
             ++ [kept_cells (set_status row StatusConfirmed (isoformat_seconds now2))])
    /\ (let r := cb_admin_cancel ADMIN_CHAT_ID now2 w' (mkAdminCall msg cancel) in
        fst (fst r) = Returned
        /\ snd r = [SayStatus (booking_id row) StatusCanceled; AdminAck]
        /\ map kept_cells (bookings (snd (fst r)))
           = map kept_cells (bookings w)
             ++ [kept_cells (set_status row StatusCanceled (isoformat_seconds now2))]).
Proof.
  intros Hadmin Hids Hre Hchat w' out. subst w' out.
  destruct (finalize_spec ADMIN_CHAT_ID now w m st) as [_ Ht].
  specialize (Ht Hre). cbv zeta in Ht. destruct Ht as (_ & Hb & shown & Hout).
  set (row := booking_row now w m st) in *.
  pose proof (next_booking_id_above (bookings w)) as Hlt.
  assert (Hid : booking_id row = next_booking_id (bookings w)) by reflexivity.
  rewrite <- Hid in Hlt.
  assert (Hpos : 0 <= booking_id row).
  { rewrite Hid. unfold next_booking_id.
    destruct (bookings w) as [|b df] eqn:E; [lia|].
    destruct (fold_max_ge (map booking_id df) (booking_id b)) as [H1 _].
    apply Forall_inv in Hids. lia. }
  assert (Hac : admin_chat ADMIN_CHAT_ID = Some chat).
  { destruct (str_of_int_spec chat) as (Hne & Hsp & Hp).
    unfold admin_chat. rewrite Hadmin, (strip_id _ Hsp).
    destruct (str_of_int chat); [congruence | exact Hp]. }
  rewrite Hac in Hout.
  assert (Hfrom : from_admin_chat ADMIN_CHAT_ID (chat_id msg) = true)
    by (apply from_admin_chat_iff; congruence).
  exists row, (utf8 "admin:confirm:" ++ str_of_Z (booking_id row)),
    (utf8 "admin:cancel:" ++ str_of_Z (booking_id row)).
  split; [rewrite Hb, map_app; reflexivity|].
  split; [rewrite Hout; right; left; reflexivity|].
  assert (Hact : forall (s : status) (prefix : text),
            admin_action ADMIN_CHAT_ID s now2
              (fst (finalize_booking ADMIN_CHAT_ID now w m st))
              (mkAdminCall msg (prefix ++ 58%N :: str_of_Z (booking_id row)))
            = (Returned,
               with_bookings (fst (finalize_booking ADMIN_CHAT_ID now w m st))
                 (bookings w ++ [set_status row s (isoformat_seconds now2)]),
               [SayStatus (booking_id row) s; AdminAck])).
  { intros s prefix. unfold admin_action.
    cbn [admin_message admin_data]. rewrite Hfrom.
    rewrite (button_payload_id prefix (booking_id row) Hpos).
    unfold admin_update_status. rewrite Hb.
    rewrite existsb_app. simpl. rewrite Z.eqb_refl, orb_true_r.
    rewrite <- Hid.
    rewrite (update_fresh_row now2 s (bookings w) row Hlt). reflexivity. }
  split.
  - cbv zeta. unfold cb_admin_confirm.
    change (utf8 "admin:confirm:" ++ str_of_Z (booking_id row))
      with (utf8 "admin:confirm" ++ 58%N :: str_of_Z (booking_id row)).
    rewrite (Hact StatusConfirmed (utf8 "admin:confirm")).
    cbn [fst snd bookings with_bookings]. rewrite map_app. repeat split; reflexivity.
  - cbv zeta. unfold cb_admin_cancel.
    change (utf8 "admin:cancel:" ++ str_of_Z (booking_id row))
      with (utf8 "admin:cancel" ++ 58%N :: str_of_Z (booking_id row)).
    rewrite (Hact StatusCanceled (utf8 "admin:cancel")).
    cbn [fst snd bookings with_bookings]. rewrite map_app. repeat split; reflexivity.
Qed.

End Operator.

(** * Replies *)

Section Replies.

Variable QUIZ : list QuizRow.
Variable ADMIN_CHAT_ID : text.
Variable RECURSION_LIMIT : nat.

(** [start_quiz_for_user] sends at least one message and never answers a
    callback. *)
Lemma start_says (depth : nat) (now : datetime) (w : World) (m : Message) :
  let out := snd (start_quiz_for_user QUIZ depth now w m) in
  out <> [] /\ ~ In Ack out /\ ~ In SayWentWrong out.
Proof.
  assert (Hone : forall o : output, o <> Ack -> o <> SayWentWrong ->
            [o] <> [] /\ ~ In Ack [o] /\ ~ In SayWentWrong [o]).
  { intros o H1 H2. split; [discriminate|].
    split; intros [E|[]]; congruence. }
  revert w. induction depth as [|depth IH]; intros w; cbn [start_quiz_for_user].
  all: destruct (awarded _ =? 1); [apply Hone; discriminate|].
  all: destruct (check_lock now _ w) as [until|[st1 w1]]; [apply Hone; discriminate|].
  all: destruct (pick_quiz_question QUIZ w1) as [[row|] w2]; [|apply Hone; discriminate].
  all: destruct (options_list row); [|apply Hone; discriminate].
  - apply Hone; discriminate.
  - specialize (IH w2). cbv zeta in IH.
    destruct (start_quiz_for_user QUIZ depth now w2 m) as [[e w3] out].
    cbn [snd] in *. destruct IH as (_ & H2 & H3).
    split; [discriminate|]. split; intros [E|E]; try discriminate E; tauto.
Qed.

Lemma notify_no_ack (c : text) (u : User) :
  ~ In Ack (notify_admin_coupon ADMIN_CHAT_ID c u).
Proof.
  unfold notify_admin_coupon. destruct (admin_chat ADMIN_CHAT_ID); simpl;
    [intros [E|[]]; discriminate E | tauto].
Qed.

(** X22.  On every path [cb_quiz_answer] answers the callback exactly
    once, and as the last thing it does: whether the payload is malformed,
    the user holds the award, the question is closed, the answer is right
    or wrong, or the start of the next attempt raises. *)
Theorem quiz_answer_acknowledges_once
    (now : datetime) (w : World) (call : CallbackQuery) :
  exists out : list output,
    snd (cb_quiz_answer QUIZ ADMIN_CHAT_ID RECURSION_LIMIT now w call) = out ++ [Ack]
    /\ ~ In Ack out.
Proof.
  set (v := uid (call_from_user call)).
  assert (Hstart : forall (w0 : World) (first : output) (f : World -> World),
            first <> Ack ->
            exists out : list output,
              snd (let '(e, w', out0) :=
                     start_quiz_for_user QUIZ RECURSION_LIMIT now w0 (call_message call) in
                   match e with
                   | Returned => (f w', first :: out0 ++ [Ack])
                   | Raised => (w', first :: out0 ++ [SayWentWrong; Ack])
                   end) = out ++ [Ack]
              /\ ~ In Ack out).
  { intros w0 first f Hfirst.
    destruct (start_says RECURSION_LIMIT now w0 (call_message call)) as (_ & Hno & _).
    destruct (start_quiz_for_user QUIZ RECURSION_LIMIT now w0 (call_message call))
      as [[e w1] out0]. cbn [snd] in *.
    destruct e; cbn [snd].
    - exists (first :: out0). split; [reflexivity|].
      intros [E|E]; [congruence | tauto].
    - exists (first :: out0 ++ [SayWentWrong]). split.
      + simpl. rewrite <- app_assoc. reflexivity.
      + intros [E|E]; [congruence|]. apply in_app_or in E as [E|[E|[]]];
          [tauto | discriminate E]. }
  destruct (call_data call) as [[qid opt]|] eqn:Hd.
  2:{ unfold cb_quiz_answer. rewrite Hd. exists [SayWentWrong].
      split; [reflexivity | intros [E|[]]; discriminate E]. }
  destruct (Z.eq_dec (awarded (get_user_quiz_state v w)) 1) as [Ha|Ha].
  { rewrite (answer_awarded QUIZ ADMIN_CHAT_ID RECURSION_LIMIT now w call qid opt Hd Ha).
    exists [SayAlreadyWon]. split; [reflexivity | intros [E|[]]; discriminate E]. }
  destruct (answer_cases w qid) as [Hst|[correct Hl]].
  { rewrite (answer_stale QUIZ ADMIN_CHAT_ID RECURSION_LIMIT now w call qid opt Hd Ha Hst).
    apply (Hstart w SayClosed (fun x => x)). discriminate. }
  destruct (text_eqb opt correct) eqn:Eo.
  2:{ assert (Hne : opt <> correct)
        by (intros ->; rewrite text_eqb_refl in Eo; discriminate).
      rewrite (answer_incorrect QUIZ ADMIN_CHAT_ID RECURSION_LIMIT now w call
                 qid opt correct Hd Ha Hl Hne).
      eexists [_]. split; [reflexivity | intros [E|[]]; discriminate E]. }
  apply text_eqb_eq in Eo. subst opt.
  destruct (Z_lt_ge_dec (streak (get_user_quiz_state v w) + 1) 3) as [Hlt|Hge].
  { pose proof (answer_correct_chain QUIZ ADMIN_CHAT_ID RECURSION_LIMIT now w call
                  qid correct Hd Ha Hl Hlt) as E.
    cbv zeta in E. rewrite E.
    apply (Hstart _ (SayCorrect _) (fun w' => with_QUIZ_STATE w' (delete qid (QUIZ_STATE w')))).
    discriminate. }
  assert (H3 : 3 <= streak (get_user_quiz_state (uid (call_from_user call)) w) + 1)
    by (fold v; lia).
  destruct (Z.eq_dec (awarded (get_user_quiz_state v w)) 0) as [H0|H0].
  - pose proof (answer_award QUIZ ADMIN_CHAT_ID RECURSION_LIMIT now w call
                  qid correct Hd H0 Hl H3) as E.
    cbv zeta in E. rewrite E. cbn [snd].
    eexists. split; [reflexivity|].
    intros [E1|E1]; [discriminate E1|]. exact (notify_no_ack _ _ E1).
  - rewrite (answer_prize_again QUIZ ADMIN_CHAT_ID RECURSION_LIMIT now w call
               qid correct Hd Ha H0 Hl H3).
    exists [SayPrizeAgain]. split; [reflexivity | intros [E|[]]; discriminate E].
Qed.

Lemma finalize_says (now : datetime) (w : World) (m : Message) (st : Draft) :
  snd (finalize_booking ADMIN_CHAT_ID now w m st) <> [].
Proof.
  destruct (finalize_spec ADMIN_CHAT_ID now w m st) as [Hf Ht].
  destruct (recheck st).
  - destruct (Ht eq_refl) as (_ & _ & shown & ->). discriminate.
  - rewrite (Hf eq_refl). discriminate.
Qed.

(** X23.  Every text message gets a reply: whatever the text and the
    state, [universal_router] sends at least one message, also when the
    start of the quiz raises. *)
Theorem every_message_is_answered (now : datetime) (w : World) (m : Message) :
  snd (universal_router QUIZ ADMIN_CHAT_ID RECURSION_LIMIT now w m) <> [].
Proof.
  unfold universal_router.
  set (u := uid (from_user m)). set (st := BOOK_STATE w !! u).
  set (i := detect_intent (message_text m) (in_flow st)).
  assert (Hi : snd (intent_reply QUIZ RECURSION_LIMIT now w m i) <> []
               \/ (intent_reply QUIZ RECURSION_LIMIT now w m i = (Returned, w, [])
                   /\ (i = Some Book \/ i = None))).
  { destruct i as [[]|]; cbn [intent_reply].
    - left; discriminate.
    - left; discriminate.
    - left. apply start_says.
    - right. auto.
    - right. auto. }
  assert (Happ : forall a b : list output, a <> [] -> a ++ b <> []).
  { intros a b H E. apply app_eq_nil in E as [E _]. auto. }
  assert (Happ' : forall a b : list output, b <> [] -> a ++ b <> []).
  { intros a b H E. apply app_eq_nil in E as [_ E]. auto. }
  assert (Hbook : forall (w1 : World) (out1 : list output),
            snd (let st1 := turn_draft now st m in
                 let w0 := with_BOOK_STATE w1 (<[u := st1]> (BOOK_STATE w1)) in
                 match missing_fields st1 with
                 | [] => let '(w', out') := finalize_booking ADMIN_CHAT_ID now w0 m st1 in
                         (Returned, w', out1 ++ out')
                 | x :: l => (Returned, w0, out1 ++ [SayUnderstood (known_parts st1) (x :: l)])
                 end) <> []).
  { intros w1 out1. cbv zeta.
    destruct (missing_fields (turn_draft now st m)).
    - pose proof (finalize_says now
                    (with_BOOK_STATE w1 (<[u := turn_draft now st m]> (BOOK_STATE w1)))
                    m (turn_draft now st m)) as Hf.
      destruct (finalize_booking ADMIN_CHAT_ID now _ m (turn_draft now st m)) as [w3 out3].
      cbn [snd] in *. apply Happ'. exact Hf.
    - cbn [snd]. apply Happ'. discriminate. }
  destruct Hi as [Hi|[Hi Hint]].
  - destruct (intent_reply QUIZ RECURSION_LIMIT now w m i) as [[e w1] out1].
    cbn [snd] in Hi. destruct e; [|exact Hi].
    destruct (enters_booking now st i (message_text m)).
    + specialize (Hbook w1 out1). cbv zeta in Hbook.
      destruct (missing_fields (turn_draft now st m)).
      * destruct (finalize_booking ADMIN_CHAT_ID now _ m (turn_draft now st m)).
        cbn [snd]. apply Happ. exact Hi.
      * cbn [snd]. apply Happ. exact Hi.
    + destruct (negb (is_some i) && negb (in_flow st)); cbn [snd];
        [apply Happ|]; exact Hi.
  - rewrite Hi.
    destruct (enters_booking now st i (message_text m)) eqn:He.
    + apply Hbook.
    + assert (Hu : negb (is_some i) && negb (in_flow st) = true).
      { unfold enters_booking in He.
        destruct (parse_booking_phrase now (message_text m)) as [[[d t] g1] g2].
        destruct Hint as [-> | ->]; [discriminate He|].
        cbn in He. destruct (in_flow st); [discriminate He | reflexivity]. }
      rewrite Hu. discriminate.
Qed.

End Replies.

(** * The list of today's bookings *)

Lemma text_leb_total (a b : text) : text_leb a b = false -> text_leb b a = true.
Proof.
  revert b. induction a as [|x a IH]; intros [|y b]; simpl; try discriminate; auto.
  intros H. apply orb_false_iff in H as [H1 H2]. apply N.ltb_ge in H1.
  destruct (N.eqb_spec x y) as [->|Hne].
  - simpl in H2. rewrite N.eqb_refl, (IH b H2). apply orb_true_r.
  - replace (y <? x)%N with true; [reflexivity|]. symmetry. apply N.ltb_lt. lia.
Qed.

Lemma text_leb_trans (a b c : text) :
  text_leb a b = true -> text_leb b c = true -> text_leb a c = true.
Proof.
  revert b c. induction a as [|x a IH]; intros [|y b] [|z c]; simpl;
    try discriminate; auto.
  intros H1 H2.
  apply orb_true_iff in H1 as [H1|H1]; apply orb_true_iff in H2 as [H2|H2].
  - apply N.ltb_lt in H1. apply N.ltb_lt in H2.
    replace (x <? z)%N with true; [reflexivity|]. symmetry. apply N.ltb_lt. lia.
  - apply N.ltb_lt in H1. apply andb_true_iff in H2 as [H2 _]. apply N.eqb_eq in H2.
    replace (x <? z)%N with true; [reflexivity|]. symmetry. apply N.ltb_lt. lia.
  - apply N.ltb_lt in H2. apply andb_true_iff in H1 as [H1 _]. apply N.eqb_eq in H1.
    replace (x <? z)%N with true; [reflexivity|]. symmetry. apply N.ltb_lt. lia.
  - apply andb_true_iff in H1 as [E1 H1]. apply andb_true_iff in H2 as [E2 H2].
    apply N.eqb_eq in E1. apply N.eqb_eq in E2. subst.
    rewrite N.eqb_refl, (IH b c H1 H2). apply orb_true_r.
Qed.

(** Rows in the order of their times. *)
Fixpoint ascending (l : list Booking) : Prop :=
  match l with
  | [] => True
  | b :: l' =>
      Forall (fun c => text_leb (booking_time b) (booking_time c) = true) l'
      /\ ascending l'
  end.

Lemma insert_by_time_perm (b : Booking) (l : list Booking) :
  Permutation (insert_by_time b l) (b :: l).
Proof.
  induction l as [|c l IH]; simpl; [reflexivity|].
  destruct (text_leb (booking_time b) (booking_time c)); [reflexivity|].
  rewrite IH. apply perm_swap.
Qed.

Lemma insert_by_time_ascending (b : Booking) (l : list Booking) :
  ascending l -> ascending (insert_by_time b l).
Proof.
  induction l as [|c l IH]; simpl; [auto|].
  intros [Hc Hl].
  destruct (text_leb (booking_time b) (booking_time c)) eqn:E; simpl.
  - split; [|auto]. constructor; [exact E|].
    eapply Forall_impl; [|exact Hc]. cbv beta. intros d Hd.
    exact (text_leb_trans _ _ _ E Hd).
  - split; [|exact (IH Hl)].
    assert (Hall : Forall (fun d => text_leb (booking_time c) (booking_time d) = true)
                     (b :: l))
      by (constructor; [exact (text_leb_total _ _ E) | exact Hc]).
    rewrite Forall_forall in *. intros d Hd. apply Hall.
    exact (Permutation_in _ (insert_by_time_perm b l) Hd).
Qed.

Lemma sort_by_time_spec (l : list Booking) :
  Permutation (sort_by_time l) l /\ ascending (sort_by_time l).
Proof.
  induction l as [|b l [IHp IHa]]; simpl; [split; [reflexivity | exact I]|].
  split.
  - rewrite insert_by_time_perm, IHp. reflexivity.
  - apply insert_by_time_ascending. exact IHa.
Qed.

(** X24.  [cmd_bookings_today] answers outside the operator chat only
    with the refusal.  In the operator chat it lists the rows of the table
    whose date is today's, each once and no other row, in the ascending
    order of their times; when no row is dated today, and only then, it
    says that there are no bookings today. *)
Theorem bookings_today_lists_todays_rows
    (ADMIN_CHAT_ID : text) (now : datetime) (w : World) (message : Message) :
  let today := date_isoformat (dt_date now) in
  let out := cmd_bookings_today ADMIN_CHAT_ID now w message in
  (from_admin_chat ADMIN_CHAT_ID (chat_id message) = false -> out = [SayAdminOnly])
  /\ (from_admin_chat ADMIN_CHAT_ID (chat_id message) = true ->
      (out = [SayNoneToday]
       /\ Forall (fun b => booking_date b <> today) (bookings w))
      \/ exists rows,
           out = [SayToday rows]
           /\ rows <> []
           /\ ascending rows
           /\ Permutation rows
                (filter (fun b => text_eqb (booking_date b) today) (bookings w))
           /\ forall b, In b rows <-> In b (bookings w) /\ booking_date b = today).
Proof.
  intros today out. subst out. unfold cmd_bookings_today. fold today.
  split; [intros ->; reflexivity|]. intros ->.
  destruct (filter (fun b => text_eqb (booking_date b) today) (bookings w))
    as [|b0 l] eqn:E.
  - left. split; [reflexivity|]. apply Forall_forall. intros b Hb Hd.
    assert (Hin : In b (filter (fun b => text_eqb (booking_date b) today) (bookings w))).
    { apply filter_In. split; [exact Hb | apply text_eqb_eq; exact Hd]. }
    rewrite E in Hin. destruct Hin.
  - right. destruct (sort_by_time_spec (b0 :: l)) as [Hp Ha].
    exists (sort_by_time (b0 :: l)). split; [reflexivity|].
    split.
    { intros Hn. rewrite Hn in Hp. apply Permutation_nil in Hp. discriminate Hp. }
    split; [exact Ha|]. split; [exact Hp|].
    intros b. split.
    + intros Hb. apply (Permutation_in _ Hp) in Hb. rewrite <- E in Hb.
      apply filter_In in Hb as [H1 H2]. apply text_eqb_eq in H2. auto.
    + intros [H1 H2]. apply (Permutation_in _ (Permutation_sym Hp)).
      rewrite <- E. apply filter_In. split; [exact H1 | apply text_eqb_eq; exact H2].
Qed.

(** * The quiz button *)

(** X26.  The quiz button of the start menu, like every start of an
    attempt, changes no score: the coupons, the bookings and the drafts
    stay as they are, and so do the streak and the award flag of every
    user; a lock is left as it is or cleared.  When the start returns, the
    callback is answered once, after the messages of the attempt. *)
Theorem quiz_button_changes_no_score
    (QUIZ : list QuizRow) (RECURSION_LIMIT : nat)
    (now : datetime) (w : World) (call : CallbackQuery) :
  let r := cb_quiz QUIZ RECURSION_LIMIT now w call in
  let w' := snd (fst r) in
  coupons w' = coupons w /\ bookings w' = bookings w /\ BOOK_STATE w' = BOOK_STATE w
  /\ (forall u,
        awarded (get_user_quiz_state u w') = awarded (get_user_quiz_state u w)
        /\ streak (get_user_quiz_state u w') = streak (get_user_quiz_state u w)
        /\ (locked_until_iso (get_user_quiz_state u w')
            = locked_until_iso (get_user_quiz_state u w)
            \/ locked_until_iso (get_user_quiz_state u w') = IsoEmpty))
  /\ (fst (fst r) = Returned ->
      exists out, snd r = out ++ [Ack] /\ out <> [] /\ ~ In Ack out)
  /\ (fst (fst r) = Raised -> ~ In Ack (snd r)).
Proof.
  cbv zeta.
  destruct (cb_quiz_quiet QUIZ RECURSION_LIMIT now w call) as [Hc Hb Hd Ha Hs Hl].
  repeat (split; [solve [auto]|]).
  unfold cb_quiz.
  destruct (start_says QUIZ RECURSION_LIMIT now w (call_message call)) as (H1 & H2 & _).
  destruct (start_quiz_for_user QUIZ RECURSION_LIMIT now w (call_message call))
    as [[e w1] out]. cbn [snd] in H1, H2.
  destruct e; cbn [fst snd]; split; try discriminate.
  - intros _. exists out. auto.
  - intros _. exact H2.
Qed.

(** * Worked instances of the further properties *)

Definition full_draft : Draft :=
  mkDraft (Some (mkdate 2026 11 6)) (Some (utf8 "19:00")) (Some 2) (Some 4)
    (Some (utf8 "+79991234567")) (Some (utf8 "Alex")).

Definition drafting : World :=
  mkWorld [] [] []
    ∅ {[ 42 := mkDraft (Some (mkdate 2026 11 6)) None None None None
                  (Some (utf8 "Alex")) ]}
    (fun i => Z.of_nat i) 0.

Lemma day_after_tomorrow_reads_as_tomorrow_witness :
  date_numeric noon (normalize_text (utf8 "послезавтра")) = None
  /\ contains (utf8 "сегодня") (normalize_text (utf8 "послезавтра")) = false
  /\ contains (utf8 "послезавтра") (normalize_text (utf8 "послезавтра"))
     || contains (utf8 "после завтра") (normalize_text (utf8 "послезавтра")) = true
  /\ extract_date noon (utf8 "послезавтра") = Some (dt_date (dt_add_days noon 1)).
Proof.
  assert (H1 : date_numeric noon (normalize_text (utf8 "послезавтра")) = None)
    by (vm_compute; reflexivity).
  assert (H2 : contains (utf8 "сегодня") (normalize_text (utf8 "послезавтра")) = false)
    by (vm_compute; reflexivity).
  assert (H3 : contains (utf8 "послезавтра") (normalize_text (utf8 "послезавтра"))
               || contains (utf8 "после завтра") (normalize_text (utf8 "послезавтра"))
               = true) by (vm_compute; reflexivity).
  refine (conj H1 (conj H2 (conj H3 _))).
  exact (day_after_tomorrow_reads_as_tomorrow noon (utf8 "послезавтра") H1 H2 H3).
Defined.

(** What the pattern "n-го" captures in "5-го". *)
Definition fifth : captures :=
  Eval vm_compute in
    match re_search ORDINAL_RE_GO (normalize_text (utf8 "5-го")) with
    | Some m => m
    | None => []
    end.

Lemma day_of_month_is_strictly_future_witness :
  date_numeric noon (normalize_text (utf8 "5-го")) = None
  /\ contains (utf8 "сегодня") (normalize_text (utf8 "5-го")) = false
  /\ contains (utf8 "завтра") (normalize_text (utf8 "5-го")) = false
  /\ first_weekday WEEKDAY_FULL (normalize_text (utf8 "5-го")) = None
  /\ or_else (re_search ORDINAL_RE_GO (normalize_text (utf8 "5-го")))
       (re_search ORDINAL_RE_CHISLA (normalize_text (utf8 "5-го"))) = Some fifth
  /\ numeral (group_text 1 fifth) = 5
  /\ dt_date noon = mkdate 2026 11 5
  /\ extract_date noon (utf8 "5-го") = Some (mkdate 2026 12 5).
Proof.
  assert (H1 : date_numeric noon (normalize_text (utf8 "5-го")) = None)
    by (vm_compute; reflexivity).
  assert (H2 : contains (utf8 "сегодня") (normalize_text (utf8 "5-го")) = false)
    by (vm_compute; reflexivity).
  assert (H3 : contains (utf8 "завтра") (normalize_text (utf8 "5-го")) = false)
    by (vm_compute; reflexivity).
  assert (H4 : first_weekday WEEKDAY_FULL (normalize_text (utf8 "5-го")) = None)
    by (vm_compute; reflexivity).
  assert (H5 : or_else (re_search ORDINAL_RE_GO (normalize_text (utf8 "5-го")))
                 (re_search ORDINAL_RE_CHISLA (normalize_text (utf8 "5-го")))
               = Some fifth)
    by (vm_compute; reflexivity).
  assert (H6 : numeral (group_text 1 fifth) = 5) by (vm_compute; reflexivity).
  assert (H7 : dt_date noon = mkdate 2026 11 5) by (vm_compute; reflexivity).
  refine (conj H1 (conj H2 (conj H3 (conj H4 (conj H5 (conj H6 (conj H7 _))))))).
  refine (eq_trans (proj1 (day_of_month_is_strictly_future noon (utf8 "5-го") fifth
                             H1 H2 H3 H4 H5)) _).
  vm_compute. reflexivity.
Defined.

Lemma extract_time_is_time_of_day_witness :
  extract_time (utf8 "в 19:30") = Some (utf8 "19:30")
  /\ exists hh mm : Z,
       0 <= hh <= 23 /\ 0 <= mm <= 59
       /\ utf8 "19:30" = zfill 2 hh ++ utf8 ":" ++ zfill 2 mm
       /\ List.length (zfill 2 hh) = 2%nat /\ forallb isdigit (zfill 2 hh) = true
       /\ List.length (zfill 2 mm) = 2%nat /\ forallb isdigit (zfill 2 mm) = true.
Proof.
  assert (H1 : extract_time (utf8 "в 19:30") = Some (utf8 "19:30"))
    by (vm_compute; reflexivity).
  refine (conj H1 _).
  exact (extract_time_is_time_of_day (utf8 "в 19:30") (utf8 "19:30") H1).
Defined.

Lemma extract_phone_is_digits_witness :
  extract_phone (utf8 "+7 (999) 123-45-67") = Some (utf8 "+79991234567")
  /\ exists ds : text,
       forallb isdigit ds = true
       /\ (8 <= List.length ds)%nat
       /\ (utf8 "+79991234567" = ds \/ utf8 "+79991234567" = 43%N :: ds).
Proof.
  assert (H1 : extract_phone (utf8 "+7 (999) 123-45-67") = Some (utf8 "+79991234567"))
    by (vm_compute; reflexivity).
  refine (conj H1 _).
  exact (extract_phone_is_digits (utf8 "+7 (999) 123-45-67") (utf8 "+79991234567") H1).
Defined.

Lemma extract_name_is_letters_witness :
  extract_name_from_contact_text (utf8 "+79991234567 Алексей")
    (Some (utf8 "+79991234567")) = Some (utf8 "Алексей")
  /\ utf8 "Алексей" <> []
  /\ forallb (fun c => isalpha c || (c =? 32)%N) (utf8 "Алексей") = true
  /\ forallb (fun c => negb (isdigit c)) (utf8 "Алексей") = true.
Proof.
  assert (H1 : extract_name_from_contact_text (utf8 "+79991234567 Алексей")
                 (Some (utf8 "+79991234567")) = Some (utf8 "Алексей"))
    by (vm_compute; reflexivity).
  refine (conj H1 _).
  exact (extract_name_is_letters (utf8 "+79991234567 Алексей")
           (Some (utf8 "+79991234567")) (utf8 "Алексей") H1).
Defined.

Lemma extract_guests_range_is_range_witness :
  extract_guests_range (utf8 "от 5 до 3") = (Some 3, Some 5)
  /\ exists b : Z, Some 5 = Some b /\ 3 <= b.
Proof.
  assert (H1 : extract_guests_range (utf8 "от 5 до 3") = (Some 3, Some 5))
    by (vm_compute; reflexivity).
  refine (conj H1 _).
  exact (extract_guests_range_is_range (utf8 "от 5 до 3") (Some 3) (Some 5) H1 3 eq_refl).
Defined.

Lemma pick_quiz_question_prefers_active_witness :
  [bare_row; sample_row] <> []
  /\ exists row : QuizRow,
       fst (pick_quiz_question [bare_row; sample_row] fresh_world) = Some row
       /\ In row [bare_row; sample_row]
       /\ (existsb row_active [bare_row; sample_row] = true -> row_active row = true).
Proof.
  assert (H1 : [bare_row; sample_row] <> []) by discriminate.
  refine (conj H1 _).
  exact (pick_quiz_question_prefers_active [bare_row; sample_row] fresh_world H1).
Defined.

Lemma registered_letter_is_abcd_witness :
  options_list sample_row <> []
  /\ In (correct_letter sample_row (options_list sample_row)) LETTERS.
Proof.
  assert (H1 : options_list sample_row <> []) by (vm_compute; discriminate).
  refine (conj H1 _).
  exact (proj1 (registered_letter_is_abcd sample_row 7 H1)).
Defined.

Lemma start_raises_on_bank_without_options_witness :
  [bare_row] <> []
  /\ Forall (fun r => options_list r = []) (quiz_pool [bare_row])
  /\ awarded (get_user_quiz_state 42 fresh_world) <> 1
  /\ (forall t, locked_until_iso (get_user_quiz_state 42 fresh_world) = IsoOf t ->
                dt_ltb noon t = false)
  /\ fst (fst (start_quiz_for_user [bare_row] 3 noon fresh_world
                 (text_from alexey "квиз"))) = Raised.
Proof.
  assert (H1 : [bare_row] <> []) by discriminate.
  assert (H2 : Forall (fun r => options_list r = []) (quiz_pool [bare_row]))
    by (change (quiz_pool [bare_row]) with [bare_row];
        constructor; [vm_compute; reflexivity | constructor]).
  assert (H3 : awarded (get_user_quiz_state 42 fresh_world) <> 1)
    by (vm_compute; discriminate).
  assert (H4 : forall t, locked_until_iso (get_user_quiz_state 42 fresh_world) = IsoOf t ->
                         dt_ltb noon t = false)
    by (intros t H; vm_compute in H; discriminate H).
  refine (conj H1 (conj H2 (conj H3 (conj H4 _)))).
  exact (proj1 (start_raises_on_bank_without_options [bare_row] 3 noon fresh_world
                  (text_from alexey "квиз") H1 H2 H3 H4)).
Defined.

Lemma eligible_user_gets_a_question_witness :
  awarded (get_user_quiz_state 42 fresh_world) <> 1
  /\ (forall t, locked_until_iso (get_user_quiz_state 42 fresh_world) = IsoOf t ->
                dt_ltb noon t = false)
  /\ iso_truthy
       (locked_until_iso
          (get_user_quiz_state 42
             (snd (fst (start_quiz_for_user [bare_row; sample_row] 3 noon fresh_world
                          (text_from alexey "квиз")))))) = false.
Proof.
  assert (H3 : awarded (get_user_quiz_state 42 fresh_world) <> 1)
    by (vm_compute; discriminate).
  assert (H4 : forall t, locked_until_iso (get_user_quiz_state 42 fresh_world) = IsoOf t ->
                         dt_ltb noon t = false)
    by (intros t H; vm_compute in H; discriminate H).
  refine (conj H3 (conj H4 _)).
  exact (proj1 (eligible_user_gets_a_question [bare_row; sample_row] 3 noon fresh_world
                  (text_from alexey "квиз") H3 H4)).
Defined.

Lemma at_most_one_coupon_per_user_witness :
  ledger_ok fresh_world
  /\ ledger_ok
       (run [sample_row] OPERATOR_CHAT 1000
          [QuizButton noon (press alexey 7 "b"); QuizAnswer noon (press alexey 7 "b")]
          fresh_world).
Proof.
  assert (H1 : ledger_ok fresh_world) by (intros u; left; reflexivity).
  refine (conj H1 _).
  exact (at_most_one_coupon_per_user [sample_row] OPERATOR_CHAT 1000
           [QuizButton noon (press alexey 7 "b"); QuizAnswer noon (press alexey 7 "b")]
           fresh_world H1).
Defined.

Lemma streak_stays_below_three_witness :
  streaks_ok two_in_a_row
  /\ streaks_ok
       (run [sample_row] OPERATOR_CHAT 1000
          [QuizAnswer noon (press alexey 7 "b")] two_in_a_row).
Proof.
  assert (H1 : streaks_ok two_in_a_row).
  { intros u. unfold get_user_quiz_state, two_in_a_row.
    cbn [quiz_users find user_id].
    destruct (42 =? u); cbn [streak default_quiz_state]; lia. }
  refine (conj H1 _).
  exact (streak_stays_below_three [sample_row] OPERATOR_CHAT 1000
           [QuizAnswer noon (press alexey 7 "b")] two_in_a_row H1).
Defined.

Lemma draft_is_kept_until_recorded_witness :
  let st := mkDraft (Some (mkdate 2026 11 6)) None None None None (Some (utf8 "Alex")) in
  let w' := snd (fst (universal_router [] OPERATOR_CHAT 1000 noon drafting
                        (text_from alexey "в 19:00"))) in
  BOOK_STATE drafting !! 42 = Some st
  /\ draft_truthy st = true
  /\ ((BOOK_STATE w' !! 42 = None
       /\ exists row, bookings w' = bookings drafting ++ [row] /\ tg_user_id row = 42)
      \/ (bookings w' = bookings drafting
          /\ exists st', BOOK_STATE w' !! 42 = Some st'
                         /\ (st' = st \/ keeps_fields st st' = true))).
Proof.
  intros st w'.
  assert (H1 : BOOK_STATE drafting !! 42 = Some st) by (vm_compute; reflexivity).
  assert (H2 : draft_truthy st = true) by reflexivity.
  refine (conj H1 (conj H2 _)).
  exact (draft_is_kept_until_recorded [] OPERATOR_CHAT 1000 noon drafting
           (text_from alexey "в 19:00") st H1 H2).
Defined.

Lemma operator_buttons_reach_their_booking_witness :
  let w' := fst (finalize_booking OPERATOR_CHAT noon fresh_world
                   (text_from alexey "ок") full_draft) in
  let out := snd (finalize_booking OPERATOR_CHAT noon fresh_world
                    (text_from alexey "ок") full_draft) in
  let msg := mkMessage alexey (-100500) [] in
  OPERATOR_CHAT = str_of_int (-100500)
  /\ Forall (fun b => 0 <= booking_id b) (bookings fresh_world)
  /\ recheck full_draft = true
  /\ chat_id msg = -100500
  /\ exists (row : Booking) (confirm cancel : text),
       map kept_cells (bookings w')
       = map kept_cells (bookings fresh_world) ++ [kept_cells row]
       /\ In (AdminBooking (-100500) row confirm cancel) out
       /\ (let r := cb_admin_confirm OPERATOR_CHAT noon w' (mkAdminCall msg confirm) in
           fst (fst r) = Returned
           /\ snd r = [SayStatus (booking_id row) StatusConfirmed; AdminAck]
           /\ map kept_cells (bookings (snd (fst r)))
              = map kept_cells (bookings fresh_world)
                ++ [kept_cells (set_status row StatusConfirmed (isoformat_seconds noon))])
       /\ (let r := cb_admin_cancel OPERATOR_CHAT noon w' (mkAdminCall msg cancel) in
           fst (fst r) = Returned
           /\ snd r = [SayStatus (booking_id row) StatusCanceled; AdminAck]
           /\ map kept_cells (bookings (snd (fst r)))
              = map kept_cells (bookings fresh_world)
                ++ [kept_cells (set_status row StatusCanceled (isoformat_seconds noon))]).
Proof.
  intros w' out msg.
  assert (H1 : OPERATOR_CHAT = str_of_int (-100500)) by (vm_compute; reflexivity).
  assert (H2 : Forall (fun b => 0 <= booking_id b) (bookings fresh_world))
    by constructor.
  assert (H3 : recheck full_draft = true) by (vm_compute; reflexivity).
  assert (H4 : chat_id msg = -100500) by reflexivity.
  refine (conj H1 (conj H2 (conj H3 (conj H4 _)))).
  exact (operator_buttons_reach_their_booking OPERATOR_CHAT noon noon fresh_world
           (text_from alexey "ок") msg full_draft (-100500) H1 H2 H3 H4).
Defined.
